(** * Multi-source indicator reconciliation: a model of the fetch scripts

    The repository is a set of Python scripts that read country-level
    indicators from spreadsheets, CSV files and JSON APIs and fold them into
    per-source JSON stores keyed by three-letter country code.  This file
    embeds the decision logic of those scripts:

    - [Py]        the Python values and built-ins the scripts rely on;
    - [Persist]   the [open(path, "w")] / [json.dump] ending of a [main],
                  and how a run ends;
    - [UN]        [scripts/fet_UN_data.py]  (header search, column mapping,
                  row extraction, fill-only merge, [find_file], [main]);
    - [Sipri]     [scripts/fetch_sipri.py]  (country names, header search,
                  latest-year selection over year columns, [main]);
    - [Owid]      [scripts/fetch_owid.py]   ([extract_latest], [find_col],
                  [auto_val_col], [store]);
    - [Imf]       [scripts/fetch_imf_data.py] ([fetch_indicator]);
    - [Unesco]    [scripts/fetch_unesco.py] (the merge of [main]);
    - [WorldBank] [scripts/fetch_worldbank.py] (the accumulation of [main]).

    Conventions.  A Python [str] is the [string] of its UTF-8 bytes: [len]
    counts code points ([py_len]) and [strip] removes the white space of
    Python, ASCII or not; case mapping and digit tests are the ASCII ones.
    A Python [float] is the exact rational it denotes, kept in lowest terms:
    rounding to a double is not modelled, overflow is ([out_of_range]).
    Python dictionaries that are only looked up and updated are [gmap]s; the
    one whose iteration order can be observed ([field_cols]) is an
    insertion-ordered association list.  What the libraries and the file
    system give (pycountry, pandas, openpyxl, [json], the storage) enters as
    records of results; what a script prints is left out. *)

From Stdlib Require Import QArith Qabs ZArith Ascii String List Permutation Sorted.
From stdpp Require Import gmap strings list fin_maps pretty sorting.
Close Scope Q_scope.
Open Scope string_scope.

(* ===================================================================== *)
(** * Python values and built-ins *)
(* ===================================================================== *)

Module Py.

(** ** Exceptions *)

Inductive exn : Type :=
  | ValueError | TypeError | OverflowError | AttributeError
  | LookupError | ImportError | OSError.

#[global] Instance exn_eq_dec : EqDecision exn.
Proof. solve_decision. Defined.

(** A computation either returns or raises. *)
Inductive outcome (A : Type) : Type :=
  | Ok (a : A)
  | Raise (e : exn).
Arguments Ok {A} a.
Arguments Raise {A} e.

#[global] Instance outcome_ret : MRet outcome := fun _ a => Ok a.
#[global] Instance outcome_bind : MBind outcome := fun _ _ f c =>
  match c with Ok a => f a | Raise e => Raise e end.

(** [try: c  except (e1, ..., en): h] *)
Definition try_except {A} (c : outcome A) (caught : list exn) (h : outcome A)
  : outcome A :=
  match c with
  | Ok a => Ok a
  | Raise e => if bool_decide (e ∈ caught) then h else Raise e
  end.

(** [except Exception: h] catches every exception of the model. *)
Definition try_except_all {A} (c : outcome A) (h : outcome A) : outcome A :=
  match c with Ok a => Ok a | Raise _ => h end.

(** A loop body run over a list, stopping at the first exception. *)
Fixpoint foldM {A B} (f : A -> B -> outcome A) (a : A) (l : list B) : outcome A :=
  match l with
  | [] => Ok a
  | x :: l' => match f a x with Ok a' => foldM f a' l' | Raise e => Raise e end
  end.

(** ** Characters and strings *)

(** The white space of [str.isspace] that is one byte long: tab to carriage
    return, the separators 28 to 31 and the space. *)
Definition is_space (c : ascii) : bool :=
  let n := nat_of_ascii c in
  ((9 <=? n) && (n <=? 13) || (28 <=? n) && (n <=? 32))%nat.

(** The one-byte white space [float] and [int] skip around a number: that
    of C, which has no separator 28 to 31. *)
Definition is_cspace (c : ascii) : bool :=
  let n := nat_of_ascii c in
  ((9 <=? n) && (n <=? 13) || (n =? 32))%nat.

(** The white space of two and of three bytes: U+0085 and U+00A0; U+1680,
    U+2000 to U+200A, U+2028, U+2029, U+202F, U+205F and U+3000. *)
Definition is_space2 (c1 c2 : ascii) : bool :=
  let n1 := nat_of_ascii c1 in
  let n2 := nat_of_ascii c2 in
  ((n1 =? 194) && ((n2 =? 133) || (n2 =? 160)))%nat.

Definition is_space3 (c1 c2 c3 : ascii) : bool :=
  let n1 := nat_of_ascii c1 in
  let n2 := nat_of_ascii c2 in
  let n3 := nat_of_ascii c3 in
  ((n1 =? 225) && (n2 =? 154) && (n3 =? 128)
   || (n1 =? 226) && (n2 =? 128)
      && ((128 <=? n3) && (n3 <=? 138)
          || (n3 =? 168) || (n3 =? 169) || (n3 =? 175))
   || (n1 =? 226) && (n2 =? 129) && (n3 =? 159)
   || (n1 =? 227) && (n2 =? 128) && (n3 =? 128))%nat.

(** A byte that continues a character of several bytes. *)
Definition is_continuation (c : ascii) : bool :=
  let n := nat_of_ascii c in ((128 <=? n) && (n <=? 191))%nat.

(** [len(s)]: the number of characters, not of bytes. *)
Fixpoint py_len (s : string) : nat :=
  match s with
  | EmptyString => 0
  | String c s' => (if is_continuation c then 0 else 1) + py_len s'
  end.

Definition is_digit (c : ascii) : bool :=
  let n := nat_of_ascii c in ((48 <=? n) && (n <=? 57))%nat.

Definition is_upper (c : ascii) : bool :=
  let n := nat_of_ascii c in ((65 <=? n) && (n <=? 90))%nat.

Definition is_lower (c : ascii) : bool :=
  let n := nat_of_ascii c in ((97 <=? n) && (n <=? 122))%nat.

Definition to_lower (c : ascii) : ascii :=
  if is_upper c then ascii_of_nat (nat_of_ascii c + 32) else c.

Definition to_upper (c : ascii) : ascii :=
  if is_lower c then ascii_of_nat (nat_of_ascii c - 32) else c.

Fixpoint smap (f : ascii -> ascii) (s : string) : string :=
  match s with
  | EmptyString => EmptyString
  | String c s' => String (f c) (smap f s')
  end.

(** [s.lower()], [s.upper()] *)
Definition lower : string -> string := smap to_lower.
Definition upper : string -> string := smap to_upper.

(** The text without the white space it starts with; [sp] is the white
    space of one byte. *)
Fixpoint lstrip_by (sp : ascii -> bool) (s : string) : string :=
  match s with
  | String c1 s1 =>
      if sp c1 then lstrip_by sp s1
      else
        match s1 with
        | String c2 s2 =>
            if is_space2 c1 c2 then lstrip_by sp s2
            else
              match s2 with
              | String c3 s3 =>
                  if is_space3 c1 c2 c3 then lstrip_by sp s3 else s
              | EmptyString => s
              end
        | EmptyString => s
        end
  | EmptyString => EmptyString
  end.

(** The text without the white space it ends with: it is cut where what
    remains is white space only. *)
Fixpoint rstrip_by (sp : ascii -> bool) (s : string) : string :=
  match s with
  | String c s' =>
      if bool_decide (lstrip_by sp s = EmptyString) then EmptyString
      else String c (rstrip_by sp s')
  | EmptyString => EmptyString
  end.

(** [s.lstrip()], [s.rstrip()], [s.strip()] *)
Definition lstrip : string -> string := lstrip_by is_space.
Definition rstrip : string -> string := rstrip_by is_space.
Definition strip (s : string) : string := rstrip (lstrip s).

(** What [float] and [int] make of the white space around a number. *)
Definition strip_number (s : string) : string :=
  rstrip_by is_cspace (lstrip_by is_cspace s).

(** [needle in hay] *)
Fixpoint contains (needle hay : string) : bool :=
  String.prefix needle hay ||
  match hay with
  | EmptyString => false
  | String _ hay' => contains needle hay'
  end.

(** [sep.join(parts)] *)
Fixpoint join (sep : string) (parts : list string) : string :=
  match parts with
  | [] => ""
  | [p] => p
  | p :: ps => p +:+ sep +:+ join sep ps
  end.

(** [s.isdigit()]: non-empty and made of digits. *)
Definition isdigit (s : string) : bool :=
  match s with
  | EmptyString => false
  | _ => forallb is_digit (list_ascii_of_string s)
  end.

(** [s.isupper()]: at least one cased character and no lower-case one. *)
Definition isupper (s : string) : bool :=
  existsb is_upper (list_ascii_of_string s)
  && negb (existsb is_lower (list_ascii_of_string s)).

(** [s.replace(",", "")] *)
Fixpoint remove_commas (s : string) : string :=
  match s with
  | EmptyString => EmptyString
  | String c s' =>
      if Ascii.eqb c "," then remove_commas s' else String c (remove_commas s')
  end.

(** ** Numbers *)

(** A Python float: a rational in lowest terms, an infinity or a NaN. *)
Inductive pyfloat : Type :=
  | FNum (q : Q)
  | FInf (negative : bool)
  | FNan.

#[global] Instance Q_eq_dec : EqDecision Q.
Proof. solve_decision. Defined.
#[global] Instance pyfloat_eq_dec : EqDecision pyfloat.
Proof. solve_decision. Defined.

(** The range of the doubles: a number of magnitude [2^1024 - 2^970] or
    more rounds to no finite double. *)
Definition out_of_range (q : Q) : bool :=
  Qle_bool (inject_Z (2 ^ 1024 - 2 ^ 970)) (Qabs q).

(** The float a rational denotes: itself, or an infinity out of range. *)
Definition float_of_Q (q : Q) : pyfloat :=
  if out_of_range q then FInf (Qnum q <? 0)%Z else FNum q.

(** [float(z)] for an integer [z]: out of range, the conversion raises. *)
Definition float_of_Z (z : Z) : outcome pyfloat :=
  if out_of_range (inject_Z z) then Raise OverflowError
  else Ok (FNum (inject_Z z)).

(** The product of a float and the float of an integer in range. *)
Definition fmul (x : pyfloat) (k : Z) : pyfloat :=
  match x with
  | FNum q => float_of_Q (Qred (q * inject_Z k))
  | FInf neg =>
      if (k =? 0)%Z then FNan else FInf (if (k <? 0)%Z then negb neg else neg)
  | FNan => FNan
  end.

(** [x * k] for an integer [k] (the [multiply_by] of the SIPRI sheets): [k]
    is converted to a float, then the floats are multiplied. *)
Definition fmul_Z (x : pyfloat) (k : Z) : outcome pyfloat :=
  _ ← float_of_Z k;
  mret (fmul x k).

(** [int(x)] for a float [x]: truncation towards zero. *)
Definition int_of_float (x : pyfloat) : outcome Z :=
  match x with
  | FNum q => Ok (Z.quot (Qnum q) (Z.pos (Qden q)))
  | FInf _ => Raise OverflowError
  | FNan => Raise ValueError
  end.

Definition digit_value (c : ascii) : Z := Z.of_nat (nat_of_ascii c - 48).

(** The number written by a list of digits, most significant first. *)
Definition digits_value (ds : list ascii) : Z :=
  fold_left (fun acc c => (10 * acc + digit_value c)%Z) ds 0%Z.

(** The rest of a [digitpart]: digits, each optionally preceded by one
    underscore.  Returns the digits read and what follows them. *)
Fixpoint digits_tail (l : list ascii) : list ascii * list ascii :=
  match l with
  | [] => ([], [])
  | c :: l' =>
      if is_digit c then
        let '(ds, r) := digits_tail l' in (c :: ds, r)
      else if Ascii.eqb c "_" then
        match l' with
        | d :: l'' =>
            if is_digit d then
              let '(ds, r) := digits_tail l'' in (d :: ds, r)
            else ([], l)
        | [] => ([], l)
        end
      else ([], l)
  end.

(** [digitpart ::= digit (["_"] digit)*] *)
Definition digitpart (l : list ascii) : option (list ascii * list ascii) :=
  match l with
  | c :: l' =>
      if is_digit c then let '(ds, r) := digits_tail l' in Some (c :: ds, r)
      else None
  | [] => None
  end.

(** [sign ::= "+" | "-"], optional; the flag is true for a minus sign. *)
Definition opt_sign (l : list ascii) : bool * list ascii :=
  match l with
  | c :: l' =>
      if Ascii.eqb c "-" then (true, l')
      else if Ascii.eqb c "+" then (false, l')
      else (false, l)
  | [] => (false, l)
  end.

(** [number ::= [digitpart] "." digitpart | digitpart ["."]]: the integer
    digits, the fraction digits and the rest. *)
Definition number (l : list ascii)
  : option (list ascii * list ascii * list ascii) :=
  match digitpart l with
  | Some (ip, r) =>
      match r with
      | c :: r' =>
          if Ascii.eqb c "." then
            match digitpart r' with
            | Some (fp, r'') => Some (ip, fp, r'')
            | None => Some (ip, [], r')
            end
          else Some (ip, [], r)
      | [] => Some (ip, [], [])
      end
  | None =>
      match l with
      | c :: r' =>
          if Ascii.eqb c "." then
            match digitpart r' with
            | Some (fp, r'') => Some ([], fp, r'')
            | None => None
            end
          else None
      | [] => None
      end
  end.

(** [exponent ::= ("e" | "E") [sign] digitpart], optional: the exponent read
    (0 when there is none) and the rest; [None] when an exponent starts and
    is malformed. *)
Definition exponent (l : list ascii) : option (Z * list ascii) :=
  match l with
  | c :: l' =>
      if Ascii.eqb c "e" || Ascii.eqb c "E" then
        let '(neg, l'') := opt_sign l' in
        match digitpart l'' with
        | Some (ds, r) =>
            Some ((if neg then - digits_value ds else digits_value ds)%Z, r)
        | None => None
        end
      else Some (0%Z, l)
  | [] => Some (0%Z, [])
  end.

(** The value [m * 10^e] as a rational in lowest terms. *)
Definition scale10 (m e : Z) : Q := Qred (inject_Z m * Qpower (10 # 1) e).

(** [floatnumber ::= number [exponent]], to be followed by nothing. *)
Definition floatnumber (l : list ascii) : option Q :=
  match number l with
  | Some (ip, fp, r) =>
      match exponent r with
      | Some (e, []) =>
          Some (scale10 (digits_value (ip ++ fp)) (e - Z.of_nat (length fp)))
      | _ => None
      end
  | None => None
  end.

(** [float(s)] for a string [s]: white space is stripped, then
    [[sign] (floatnumber | "inf" | "infinity" | "nan")], the words in any
    case; anything else raises [ValueError]. *)
Definition float_of_str (s : string) : outcome pyfloat :=
  let '(neg, body) := opt_sign (list_ascii_of_string (strip_number s)) in
  let word := lower (string_of_list_ascii body) in
  if bool_decide (word = "inf") || bool_decide (word = "infinity") then
    Ok (FInf neg)
  else if bool_decide (word = "nan") then Ok FNan
  else
    match floatnumber body with
    | Some q => Ok (float_of_Q (if neg then Qred (- q) else q))
    | None => Raise ValueError
    end.

(** [int(s)] for a string [s]: white space is stripped, then an optional
    sign and a [digitpart]; anything else raises [ValueError]. *)
Definition int_of_str (s : string) : outcome Z :=
  let '(neg, body) := opt_sign (list_ascii_of_string (strip_number s)) in
  match digitpart body with
  | Some (ds, []) => Ok (if neg then - digits_value ds else digits_value ds)%Z
  | _ => Raise ValueError
  end.

(** ** Cells of a decoded table *)

(** What a spreadsheet or CSV decoder hands over for one cell: nothing, a
    boolean, an integer, a float (with the text [str] prints for it), a
    string, or some other object such as a date (with its [str] text). *)
Inductive cell : Type :=
  | CNone
  | CBool (b : bool)
  | CInt (z : Z)
  | CFloat (v : pyfloat) (text : string)
  | CStr (s : string)
  | CObj (text : string).

#[global] Instance cell_eq_dec : EqDecision cell.
Proof. solve_decision. Defined.

(** The missing value of pandas. *)
Definition CNaN : cell := CFloat FNan "nan".

(** [str(c)] *)
Definition py_str (c : cell) : string :=
  match c with
  | CNone => "None"
  | CBool true => "True"
  | CBool false => "False"
  | CInt z => pretty z
  | CFloat _ text => text
  | CStr s => s
  | CObj text => text
  end.

(** [bool(c)], the test of [if c] *)
Definition truthy (c : cell) : bool :=
  match c with
  | CNone => false
  | CBool b => b
  | CInt z => negb (z =? 0)%Z
  | CFloat (FNum q) _ => negb (Qnum q =? 0)%Z
  | CFloat _ _ => true
  | CStr s => negb (bool_decide (s = ""))
  | CObj _ => true
  end.

(** [float(c)] *)
Definition float_of_cell (c : cell) : outcome pyfloat :=
  match c with
  | CNone => Raise TypeError
  | CBool b => float_of_Z (if b then 1 else 0)
  | CInt z => float_of_Z z
  | CFloat v _ => Ok v
  | CStr s => float_of_str s
  | CObj _ => Raise TypeError
  end.

Definition is_none (c : cell) : bool :=
  match c with CNone => true | _ => false end.

(** ** Values kept in a store *)

(** A value loaded from, or dumped to, a JSON file. *)
#[warnings="-register-all"]
Inductive json : Type :=
  | JNull
  | JBool (b : bool)
  | JInt (z : Z)
  | JFloat (v : pyfloat)
  | JStr (s : string)
  | JArr (items : list json)
  | JObj (members : list (string * json)).

(** [v is None] *)
Definition is_null (v : json) : bool :=
  match v with JNull => true | _ => false end.

(** What an extraction writes for a field: a float or a year string. *)
Inductive obsval : Type :=
  | OFloat (v : pyfloat)
  | OStr (s : string).

Definition to_json (x : obsval) : json :=
  match x with OFloat v => JFloat v | OStr s => JStr s end.

(** [d.get(k)]: the value, or [None] when the key is missing. *)
Definition dict_get (d : gmap string json) (k : string) : json :=
  default JNull (d !! k).

End Py.

Import Py.

(* ===================================================================== *)
(** * Saving a store: [with open(path, "w") as f: json.dump(data, f, indent=2)] *)
(* ===================================================================== *)

Module Persist.

(** The file at the output path: absent, or its content. *)
Definition file : Type := option string.

(** What the storage does during one save: nothing wrong, a refusal (the
    directory cannot be made, the file cannot be opened for writing), or a
    failure once [n] bytes of the text have reached the file. *)
Inductive fault : Type :=
  | NoFault
  | OpenFails
  | WriteFails (n : nat).

(** The first [n] bytes of a text. *)
Fixpoint prefix_of (n : nat) (text : string) : string :=
  match n, text with
  | S n', String c text' => String c (prefix_of n' text')
  | _, _ => EmptyString
  end.

(** The save that ends a [main]; [text] is the JSON text [json.dump] makes
    of the store.  Opening the file for writing empties it; the text then
    goes to the file through a buffer, so a failure of the storage leaves
    the first bytes of it, as many as had reached the file.  Nothing catches
    the exception. *)
Definition save (text : string) (flt : fault) (old : file)
  : file * outcome unit :=
  match flt with
  | OpenFails => (old, Raise OSError)
  | NoFault => (Some text, Ok ())
  | WriteFails n =>
      if (n <? String.length text)%nat
      then (Some (prefix_of n text), Raise OSError)
      else (Some text, Ok ())
  end.

(** How a run of a script ends: [main] returns, [sys.exit] is called, or
    an exception that nothing catches ends it. *)
Inductive run : Type :=
  | Finished
  | Exited (code : Z)
  | Raised (e : exn).

Definition run_of (r : outcome unit) : run :=
  match r with Ok _ => Finished | Raise e => Raised e end.

End Persist.

(* ===================================================================== *)
(** * scripts/fet_UN_data.py *)
(* ===================================================================== *)

Module UN.

(** The [columns] entries of [FILES]: ordered [(header_keyword, field_name)]
    pairs, one list per workbook. *)
Definition columns_population : list (string * string) :=
  [ ("ISO3", "_ISO3_"); ("Year", "_YEAR_");
    ("0-14", "popAge0to14"); ("15-64", "popAge15to64");
    ("65", "popAge65plus"); ("Dependency", "dependencyRatio") ].

Definition columns_deaths : list (string * string) :=
  [ ("ISO3", "_ISO3_"); ("Year", "_YEAR_");
    ("Neonatal", "neonateMortality"); ("Under age 1", "neonateMortality") ].

Definition columns_female_deaths : list (string * string) :=
  [ ("ISO3", "_ISO3_"); ("Year", "_YEAR_"); ("Neonatal", "neonateMortalityF") ].

Definition columns_male_deaths : list (string * string) :=
  [ ("ISO3", "_ISO3_"); ("Year", "_YEAR_"); ("Neonatal", "neonateMortalityM") ].

Definition columns_births : list (string * string) :=
  [ ("ISO3", "_ISO3_"); ("Year", "_YEAR_"); ("Total", "totalBirths");
    ("15-19", "birthsAge15to19"); ("Adolescent", "adolBirthRate") ].

Definition FILES : list (list (string * string)) :=
  [ columns_population; columns_deaths; columns_female_deaths;
    columns_male_deaths; columns_births ].

(** ** [find_header_row] *)

(** [" ".join(str(c) for c in row if c)] *)
Definition row_str (row : list cell) : string :=
  join " " (map py_str (filter (fun c => truthy c = true) row)).

(** [if "ISO3" in row_str or "iso3" in row_str.lower()] *)
Definition has_iso3 (row : list cell) : bool :=
  contains "ISO3" (row_str row) || contains "iso3" (lower (row_str row)).

(** [for i, row in enumerate(rows): if ...: return i], then [return None] *)
Fixpoint first_row_from (test : list cell -> bool) (i : nat)
    (rows : list (list cell)) : option nat :=
  match rows with
  | [] => None
  | row :: rows' =>
      if test row then Some i else first_row_from test (S i) rows'
  end.

Definition find_header_row (all_rows : list (list cell)) : option nat :=
  first_row_from has_iso3 0 (take 25 all_rows).

(** ** [map_columns] *)

(** The three results of [map_columns]; [field_cols] keeps insertion order. *)
Record colmap : Type := ColMap {
  iso3_col : option nat;
  year_col : option nat;
  field_cols : list (string * nat)
}.

(** [field_name in field_cols] *)
Definition has_key {V} (d : list (string * V)) (k : string) : bool :=
  existsb (fun kv => bool_decide (kv.1 = k)) d.

(** [field_cols[field_name]] lookup *)
Fixpoint assoc {V} (d : list (string * V)) (k : string) : option V :=
  match d with
  | [] => None
  | (k', v) :: d' => if bool_decide (k' = k) then Some v else assoc d' k
  end.

(** [keyword.lower() not in cell_str.lower()], negated *)
Definition keyword_in (keyword cell_str : string) : bool :=
  contains (lower keyword) (lower cell_str).

(** One [(keyword, field_name)] pair tried on the cell of column [col_i]. *)
Definition claim (col_i : nat) (cell_str : string) (cm : colmap)
    (spec : string * string) : colmap :=
  let '(keyword, field_name) := spec in
  if negb (keyword_in keyword cell_str) then cm
  else if bool_decide (field_name = "_ISO3_") then
    match iso3_col cm with
    | None => ColMap (Some col_i) (year_col cm) (field_cols cm)
    | Some _ => cm
    end
  else if bool_decide (field_name = "_YEAR_") then
    match year_col cm with
    | None => ColMap (iso3_col cm) (Some col_i) (field_cols cm)
    | Some _ => cm
    end
  else if has_key (field_cols cm) field_name then cm
  else ColMap (iso3_col cm) (year_col cm) (field_cols cm ++ [(field_name, col_i)]).

(** The body of [for col_i, cell in enumerate(header_row)]. *)
Definition map_cell (column_map : list (string * string)) (cm : colmap)
    (col_i : nat) (c : cell) : colmap :=
  if is_none c then cm
  else fold_left (claim col_i (strip (py_str c))) column_map cm.

Fixpoint map_cells (column_map : list (string * string)) (cm : colmap)
    (col_i : nat) (header_row : list cell) : colmap :=
  match header_row with
  | [] => cm
  | c :: rest =>
      map_cells column_map (map_cell column_map cm col_i c) (S col_i) rest
  end.

Definition map_columns (header_row : list cell)
    (column_map : list (string * string)) : colmap :=
  map_cells column_map (ColMap None None []) 0 header_row.

(** ** [read_file], from [all_rows] on *)

(** [result] and [best_year] *)
Record extraction : Type := Extraction {
  result : gmap string (gmap string obsval);
  best_year : gmap string Z
}.

(** [yr_int, year] after the [try] block on the year cell. *)
Definition parse_year (yr_raw : cell) : outcome (Z * string) :=
  try_except
    (x ← float_of_str (py_str yr_raw);
     yr_int ← int_of_float x;
     mret (yr_int, pretty yr_int))
    [ValueError; TypeError]
    (Ok (0%Z, "2024")).

Definition row_year (year_col : option nat) (row : list cell)
  : outcome (Z * string) :=
  match year_col with
  | Some yc =>
      match row !! yc with
      | Some yr_raw => if is_none yr_raw then Ok (0%Z, "2024") else parse_year yr_raw
      | None => Ok (0%Z, "2024")
      end
  | None => Ok (0%Z, "2024")
  end.

(** The body of [for field_name, col_idx in field_cols.items()]: both keys
    are written, or neither. *)
Definition write_field (row : list cell) (year : string)
    (fields : gmap string obsval) (fc : string * nat)
  : outcome (gmap string obsval) :=
  let '(field_name, col_idx) := fc in
  match row !! col_idx with
  | Some c =>
      if is_none c then Ok fields
      else
        try_except
          (v ← float_of_cell c;
           mret (<[field_name +:+ "_year" := OStr year]>
                   (<[field_name := OFloat v]> fields)))
          [ValueError; TypeError]
          (Ok fields)
  | None => Ok fields
  end.

(** The body of [for row in all_rows[header_idx + 1:]]. *)
Definition read_row (iso3_c : nat) (year_c : option nat)
    (fcols : list (string * nat)) (st : extraction) (row : list cell)
  : outcome extraction :=
  match row !! iso3_c with
  | None => Ok st
  | Some iso3 =>
      if negb (truthy iso3)
         || negb (py_len (strip (py_str iso3)) =? 3)%nat
      then Ok st
      else
        let iso3 := upper (strip (py_str iso3)) in
        '(yr_int, year) ← row_year year_c row;
        if (2025 <? yr_int)%Z then Ok st
        else if match best_year st !! iso3 with
                | Some best => (yr_int <? best)%Z
                | None => false
                end
        then Ok st
        else
          fields ← foldM (write_field row year)
                      (default ∅ (result st !! iso3)) fcols;
          mret (Extraction (<[iso3 := fields]> (result st))
                           (<[iso3 := yr_int]> (best_year st)))
  end.

Definition read_rows (iso3_c : nat) (year_c : option nat)
    (fcols : list (string * nat)) (rows : list (list cell))
  : outcome extraction :=
  foldM (read_row iso3_c year_c fcols) (Extraction ∅ ∅) rows.

(** [read_file] once the sheet has been decoded into [all_rows]. *)
Definition read_file (all_rows : list (list cell))
    (column_map : list (string * string))
  : outcome (gmap string (gmap string obsval)) :=
  match find_header_row all_rows with
  | None => Ok ∅
  | Some header_idx =>
      let header := default [] (all_rows !! header_idx) in
      let cm := map_columns header column_map in
      match iso3_col cm with
      | None => Ok ∅
      | Some iso3_c =>
          st ← read_rows iso3_c (year_col cm) (field_cols cm)
                 (drop (S header_idx) all_rows);
          mret (result st)
      end
  end.

(** ** The merge of [main] *)

(** [un_data] and [total_merged] *)
Definition merge_state : Type := gmap string (gmap string json) * nat.

(** The body of [for field, value in fields.items()]. *)
Definition merge_field (iso3 : string) (st : merge_state)
    (fv : string * obsval) : merge_state :=
  let '(un_data, total_merged) := st in
  let '(field, value) := fv in
  let record := default ∅ (un_data !! iso3) in
  if is_null (dict_get record field)
  then (<[iso3 := <[field := to_json value]> record]> un_data, S total_merged)
  else st.

(** [if iso3 not in un_data: un_data[iso3] = {}] *)
Definition ensure_entity (iso3 : string) (d : gmap string (gmap string json))
  : gmap string (gmap string json) :=
  match d !! iso3 with Some _ => d | None => <[iso3 := ∅]> d end.

(** The body of [for iso3, fields in new_data.items()], on the items of
    [fields]. *)
Definition merge_entity (st : merge_state)
    (item : string * list (string * obsval)) : merge_state :=
  let '(iso3, fields) := item in
  fold_left (merge_field iso3) fields (ensure_entity iso3 st.1, st.2).

(** The merge loop over the items of [new_data], in iteration order. *)
Definition merge_items (st : merge_state)
    (items : list (string * list (string * obsval))) : merge_state :=
  fold_left merge_entity items st.

(** [new_data.items()] with each [fields.items()]. *)
Definition items (new_data : gmap string (gmap string obsval))
  : list (string * list (string * obsval)) :=
  map (fun kv => (kv.1, map_to_list kv.2)) (map_to_list new_data).

(** The fill-only merge of one source map: the new store and the number of
    field values written. *)
Definition merge (un_data : gmap string (gmap string json))
    (new_data : gmap string (gmap string obsval)) : merge_state :=
  merge_items (un_data, 0) (items new_data).

(** ** [find_file], on the listing of the current directory *)

(** [s.endswith(suffix)] *)
Fixpoint endswith (s suffix : string) : bool :=
  bool_decide (s = suffix)
  || match s with
     | EmptyString => false
     | String _ s' => endswith s' suffix
     end.

(** [f.endswith(".xlsx") and keyword.lower() in f.lower()] *)
Definition is_workbook_for (keyword f : string) : bool :=
  endswith f ".xlsx" && contains (lower keyword) (lower f).

Definition find_file (listing : list string) (keyword : string)
  : option string :=
  List.find (is_workbook_for keyword) listing.

(** ** [read_file], from the workbook on *)

(** A workbook as the spreadsheet library ([openpyxl]) hands it over: the
    names of its sheets, the rows of each, and the rows of the active sheet,
    if there is one. *)
Record workbook : Type := Workbook {
  sheetnames : list string;
  sheet_rows : string -> list (list cell);
  active : option (list (list cell))
}.

(** [sheet_name.lower() in name.lower() or "estimate" in name.lower()] *)
Definition is_wanted_sheet (sheet_name name : string) : bool :=
  contains (lower sheet_name) (lower name) || contains "estimate" (lower name).

(** The sheet search and [list(sheet.iter_rows(values_only=True))]. *)
Definition select_rows (wb : workbook) (sheet_name : string)
  : outcome (list (list cell)) :=
  match List.find (is_wanted_sheet sheet_name) (sheetnames wb) with
  | Some name => Ok (sheet_rows wb name)
  | None =>
      match active wb with
      | Some rows => Ok rows
      | None => Raise AttributeError
      end
  end.

(** ** [main] *)

(** The entries of [FILES] in full: keyword, sheet and columns. *)
Record file_spec : Type := FileSpec {
  keyword : string;
  sheet : string;
  columns : list (string * string)
}.

Definition FILE_SPECS : list file_spec :=
  [ FileSpec "Population Data" "Estimates" columns_population;
    FileSpec "Deaths by Age" "Estimates" columns_deaths;
    FileSpec "Female Deaths Age" "Estimates" columns_female_deaths;
    FileSpec "Male Deaths Age" "Estimates" columns_male_deaths;
    FileSpec "Births by Age" "Estimates" columns_births ].

(** What a run finds outside the program: the listing of the current
    directory, the workbook behind a file name (or the exception of the
    library), what [json.load] makes of the text of the store, the text
    [json.dump] makes of a store, and what the storage does on the save. *)
Record world : Type := World {
  listing : list string;
  load_workbook : string -> outcome workbook;
  json_load : string -> outcome (gmap string (gmap string json));
  json_dump : gmap string (gmap string json) -> string;
  storage : Persist.fault
}.

(** [read_file(filepath, sheet_name, column_map)] *)
Definition read_workbook (w : world) (filepath sheet_name : string)
    (column_map : list (string * string))
  : outcome (gmap string (gmap string obsval)) :=
  wb ← load_workbook w filepath;
  all_rows ← select_rows wb sheet_name;
  read_file all_rows column_map.

(** The body of [for spec in FILES]. *)
Definition merge_file (w : world) (st : merge_state) (spec : file_spec)
  : outcome merge_state :=
  match find_file (listing w) (keyword spec) with
  | None => Ok st
  | Some filepath =>
      new_data ← read_workbook w filepath (sheet spec) (columns spec);
      mret (merge_items st (items new_data))
  end.

(** [main] up to the save: the store is loaded from [text], the content of
    the file at [UN_PATH], and every file is merged into it. *)
Definition gather (w : world) (text : string) : outcome merge_state :=
  un_data ← json_load w text;
  foldM (merge_file w) (un_data, 0) FILE_SPECS.

(** [main]: what becomes of the file at [UN_PATH], and how the run ends. *)
Definition main (w : world) (old : Persist.file) : Persist.file * Persist.run :=
  match old with
  | None => (old, Persist.Exited 1)
  | Some text =>
      match gather w text with
      | Raise e => (old, Persist.Raised e)
      | Ok st =>
          let '(f, r) := Persist.save (json_dump w st.1) (storage w) old in
          (f, Persist.run_of r)
      end
  end.

End UN.

(* ===================================================================== *)
(** * scripts/fetch_sipri.py *)
(* ===================================================================== *)

Module Sipri.

(** Country name to ISO3 overrides. *)
Definition NAME_TO_ISO3 : gmap string string :=
  list_to_map
    [ ("United States", "USA"); ("United Kingdom", "GBR"); ("Russia", "RUS");
      ("South Korea", "KOR"); ("North Korea", "PRK"); ("Iran", "IRN");
      ("Syria", "SYR"); ("Venezuela", "VEN"); ("Bolivia", "BOL");
      ("Tanzania", "TZA"); ("Congo, Dem. Rep.", "COD"); ("Congo, Rep.", "COG");
      ("Congo, DR", "COD"); ("Congo, Republic", "COG");
      ("Côte d'Ivoire", "CIV"); ("Gambia, The", "GMB");
      ("Korea, South", "KOR"); ("Korea, North", "PRK"); ("Lao PDR", "LAO");
      ("Laos", "LAO"); ("Libya", "LBY"); ("Moldova", "MDA");
      ("Slovakia", "SVK"); ("Czechia", "CZE"); ("Czech Republic", "CZE");
      ("Kyrgyzstan", "KGZ"); ("Kyrgyz Republic", "KGZ");
      ("Timor-Leste", "TLS"); ("Eswatini", "SWZ"); ("Swaziland", "SWZ");
      ("Macedonia", "MKD"); ("North Macedonia", "MKD"); ("Micronesia", "FSM");
      ("São Tomé and Príncipe", "STP"); ("Brunei", "BRN");
      ("Cape Verde", "CPV"); ("Cabo Verde", "CPV"); ("Palestine", "PSE");
      ("West Bank and Gaza", "PSE"); ("Taiwan", "TWN"); ("Kosovo", "XKX");
      ("Vietnam", "VNM"); ("Viet Nam", "VNM"); ("Myanmar", "MMR");
      ("Burma", "MMR"); ("Egypt", "EGY"); ("Turkey", "TUR");
      ("Türkiye", "TUR") ].

(** The reference country database, an external library ([pycountry]):
    [countries.get(name=...)] gives the alpha-3 code of the country of that
    exact name, if any; [countries.search_fuzzy] gives the alpha-3 codes of
    its matches, best first, or raises. *)
Record pycountry : Type := PyCountry {
  countries_get : string -> outcome (option string);
  search_fuzzy : string -> outcome (list string)
}.

(** The table library, external ([pandas]).  When several columns of a
    frame carry one label, [row[label]] is not a cell but the Series of the
    cells under them; [series_str] is the text [str] gives for it, from the
    position of the row in the frame, the columns, the row and the label. *)
Record pandas : Type := Pandas {
  series_str : nat -> list cell -> list cell -> cell -> string
}.

(** ** [country_to_iso3] *)

(** The [try] block: [Ok (Some code)] is a [return code]; [Ok None] falls
    through to the final [return None].  [db] is [None] when the import of
    the library fails. *)
Definition lookup_pycountry (db : option pycountry) (name : string)
  : outcome (option string) :=
  match db with
  | None => Raise ImportError
  | Some pc =>
      c ← countries_get pc name;
      match c with
      | Some alpha_3 => Ok (Some alpha_3)
      | None =>
          results ← search_fuzzy pc name;
          match results with
          | alpha_3 :: _ => Ok (Some alpha_3)
          | [] => Ok None
          end
      end
  end.

Definition country_to_iso3 (db : option pycountry) (name : string)
  : outcome (option string) :=
  let name := strip name in
  match NAME_TO_ISO3 !! name with
  | Some code => Ok (Some code)
  | None => try_except_all (lookup_pycountry db name) (Ok None)
  end.

(** ** [parse_sheet], from the decoded frame on *)

(** [vals = [str(v).strip() for v in row if str(v).strip()]] *)
Definition vals (row : list cell) : list string :=
  filter (fun v => v ≠ "") (map (fun v => strip (py_str v)) row).

(** [v.isdigit() and len(v) == 4] *)
Definition is_year_token (v : string) : bool :=
  isdigit v && (py_len v =? 4)%nat.

(** [any(v == "Country" ...) or any(v.isdigit() and len(v) == 4 ...)] *)
Definition is_header (row : list cell) : bool :=
  existsb (fun v => bool_decide (v = "Country")) (vals row)
  || existsb is_year_token (vals row).

(** The header search: every row of the sheet is visited. *)
Definition find_header (df : list (list cell)) : option nat :=
  UN.first_row_from is_header 0 df.

(** [str(c).strip().lower() == "country"] *)
Definition is_country_label (c : cell) : bool :=
  bool_decide (lower (strip (py_str c)) = "country").

(** [not country_col] on a column label. *)
Definition country_col (columns : list cell) : outcome cell :=
  match List.find is_country_label columns with
  | Some c => if truthy c then Ok c else
      match columns with c0 :: _ => Ok c0 | [] => Raise LookupError end
  | None =>
      match columns with c0 :: _ => Ok c0 | [] => Raise LookupError end
  end.

(** [str(c).strip().isdigit() and len(str(c).strip()) == 4] *)
Definition is_year_col (c : cell) : bool := is_year_token (strip (py_str c)).

Definition year_cols (columns : list cell) : list cell :=
  List.filter is_year_col columns.

(** The sort key [int(str(x).strip())]. *)
Definition year_key (x : cell) : outcome Z := int_of_str (strip (py_str x)).

(** [sorted(..., reverse=True)]: descending, equal keys keep their order. *)
Fixpoint insert_desc (kx : Z * cell) (l : list (Z * cell)) : list (Z * cell) :=
  match l with
  | [] => [kx]
  | ky :: l' =>
      if (ky.1 <=? kx.1)%Z then kx :: l else ky :: insert_desc kx l'
  end.

Definition sort_desc (l : list (Z * cell)) : list (Z * cell) :=
  foldr insert_desc [] l.

Definition year_cols_sorted (ycs : list cell) : outcome (list cell) :=
  keys ← mapM year_key ycs;
  mret (map snd (sort_desc (zip keys ycs))).

(** The number a label is, if it is one: labels are found by hash and
    equality, and [True == 1 == 1.0]. *)
Definition label_num (c : cell) : option Q :=
  match c with
  | CBool b => Some (inject_Z (if b then 1 else 0))
  | CInt z => Some (inject_Z z)
  | CFloat (FNum q) _ => Some q
  | _ => None
  end.

(** Two labels the index of a frame takes for the same: equal numbers,
    two missing values, or equal objects. *)
Definition label_eq (a b : cell) : bool :=
  match label_num a, label_num b with
  | Some x, Some y => Qeq_bool x y
  | None, None =>
      match a, b with
      | CFloat FNan _, CFloat FNan _ => true
      | CFloat (FInf n) _, CFloat (FInf m) _ => Bool.eqb n m
      | CStr u, CStr v => bool_decide (u = v)
      | CObj u, CObj v => bool_decide (u = v)
      | CNone, CNone => true
      | _, _ => false
      end
  | _, _ => false
  end.

(** The positions, from [i] on, of the columns that carry a label. *)
Fixpoint positions (columns : list cell) (label : cell) (i : nat) : list nat :=
  match columns with
  | [] => []
  | c :: cs =>
      if label_eq c label then i :: positions cs label (S i)
      else positions cs label (S i)
  end.

(** [row[label]] and [row.get(label, default)] on the row at position [i] of
    the frame: the default when no column carries the label, the cell when
    one does, and a Series, of which the code only takes the [str], when
    several do.  Cells missing at the end of a row are NaN, as in a
    rectangular frame. *)
Definition series_get (pd : pandas) (i : nat) (columns row : list cell)
    (label : cell) (default_ : cell) : cell :=
  match positions columns label 0 with
  | [] => default_
  | [j] => default CNaN (row !! j)
  | _ => CObj (series_str pd i columns row label)
  end.

(** [("xxx", "...", "", "nan", "NaN")] *)
Definition placeholders : list string := ["xxx"; "..."; ""; "nan"; "NaN"].

(** The loop [for yc in year_cols_sorted] with its two variables [value]
    and [year]; [break] ends it. *)
Fixpoint latest (pd : pandas) (i : nat) (multiply_by : Z)
    (columns row : list cell) (ycs : list cell) (value : option pyfloat)
    (year : option string) : outcome (option pyfloat * option string) :=
  match ycs with
  | [] => Ok (value, year)
  | yc :: rest =>
      let raw := strip (py_str (series_get pd i columns row yc (CStr ""))) in
      if bool_decide (raw ∈ placeholders) then
        latest pd i multiply_by columns row rest value year
      else
        match x ← float_of_str (remove_commas raw); fmul_Z x multiply_by with
        | Raise ValueError =>
            latest pd i multiply_by columns row rest value year
        | Raise e => Raise e
        | Ok v =>
            let value := Some v in
            match year_key yc with
            | Raise ValueError =>
                latest pd i multiply_by columns row rest value year
            | Raise e => Raise e
            | Ok y => Ok (value, Some (pretty y))
            end
        end
  end.

(** What the loop body makes of one cell: a value, or nothing (the cell is
    skipped). *)
Definition normalize (multiply_by : Z) (c : cell) : outcome (option pyfloat) :=
  let raw := strip (py_str c) in
  if bool_decide (raw ∈ placeholders) then Ok None
  else
    try_except
      (x ← float_of_str (remove_commas raw);
       v ← fmul_Z x multiply_by;
       mret (Some v))
      [ValueError]
      (Ok None).

(** [result] and [skipped] *)
Record parsed : Type := Parsed {
  result : gmap string (gmap string json);
  skipped : list string
}.

Definition year_json (year : option string) : json :=
  match year with Some y => JStr y | None => JNull end.

(** [("country", "nan", "notes", "region", "world")] *)
Definition non_countries : list string :=
  ["country"; "nan"; "notes"; "region"; "world"].

(** The body of [for _, row in df.iterrows()], for the row at position [i]
    of the frame. *)
Definition parse_row (db : option pycountry) (pd : pandas)
    (field_name : string) (multiply_by : Z) (columns : list cell)
    (ccol : cell) (ycs_sorted : list cell) (st : parsed) (i : nat)
    (row : list cell) : outcome parsed :=
  let name := strip (py_str (series_get pd i columns row ccol CNaN)) in
  if bool_decide (name = "") || bool_decide (lower name ∈ non_countries)
  then Ok st
  else if isupper name && (3 <? py_len name)%nat then Ok st
  else
    iso3 ← country_to_iso3 db name;
    match iso3 with
    | None => Ok (Parsed (result st) (skipped st ++ [name]))
    | Some "" => Ok (Parsed (result st) (skipped st ++ [name]))
    | Some iso3 =>
        '(value, year) ←
          latest pd i multiply_by columns row ycs_sorted None None;
        match value with
        | None => Ok st
        | Some v =>
            let fields := default ∅ (result st !! iso3) in
            Ok (Parsed
                  (<[iso3 := <[field_name +:+ "_year" := year_json year]>
                               (<[field_name := JFloat v]> fields)]>
                     (result st))
                  (skipped st))
        end
    end.

(** The loop [for _, row in df.iterrows()] from position [i] on. *)
Fixpoint parse_rows (db : option pycountry) (pd : pandas)
    (field_name : string) (multiply_by : Z) (columns : list cell)
    (ccol : cell) (ycs_sorted : list cell) (i : nat) (st : parsed)
    (rows : list (list cell)) : outcome parsed :=
  match rows with
  | [] => Ok st
  | row :: rest =>
      st' ← parse_row db pd field_name multiply_by columns ccol ycs_sorted
              st i row;
      parse_rows db pd field_name multiply_by columns ccol ycs_sorted (S i)
        st' rest
  end.

(** The line that prints the years available: [int(str(c))] of the last
    and of the first of the sorted year columns, the label not stripped. *)
Definition years_available (ycs_sorted : list cell) : outcome unit :=
  match last ycs_sorted, head ycs_sorted with
  | Some oldest, Some newest =>
      _ ← int_of_str (py_str oldest);
      _ ← int_of_str (py_str newest);
      mret ()
  | _, _ => Raise LookupError
  end.

(** [parse_sheet] once the sheet has been decoded into the frame [df]. *)
Definition parse_sheet (db : option pycountry) (pd : pandas)
    (df : list (list cell)) (field_name : string) (multiply_by : Z)
  : outcome parsed :=
  match find_header df with
  | None => Ok (Parsed ∅ [])
  | Some header_row =>
      let columns := default [] (df !! header_row) in
      let data := drop (S header_row) df in
      ccol ← country_col columns;
      match year_cols columns with
      | [] => Ok (Parsed ∅ [])
      | ycs =>
          ycs_sorted ← year_cols_sorted ycs;
          _ ← years_available ycs_sorted;
          parse_rows db pd field_name multiply_by columns ccol ycs_sorted 0
            (Parsed ∅ []) data
      end
  end.

(** ** [main] *)

(** [SHEETS]: sheet name, field name and multiplier, in the order of the
    dictionary. *)
Definition SHEETS : list (string * (string * Z)) :=
  [ ("Current US$", ("milexCurrentUSD", 1%Z));
    ("Constant (2023) US$", ("milexConstantUSD", 1%Z));
    ("Share of GDP", ("milexPctGDP", 100%Z));
    ("Per capita", ("milexPerCapita", 1%Z));
    ("Share of Govt. spending", ("milexPctGovt", 100%Z)) ].

(** The workbook as [pd.ExcelFile] hands it over: the names of its sheets
    and, for a name, the frame [pd.read_excel(..., header=None)] makes of
    the sheet, or its exception. *)
Record excel : Type := Excel {
  sheet_names : list string;
  read_excel : string -> outcome (list (list cell))
}.

(** What a run finds outside the program: whether the output directory can
    be made, what [json.load] makes of the text of the store, the workbook
    ([None] when [get_xlsx] has no bytes to give), the two libraries, the
    text [json.dump] makes of a store, and what the storage does on the
    save. *)
Record world : Type := World {
  makedirs : outcome unit;
  json_load : string -> outcome (gmap string (gmap string json));
  xlsx : outcome (option excel);
  countries : option pycountry;
  frames : pandas;
  json_dump : gmap string (gmap string json) -> string;
  storage : Persist.fault
}.

(** [parse_sheet(xl, sheet_name, ...)]: a sheet that cannot be read gives
    nothing, whatever the exception. *)
Definition parse_excel_sheet (w : world) (xl : excel) (sheet_name : string)
    (field_name : string) (multiply_by : Z)
  : outcome (gmap string (gmap string json)) :=
  match read_excel xl sheet_name with
  | Raise _ => Ok ∅
  | Ok df =>
      p ← parse_sheet (countries w) (frames w) df field_name multiply_by;
      mret (result p)
  end.

(** [d.update(fields)] *)
Definition dict_update (d : gmap string json) (fields : list (string * json))
  : gmap string json :=
  fold_left (fun r kv => <[kv.1 := kv.2]> r) fields d.

(** [sipri_data.setdefault(iso3, {}).update(fields)] *)
Definition update_entity (sipri_data : gmap string (gmap string json))
    (item : string * list (string * json)) : gmap string (gmap string json) :=
  <[item.1 := dict_update (default ∅ (sipri_data !! item.1)) item.2]> sipri_data.

(** The loop [for iso3, fields in results.items()]. *)
Definition merge_results (sipri_data : gmap string (gmap string json))
    (results : gmap string (gmap string json))
  : gmap string (gmap string json) :=
  fold_left update_entity
    (map (fun kv => (kv.1, map_to_list kv.2)) (map_to_list results))
    sipri_data.

(** [sheet_name.lower() in s.lower()] *)
Definition is_sheet_for (sheet_name s : string) : bool :=
  contains (lower sheet_name) (lower s).

(** The body of [for sheet_name, (...) in SHEETS.items()]. *)
Definition merge_sheet (w : world) (xl : excel)
    (sipri_data : gmap string (gmap string json))
    (entry : string * (string * Z))
  : outcome (gmap string (gmap string json)) :=
  let '(sheet_name, (field_name, multiply_by)) := entry in
  match List.find (is_sheet_for sheet_name) (sheet_names xl) with
  | None => Ok sipri_data
  | Some actual =>
      if bool_decide (actual = "") then Ok sipri_data
      else
        results ← parse_excel_sheet w xl actual field_name multiply_by;
        mret (merge_results sipri_data results)
  end.

(** [main] up to the save: [None] when there is no workbook and [main]
    returns without saving. *)
Definition gather (w : world) (old : Persist.file)
  : outcome (option (gmap string (gmap string json))) :=
  _ ← makedirs w;
  sipri_data ← match old with
               | Some text => json_load w text
               | None => Ok ∅
               end;
  xl ← xlsx w;
  match xl with
  | None => Ok None
  | Some xl =>
      data ← foldM (merge_sheet w xl) sipri_data SHEETS;
      mret (Some data)
  end.

(** [f"{v:.2f}"], [f"{v:,.0f}"] and [f"{v:.0f}"]: a number is formatted as
    a float, a text or a container refuses the format. *)
Definition format_float (v : json) : outcome unit :=
  match v with
  | JNull => Raise TypeError
  | JBool _ => Ok ()
  | JInt z => _ ← float_of_Z z; mret ()
  | JFloat _ => Ok ()
  | JStr _ => Raise ValueError
  | JArr _ => Raise TypeError
  | JObj _ => Raise TypeError
  end.

(** [x = d.get(key)] and [f"..." if x is not None else "..."] *)
Definition shown (d : gmap string json) (key : string) : outcome unit :=
  match d !! key with
  | None => Ok ()
  | Some v => if is_null v then Ok () else format_float v
  end.

(** The body of [for iso3 in ["USA", "CHN", "RUS", "GBR", "DEU"]]. *)
Definition sample (sipri_data : gmap string (gmap string json)) (_ : unit)
    (iso3 : string) : outcome unit :=
  match sipri_data !! iso3 with
  | None => Ok ()
  | Some d =>
      _ ← shown d "milexPctGDP";
      _ ← shown d "milexCurrentUSD";
      shown d "milexPerCapita"
  end.

(** What [main] does after the save: the totals and the sample lines. *)
Definition summary (sipri_data : gmap string (gmap string json))
  : outcome unit :=
  foldM (sample sipri_data) () ["USA"; "CHN"; "RUS"; "GBR"; "DEU"].

(** [main]: what becomes of the file at [OUT_PATH], and how the run ends. *)
Definition main (w : world) (old : Persist.file) : Persist.file * Persist.run :=
  match gather w old with
  | Raise e => (old, Persist.Raised e)
  | Ok None => (old, Persist.Finished)
  | Ok (Some data) =>
      match Persist.save (json_dump w data) (storage w) old with
      | (f, Raise e) => (f, Persist.Raised e)
      | (f, Ok _) => (f, Persist.run_of (summary data))
      end
  end.

End Sipri.

(* ===================================================================== *)
(** * scripts/fetch_owid.py *)
(* ===================================================================== *)

Module Owid.

(** A row of [csv.DictReader]: field name to text, or to [None] for a field
    the line is too short to have. *)
Definition csv_row : Type := gmap string cell.

(** [row.get(key, "")]; [year_col] may be [None], which is no field name. *)
Definition row_get (row : csv_row) (key : option string) : cell :=
  match key with
  | Some k => default (CStr "") (row !! k)
  | None => CStr ""
  end.

(** [c.strip()], a method call: [None] has no such method. *)
Definition cell_strip (c : cell) : outcome string :=
  match c with
  | CStr s => Ok (strip s)
  | _ => Raise AttributeError
  end.

(** [("", "nan", "None")] *)
Definition blanks : list string := [""; "nan"; "None"].

(** The [try] block: [val] and [year]. *)
Definition value_and_year (row : csv_row) (year_col : option string)
    (val_raw : cell) : outcome (pyfloat * string) :=
  val ← float_of_cell val_raw;
  mret (val, strip (py_str (row_get row year_col))).

(** The body of [for row in rows]; an entry is [(value, year)]. *)
Definition extract_row (iso_col : string) (year_col : option string)
    (value_col : string) (result : gmap string (pyfloat * string))
    (row : csv_row) : outcome (gmap string (pyfloat * string)) :=
  iso3 ← cell_strip (row_get row (Some iso_col));
  let iso3 := upper iso3 in
  if bool_decide (iso3 = "") || negb (py_len iso3 =? 3)%nat
  then Ok result
  else
    let val_raw := row_get row (Some value_col) in
    if negb (truthy val_raw)
       || bool_decide (strip (py_str val_raw) ∈ blanks)
    then Ok result
    else
      match value_and_year row year_col val_raw with
      | Raise e =>
          if bool_decide (e ∈ [ValueError; TypeError]) then Ok result
          else Raise e
      | Ok (val, year) =>
          match result !! iso3 with
          | Some (_, best) =>
              if String.ltb best year then Ok (<[iso3 := (val, year)]> result)
              else Ok result
          | None => Ok (<[iso3 := (val, year)]> result)
          end
      end.

Definition extract_latest (rows : list csv_row) (iso_col : string)
    (year_col : option string) (value_col : string)
  : outcome (gmap string (pyfloat * string)) :=
  foldM (extract_row iso_col year_col value_col) ∅ rows.

(** ** [find_col] *)

(** [keyword] may be [None]; [not keyword] also holds for the empty
    string. *)
Definition find_col (fieldnames : list string) (keyword : option string)
  : option string :=
  match keyword with
  | None => None
  | Some kw =>
      if bool_decide (kw = "") then None
      else List.find (fun f => contains (lower kw) (lower f)) fieldnames
  end.

(** ** [auto_val_col] *)

Definition skip : list string :=
  ["entity"; "code"; "year"; "annotation"; "world region"; "note"; "country"].

(** [any(s in f.lower() for s in skip)] *)
Definition is_skipped (f : string) : bool :=
  existsb (fun s => contains s (lower f)) skip.

Definition auto_val_col (fields : list string) : option string :=
  List.find (fun f => negb (is_skipped f)) fields.

(** ** [store] *)

(** The body of [for iso3, entry in extracted.items()]. *)
Definition store_entry (field_name : string)
    (owid_data : gmap string (gmap string json))
    (item : string * (pyfloat * string)) : gmap string (gmap string json) :=
  let '(iso3, (value, year)) := item in
  let d1 := <[iso3 := <[field_name := JFloat value]>
                        (default ∅ (owid_data !! iso3))]> owid_data in
  <[iso3 := <[field_name +:+ "_year" := JStr year]>
              (default ∅ (d1 !! iso3))]> d1.

(** [store]: the updated [owid_data] and [len(extracted)]. *)
Definition store (owid_data : gmap string (gmap string json))
    (extracted : gmap string (pyfloat * string)) (field_name : string)
  : gmap string (gmap string json) * nat :=
  (fold_left (store_entry field_name) (map_to_list extracted) owid_data,
   size extracted).

End Owid.

(* ===================================================================== *)
(** * scripts/fetch_imf_data.py *)
(* ===================================================================== *)

Module Imf.



End Imf.

(* ===================================================================== *)
(** * scripts/fetch_unesco.py *)
(* ===================================================================== *)

Module Unesco.

(** [if k not in unesco_data.get(iso3, {}):
       unesco_data.setdefault(iso3, {})[k] = v] *)
Definition fill_field (iso3 : string) (unesco_data : gmap string (gmap string json))
    (kv : string * obsval) : gmap string (gmap string json) :=
  let record := default ∅ (unesco_data !! iso3) in
  match record !! kv.1 with
  | Some _ => unesco_data
  | None => <[iso3 := <[kv.1 := to_json kv.2]> record]> unesco_data
  end.

(** [unesco_data.setdefault(iso3, {}).update(fields)] *)
Definition update_fields (iso3 : string)
    (unesco_data : gmap string (gmap string json))
    (fields : list (string * obsval)) : gmap string (gmap string json) :=
  <[iso3 := fold_left (fun r kv => <[kv.1 := to_json kv.2]> r) fields
              (default ∅ (unesco_data !! iso3))]> unesco_data.

(** The body of [for iso3, fields in results.items()]; [opri] is the test
    [zip_name == "OPRI"]. *)
Definition merge_entity (opri : bool)
    (unesco_data : gmap string (gmap string json))
    (item : string * list (string * obsval)) : gmap string (gmap string json) :=
  let '(iso3, fields) := item in
  if opri then fold_left (fill_field iso3) fields unesco_data
  else update_fields iso3 unesco_data fields.

(** The merge of one step's [results] into [unesco_data]. *)
Definition merge (opri : bool) (unesco_data : gmap string (gmap string json))
    (results : gmap string (gmap string obsval))
  : gmap string (gmap string json) :=
  fold_left (merge_entity opri) (UN.items results) unesco_data.

End Unesco.

(* ===================================================================== *)
(** * scripts/fetch_worldbank.py *)
(* ===================================================================== *)

Module WorldBank.

(** An entry of [fetch_indicator]'s result: [{"value": val, "year": year}]. *)
Record entry : Type := Entry { value : json; year : json }.

(** The body of [for country_code, entry in results.items()]. *)
Definition store_entry (field_name : string)
    (country_data : gmap string (gmap string json))
    (item : string * entry) : gmap string (gmap string json) :=
  let '(country_code, e) := item in
  let record := default ∅ (country_data !! country_code) in
  <[country_code := <[field_name +:+ "_year" := year e]>
                      (<[field_name := value e]> record)]> country_data.

(** The body of [for i, (wb_code, field_name) in enumerate(INDICATORS.items())],
    given the [results] fetched for the indicator. *)
Definition store_indicator (country_data : gmap string (gmap string json))
    (ind : string * list (string * entry)) : gmap string (gmap string json) :=
  fold_left (store_entry ind.1) ind.2 country_data.

(** The indicator loop of [main]: [country_data] starts empty. *)
Definition collect (fetched : list (string * list (string * entry)))
  : gmap string (gmap string json) :=
  fold_left store_indicator fetched ∅.

End WorldBank.

(* ===================================================================== *)
(** * Notions used to state the properties *)
(* ===================================================================== *)

(** The value a store holds for entity [E] and field [F], if any. *)
Definition field {V} (d : gmap string (gmap string V)) (E F : string)
  : option V :=
  d !! E ≫= fun record => record !! F.

(** The test of the UN merge, [store[E].get(F) is None]: the key is missing
    or holds [null]. *)
Definition absent (d : gmap string (gmap string json)) (E F : string) : Prop :=
  field d E F = None \/ field d E F = Some JNull.

(** Several sources merged one after the other, fill-only. *)
Definition un_merge_all (un_data : gmap string (gmap string json))
    (sources : list (gmap string (gmap string obsval)))
  : gmap string (gmap string json) :=
  fold_left (fun d new_data => (UN.merge d new_data).1) sources un_data.

Definition opri_merge_all (unesco_data : gmap string (gmap string json))
    (sources : list (gmap string (gmap string obsval)))
  : gmap string (gmap string json) :=
  fold_left (Unesco.merge true) sources unesco_data.

(** A value that is there and is not [null]. *)
Definition settled (d : gmap string (gmap string json)) (E F : string) : Prop :=
  exists v, field d E F = Some v /\ is_null v = false.

(** Every entity of the items is in the store and every field of theirs is
    settled. *)
Definition covered (d : gmap string (gmap string json))
    (its : list (string * list (string * obsval))) : Prop :=
  forall iso3 fields, (iso3, fields) ∈ its ->
    is_Some (d !! iso3) /\
    forall f x, (f, x) ∈ fields -> settled d iso3 f.

(** The column [map_columns] holds for a destination: the two reserved
    names have their own variables, the others are keys of [field_cols]. *)
Definition slot (f : string) (cm : UN.colmap) : option nat :=
  if bool_decide (f = "_ISO3_") then UN.iso3_col cm
  else if bool_decide (f = "_YEAR_") then UN.year_col cm
  else UN.assoc (UN.field_cols cm) f.

(** Some pair of the list has destination [f] and a keyword found in the
    text. *)
Definition keyword_for (column_map : list (string * string)) (f : string)
    (cell_str : string) : bool :=
  existsb (fun spec => bool_decide (spec.2 = f) && UN.keyword_in spec.1 cell_str)
          column_map.

(** The header cell is not empty and contains, in any case, a keyword
    configured for [f]. *)
Definition cell_matches (column_map : list (string * string)) (f : string)
    (c : cell) : Prop :=
  is_none c = false /\ keyword_for column_map f (strip (py_str c)) = true.

#[global] Instance cell_matches_dec column_map f c :
  Decision (cell_matches column_map f c).
Proof. unfold cell_matches. apply _. Defined.

(** The first (leftmost) column of the header whose cell matches [f]. *)
Definition first_matching_column (column_map : list (string * string))
    (f : string) (header_row : list cell) : option nat :=
  fst <$> list_find (cell_matches column_map f) header_row.

(** The header rule in the words of the specification (section 4.3, step 1),
    to compare the locators with: among the first 25 rows, the first whose
    non-empty cells, concatenated, contain the sentinel in any case, or most
    of whose cells are 4-digit numeric tokens. *)
Definition spec_nonempty (c : cell) : bool :=
  negb (is_none c) && negb (bool_decide (py_str c = "")).

Definition spec_concatenation (row : list cell) : string :=
  join "" (map py_str (List.filter spec_nonempty row)).

Definition spec_year_cells (row : list cell) : nat :=
  length (List.filter (fun c => Sipri.is_year_token (strip (py_str c))) row).

Definition spec_qualifies (sentinel : string) (row : list cell) : bool :=
  contains (lower sentinel) (lower (spec_concatenation row))
  || Nat.ltb (length row) (2 * spec_year_cells row).

Definition spec_locate (sentinel : string) (rows : list (list cell))
  : option nat :=
  UN.first_row_from (spec_qualifies sentinel) 0 (take 25 rows).

(** An integer that [float] converts: the multipliers of [SHEETS] are. *)
Definition in_range (k : Z) : Prop := out_of_range (inject_Z k) = false.

(** The year a year column stands for: its sort key. *)
Definition year_of (yc : cell) : Z :=
  match Sipri.year_key yc with Ok y => y | Raise _ => 0%Z end.

(** What the row at position [i] has under a year column: a cell, or the
    Series of several. *)
Definition year_cell (pd : Sipri.pandas) (i : nat) (columns row : list cell)
    (yc : cell) : cell :=
  Sipri.series_get pd i columns row yc (CStr "").

(** The first year column of a list whose cell has a value, with the value. *)
Fixpoint first_valid (pd : Sipri.pandas) (i : nat) (multiply_by : Z)
    (columns row : list cell) (ycs : list cell) : option (pyfloat * cell) :=
  match ycs with
  | [] => None
  | yc :: rest =>
      match Sipri.normalize multiply_by (year_cell pd i columns row yc) with
      | Ok (Some v) => Some (v, yc)
      | _ => first_valid pd i multiply_by columns row rest
      end
  end.

(** What [parse_sheet] selects for one row: the year columns of the header
    are sorted once, then the loop runs on the row. *)
Definition sipri_select (pd : Sipri.pandas) (i : nat) (multiply_by : Z)
    (columns row : list cell) : outcome (option pyfloat * option string) :=
  ycs_sorted ← Sipri.year_cols_sorted (Sipri.year_cols columns);
  Sipri.latest pd i multiply_by columns row ycs_sorted None None.


(** Later elements do not have greater keys. *)
Definition desc (p q : Z * cell) : Prop := (q.1 <= p.1)%Z.

(** The name [parse_sheet] reads in a row, and whether the row gets as far
    as [country_to_iso3] (it is not blank, not a heading, not a region in
    capitals). *)
Definition row_name (pd : Sipri.pandas) (i : nat) (columns row : list cell)
    (ccol : cell) : string :=
  strip (py_str (Sipri.series_get pd i columns row ccol CNaN)).

Definition is_country_row (name : string) : bool :=
  negb (bool_decide (name = "") || bool_decide (lower name ∈ Sipri.non_countries))
  && negb (isupper name && (3 <? py_len name)%nat).

(** The resolution chain of [country_to_iso3] written as one expression:
    override table, exact name, best fuzzy match, else unresolved. *)
Definition resolution_chain (db : option Sipri.pycountry) (name : string)
  : option string :=
  match Sipri.NAME_TO_ISO3 !! name with
  | Some code => Some code
  | None =>
      match db with
      | None => None
      | Some pc =>
          match Sipri.countries_get pc name with
          | Ok (Some alpha_3) => Some alpha_3
          | Ok None =>
              match Sipri.search_fuzzy pc name with
              | Ok (alpha_3 :: _) => Some alpha_3
              | _ => None
              end
          | Raise _ => None
          end
      end
  end.

(** A reference database that knows no country: no exact name, and the fuzzy
    search raises as it does when nothing matches. *)
Definition empty_db : Sipri.pycountry :=
  Sipri.PyCountry (fun _ => Ok None) (fun _ => Raise LookupError).

(** The companion key of a field. *)
Definition year_key_of (f : string) : string := f +:+ "_year".

(** No configured field name is the companion key of a configured one. *)
Definition companion_free (names : list string) : Prop :=
  forall f g, f ∈ names -> g ∈ names -> g <> year_key_of f.

(** In a record, each of the fields has its companion and each companion its
    field. *)
Definition paired {V} (names : list string) (fields : gmap string V) : Prop :=
  forall f, f ∈ names ->
    (is_Some (fields !! f) <-> is_Some (fields !! year_key_of f)).

(** The keys of a record are the fields of [S] and their companions. *)
Definition written_as {V} (S : list string) (fields : gmap string V) : Prop :=
  forall k, is_Some (fields !! k) <->
            (k ∈ S \/ exists f, f ∈ S /\ k = year_key_of f).

(** Every record of a map is written from fields among [names]. *)
Definition records_from {V} (names : list string)
    (d : gmap string (gmap string V)) : Prop :=
  forall iso3 fields, d !! iso3 = Some fields ->
    exists S, S ⊆ names /\ written_as S fields.

(** [companion_free] as a test that can be run on a configuration. *)
Definition companion_freeb (names : list string) : bool :=
  forallb (fun f =>
             forallb (fun g => negb (bool_decide (g = year_key_of f))) names)
          names.

(** A workbook with two rows for France in the same year. *)
Definition tie_rows : list (list cell) :=
  [ [CStr "Location"; CStr "ISO3 Alpha-code"; CStr "Year";
     CStr "Dependency ratio"];
    [CStr "France"; CStr "FRA"; CInt 2020; CInt 1];
    [CStr "France"; CStr "FRA"; CInt 2020; CInt 2] ].

(** The same two observations as rows of a CSV file. *)
Definition tie_csv_rows : list Owid.csv_row :=
  [ {[ "Code" := CStr "FRA"; "Year" := CStr "2020"; "Value" := CStr "1" ]};
    {[ "Code" := CStr "FRA"; "Year" := CStr "2020"; "Value" := CStr "2" ]} ].

(** A table library none of whose Series is ever printed: for frames whose
    labels are all different. *)
Definition plain_frames : Sipri.pandas := Sipri.Pandas (fun _ _ _ _ => "").



(** The entry [extract_latest] has for a code after a row offering
    [(v, y)]. *)
Definition offered (result : gmap string (pyfloat * string)) (k : string)
    (v : pyfloat) (y : string) : gmap string (pyfloat * string) :=
  match result !! k with
  | Some (_, best) =>
      if String.ltb best y then <[k := (v, y)]> result else result
  | None => <[k := (v, y)]> result
  end.

(** The placeholder test as the specification words it: equal, whatever the
    case and once trimmed, to one of five strings. *)
Definition spec_placeholder (s : string) : bool :=
  bool_decide (lower (strip s) ∈ [""; "nan"; "none"; "..."; "xxx"]).

(** One line of a CSV file whose value has a thousands separator. *)
Definition csv_row_with_comma : Owid.csv_row :=
  {[ "Code" := CStr "FRA"; "Year" := CStr "2020"; "Value" := CStr "1,234.5" ]}.

(** The row carries the code [k] with a year that is not after 2025: its
    code cell is not empty and has 3 characters once stripped, [k] is that
    text in upper case, and the year of the row is read without exception. *)
Definition dated_code (iso3_c : nat) (year_c : option nat) (row : list cell)
    (k : string) : Prop :=
  exists c y s,
    row !! iso3_c = Some c
    /\ truthy c = true
    /\ py_len (strip (py_str c)) = 3
    /\ k = upper (strip (py_str c))
    /\ UN.row_year year_c row = Ok (y, s)
    /\ (y <= 2025)%Z.

(** The codes of the rows [seen] are the keys of the state, and a code with
    a best year has a record. *)
Definition codes_kept (iso3_c : nat) (year_c : option nat)
    (seen : list (list cell)) (st : UN.extraction) : Prop :=
  (forall k, is_Some (UN.result st !! k) <->
             exists row, row ∈ seen /\ dated_code iso3_c year_c row k)
  /\ (forall k, is_Some (UN.best_year st !! k) -> is_Some (UN.result st !! k)).

(** The store of the examples of saving: [{"USA": {"milexPctGDP": "n/a"}}],
    whose one value is a text where a number is expected. *)
Definition store_usa : gmap string (gmap string json) :=
  {[ "USA" := {[ "milexPctGDP" := JStr "n/a" ]} ]}.

(** The text [json.dump(..., indent=2)] makes of [store_usa]. *)
Definition text_usa : string :=
  let quote := String "034"%char EmptyString in
  let newline := String "010"%char EmptyString in
  "{" +:+ newline
  +:+ "  " +:+ quote +:+ "USA" +:+ quote +:+ ": {" +:+ newline
  +:+ "    " +:+ quote +:+ "milexPctGDP" +:+ quote +:+ ": "
  +:+ quote +:+ "n/a" +:+ quote +:+ newline
  +:+ "  }" +:+ newline
  +:+ "}".

(** [json.load] and [json.dump] on the one store of the examples: no other
    text is loaded and no other store dumped in them. *)
Definition load_example (text : string)
  : outcome (gmap string (gmap string json)) :=
  if bool_decide (text = text_usa) then Ok store_usa else Raise ValueError.

Definition dump_example (_ : gmap string (gmap string json)) : string :=
  text_usa.

(** A sheet of the UN whose year cell reads [inf]. *)
Definition rows_year_inf : list (list cell) :=
  [ [CStr "Location"; CStr "ISO3 Alpha-code"; CStr "Year"];
    [CStr "France"; CStr "FRA"; CStr "inf"] ].

(** A run of [fet_UN_data.py] in a directory without workbooks. *)
Definition un_world_no_workbook (flt : Persist.fault) : UN.world :=
  UN.World [] (fun _ => Raise OSError) load_example dump_example flt.

(** A run of [fet_UN_data.py] with the workbook of the population, whose
    sheet is [rows_year_inf], on storage that does nothing wrong. *)
Definition un_world_year_inf : UN.world :=
  UN.World ["Population Data.xlsx"]
    (fun _ => Ok (UN.Workbook ["Estimates"] (fun _ => rows_year_inf) None))
    load_example dump_example Persist.NoFault.

(** A run of [fetch_sipri.py] on a workbook without sheets. *)
Definition sipri_world_no_sheet (flt : Persist.fault) : Sipri.world :=
  Sipri.World (Ok ()) load_example
    (Ok (Some (Sipri.Excel [] (fun _ => Raise ValueError))))
    None plain_frames dump_example flt.

(** What a fill-only step makes of the value [b] a store has for a field
    when the source brings [x]. *)
Definition fill (b : option json) (x : obsval) : option json :=
  match b with
  | Some v => if is_null v then Some (to_json x) else Some v
  | None => Some (to_json x)
  end.

(** [store[E].get(F) is None] as a test. *)
Definition absentb (d : gmap string (gmap string json)) (E F : string) : bool :=
  is_null (default JNull (field d E F)).

(** The number of fields of a source map that are absent in a store. *)
Definition newly_filled (d : gmap string (gmap string json))
    (m : gmap string (gmap string obsval)) : nat :=
  sum_list ((fun it : string * list (string * obsval) =>
               length (List.filter (fun fx => absentb d it.1 fx.1) it.2))
              <$> UN.items m).

(** A cell on which a conversion overflows: its text reads as an infinity,
    which has no integer part, or it is an integer too large for [float]. *)
Definition overflows (c : cell) : Prop :=
  (exists neg, float_of_str (py_str c) = Ok (FInf neg))
  \/ float_of_cell c = Raise OverflowError.

(** No cell of the sheet overflows. *)
Definition no_overflow (all_rows : list (list cell)) : Prop :=
  forall row c, row ∈ all_rows -> c ∈ row -> ~ overflows c.

(** Every year string of a record is the decimal text of a year up to 2025. *)
Definition years_within (fields : gmap string obsval) : Prop :=
  forall k s, fields !! k = Some (OStr s) ->
    exists y, (y <= 2025)%Z /\ s = pretty y.

(** A row of a CSV file offers the entry [(v, y)] for the code [k]: on its
    own, [extract_latest] makes exactly that entry of it. *)
Definition offers (iso_col : string) (year_col : option string)
    (value_col : string) (row : Owid.csv_row) (k : string) (v : pyfloat)
    (y : string) : Prop :=
  Owid.extract_row iso_col year_col value_col ∅ row = Ok {[ k := (v, y) ]}.

(** A record the SIPRI parser can make of the row at position [i]: the row
    reaches the resolver, its name resolves to the code, and the record
    holds the value of one of the year columns with the year of that
    column. *)
Definition sipri_entry (db : option Sipri.pycountry) (pd : Sipri.pandas)
    (field_name : string) (multiply_by : Z) (columns : list cell)
    (ccol : cell) (i : nat) (row : list cell) (iso3 : string)
    (fields : gmap string json) : Prop :=
  is_country_row (row_name pd i columns row ccol) = true
  /\ resolution_chain db (strip (row_name pd i columns row ccol)) = Some iso3
  /\ iso3 <> ""
  /\ exists v yc,
       yc ∈ Sipri.year_cols columns
       /\ Sipri.normalize multiply_by (year_cell pd i columns row yc)
          = Ok (Some v)
       /\ fields !! field_name = Some (JFloat v)
       /\ fields !! year_key_of field_name = Some (JStr (pretty (year_of yc))).

(** A name the SIPRI parser reports as skipped: the row reaches the
    resolver, which has no code or an empty one for it. *)
Definition sipri_skipped (db : option Sipri.pycountry) (pd : Sipri.pandas)
    (columns : list cell) (ccol : cell) (i : nat) (row : list cell)
    (name : string) : Prop :=
  name = row_name pd i columns row ccol
  /\ is_country_row name = true
  /\ (resolution_chain db (strip name) = None
      \/ resolution_chain db (strip name) = Some "").

(** What holds of the state of the SIPRI parser after the rows [seen]. *)
Definition sipri_parsed_from (db : option Sipri.pycountry)
    (pd : Sipri.pandas) (field_name : string) (multiply_by : Z)
    (columns : list cell) (ccol : cell) (seen : list (list cell))
    (st : Sipri.parsed) : Prop :=
  (forall iso3 fields,
     Sipri.result st !! iso3 = Some fields ->
     exists i row,
       seen !! i = Some row
       /\ sipri_entry db pd field_name multiply_by columns ccol i row iso3
            fields)
  /\ (forall name,
        name ∈ Sipri.skipped st ->
        exists i row,
          seen !! i = Some row
          /\ sipri_skipped db pd columns ccol i row name).

(** [store.setdefault(iso3, {}).update(fields)], the values passed through
    [h]: the step shared by the overwriting merges. *)
Definition update_with {V} (h : V -> json) (d : gmap string (gmap string json))
    (item : string * list (string * V)) : gmap string (gmap string json) :=
  <[item.1 := fold_left (fun r kv => <[kv.1 := h kv.2]> r) item.2
                (default ∅ (d !! item.1))]> d.

(** What holds of the result of [extract_latest] after the rows [seen]. *)
Definition latest_kept (iso_col : string) (year_col : option string)
    (value_col : string) (seen : list Owid.csv_row)
    (res : gmap string (pyfloat * string)) : Prop :=
  (forall k v y,
     res !! k = Some (v, y) ->
     py_len k = 3
     /\ (exists row, row ∈ seen /\ offers iso_col year_col value_col row k v y)
     /\ forall row v' y',
          row ∈ seen -> offers iso_col year_col value_col row k v' y' ->
          String.ltb y y' = false)
  /\ (forall row k v y,
        row ∈ seen -> offers iso_col year_col value_col row k v y ->
        is_Some (res !! k)).

(** A SIPRI sheet with one year column, a country of the override table and
    a name no table knows. *)
Definition sheet_czechia : list (list cell) :=
  [ [CStr "Country"; CInt 2023];
    [CStr "Czechia"; CInt 5];
    [CStr "Nonexistent Country"; CInt 6] ].


(** The row gives the entity [iso3] the value [v] in column [col], with
    the year [s]: its code cell reads [iso3], the cell of the column
    converts to [v] and the year of the row is read as [s]. *)
Definition row_gives (iso3_c : nat) (year_c : option nat) (row : list cell)
    (iso3 : string) (col : nat) (v : pyfloat) (s : string) : Prop :=
  (exists c0, row !! iso3_c = Some c0 /\ upper (strip (py_str c0)) = iso3)
  /\ (exists c, row !! col = Some c /\ float_of_cell c = Ok v)
  /\ (exists y, UN.row_year year_c row = Ok (y, s)).

(** In the record of [iso3] every field has its value and its year from one
    and the same row of [rows], or has neither. *)
Definition from_one_row (iso3_c : nat) (year_c : option nat)
    (fcols : list (string * nat)) (rows : list (list cell)) (iso3 : string)
    (fields : gmap string obsval) : Prop :=
  forall f, f ∈ fcols.*1 ->
    match fields !! f with
    | None => fields !! year_key_of f = None
    | Some x =>
        exists row col v s,
          row ∈ rows /\ (f, col) ∈ fcols
          /\ x = OFloat v
          /\ fields !! year_key_of f = Some (OStr s)
          /\ row_gives iso3_c year_c row iso3 col v s
    end.

(** A store whose sample values are a boolean, a float and nothing. *)
Definition store_sample : gmap string (gmap string json) :=
  {[ "USA" := {[ "milexPctGDP" := JFloat (FNum (7 # 2));
                 "milexCurrentUSD" := JBool true;
                 "milexPerCapita" := JNull ]} ]}.

(* ===================================================================== *)
(** * The fill-only merges *)
(* ===================================================================== *)

Section Merge.

Implicit Types (d : gmap string (gmap string json)) (E F : string).

Lemma field_insert_record {V} (d : gmap string (gmap string V)) iso3
    (r : gmap string V) E F :
  field (<[iso3 := r]> d) E F
  = if decide (iso3 = E) then r !! F else field d E F.
Proof.
  unfold field. destruct (decide (iso3 = E)) as [->|Hne].
  - by rewrite lookup_insert_eq.
  - by rewrite lookup_insert_ne.
Qed.

Lemma field_default {V} (d : gmap string (gmap string V)) E F :
  default ∅ (d !! E) !! F = field d E F.
Proof. unfold field. destruct (d !! E); simpl; [done | apply lookup_empty]. Qed.

Lemma ensure_entity_field d iso3 E F :
  field (UN.ensure_entity iso3 d) E F = field d E F.
Proof.
  unfold UN.ensure_entity. destruct (d !! iso3) eqn:Hd; [done|].
  rewrite field_insert_record. destruct (decide (iso3 = E)) as [<-|]; [|done].
  unfold field. by rewrite Hd, lookup_empty.
Qed.

Lemma ensure_entity_dom d iso3 E :
  is_Some (d !! E) -> is_Some (UN.ensure_entity iso3 d !! E).
Proof.
  intros Hd. unfold UN.ensure_entity. destruct (d !! iso3) eqn:Hi; [done|].
  destruct (decide (iso3 = E)) as [->|]; [by rewrite lookup_insert_eq|].
  by rewrite lookup_insert_ne.
Qed.

Lemma ensure_entity_present d iso3 : is_Some (UN.ensure_entity iso3 d !! iso3).
Proof.
  unfold UN.ensure_entity. destruct (d !! iso3) eqn:Hi; [by rewrite Hi|].
  by rewrite lookup_insert_eq.
Qed.

Lemma ensure_entity_id d iso3 :
  is_Some (d !! iso3) -> UN.ensure_entity iso3 d = d.
Proof. intros [r Hr]. unfold UN.ensure_entity. by rewrite Hr. Qed.

Lemma dict_get_field d iso3 F :
  dict_get (default ∅ (d !! iso3)) F = default JNull (field d iso3 F).
Proof. unfold dict_get. by rewrite field_default. Qed.

(** One field step keeps every value that is there and not [null]. *)
Lemma merge_field_keeps iso3 st fv E F v :
  field st.1 E F = Some v -> is_null v = false ->
  field (UN.merge_field iso3 st fv).1 E F = Some v.
Proof.
  destruct st as [d n], fv as [f x]. simpl. intros Hv Hnn.
  rewrite dict_get_field.
  destruct (is_null (default JNull (field d iso3 f))) eqn:Hnull; [|done].
  simpl. rewrite field_insert_record.
  destruct (decide (iso3 = E)) as [->|]; [|done].
  destruct (decide (f = F)) as [->|].
  - rewrite Hv in Hnull. simpl in Hnull. congruence.
  - rewrite lookup_insert_ne by done. by rewrite field_default.
Qed.

Lemma merge_field_dom iso3 st fv E :
  is_Some (st.1 !! E) -> is_Some ((UN.merge_field iso3 st fv).1 !! E).
Proof.
  destruct st as [d n], fv as [f x]. simpl. intros Hd.
  destruct (is_null _); [|done]. simpl.
  destruct (decide (iso3 = E)) as [->|]; [by rewrite lookup_insert_eq|].
  by rewrite lookup_insert_ne.
Qed.

(** After a field step the field is there and not [null]. *)
Lemma merge_field_settles iso3 st f x :
  settled (UN.merge_field iso3 st (f, x)).1 iso3 f.
Proof.
  destruct st as [d n]. simpl. rewrite dict_get_field.
  destruct (field d iso3 f) as [w|] eqn:Hf; simpl.
  - destruct (is_null w) eqn:Hw; simpl.
    + exists (to_json x). rewrite field_insert_record, decide_True by done.
      rewrite lookup_insert_eq. by destruct x.
    + by exists w.
  - exists (to_json x). rewrite field_insert_record, decide_True by done.
    rewrite lookup_insert_eq. by destruct x.
Qed.

(** A field step on a settled field does nothing. *)
Lemma merge_field_noop iso3 st f x :
  settled st.1 iso3 f -> UN.merge_field iso3 st (f, x) = st.
Proof.
  destruct st as [d n]. simpl. intros (w & Hw & Hnn).
  by rewrite dict_get_field, Hw; simpl; rewrite Hnn.
Qed.

Lemma merge_fields_keeps iso3 fields st E F v :
  field st.1 E F = Some v -> is_null v = false ->
  field (fold_left (UN.merge_field iso3) fields st).1 E F = Some v.
Proof.
  revert st. induction fields as [|fv fields IH]; intros st Hv Hnn; [done|].
  simpl. apply IH; [|done]. by apply merge_field_keeps.
Qed.

Lemma merge_fields_dom iso3 fields st E :
  is_Some (st.1 !! E) ->
  is_Some ((fold_left (UN.merge_field iso3) fields st).1 !! E).
Proof.
  revert st. induction fields as [|fv fields IH]; intros st Hd; [done|].
  simpl. apply IH. by apply merge_field_dom.
Qed.

Lemma merge_fields_settles iso3 fields st f x :
  (f, x) ∈ fields ->
  settled (fold_left (UN.merge_field iso3) fields st).1 iso3 f.
Proof.
  revert st. induction fields as [|fv fields IH]; intros st Hin.
  - by apply elem_of_nil in Hin.
  - apply elem_of_cons in Hin as [<-|Hin]; simpl; [|by apply IH].
    destruct (merge_field_settles iso3 st f x) as (w & Hw & Hnn).
    exists w. split; [|done]. by apply merge_fields_keeps.
Qed.

Lemma merge_fields_noop iso3 fields st :
  (forall f x, (f, x) ∈ fields -> settled st.1 iso3 f) ->
  fold_left (UN.merge_field iso3) fields st = st.
Proof.
  induction fields as [|[f x] fields IH]; intros Hall; [done|].
  simpl. rewrite merge_field_noop by (apply (Hall f x); left).
  apply IH. intros f' x' Hin. apply (Hall f' x'). by right.
Qed.

Lemma merge_entity_keeps st item E F v :
  field st.1 E F = Some v -> is_null v = false ->
  field (UN.merge_entity st item).1 E F = Some v.
Proof.
  destruct item as [iso3 fields]. intros Hv Hnn. unfold UN.merge_entity.
  apply merge_fields_keeps; [|done]. simpl. by rewrite ensure_entity_field.
Qed.

Lemma merge_entity_dom st item E :
  is_Some (st.1 !! E) -> is_Some ((UN.merge_entity st item).1 !! E).
Proof.
  destruct item as [iso3 fields]. intros Hd. unfold UN.merge_entity.
  apply merge_fields_dom. simpl. by apply ensure_entity_dom.
Qed.

Lemma merge_items_keeps its st E F v :
  field st.1 E F = Some v -> is_null v = false ->
  field (UN.merge_items st its).1 E F = Some v.
Proof.
  revert st. induction its as [|it its IH]; intros st Hv Hnn; [done|].
  simpl. apply IH; [|done]. by apply merge_entity_keeps.
Qed.

Lemma merge_items_dom its st E :
  is_Some (st.1 !! E) -> is_Some ((UN.merge_items st its).1 !! E).
Proof.
  revert st. induction its as [|it its IH]; intros st Hd; [done|].
  simpl. apply IH. by apply merge_entity_dom.
Qed.

Lemma merge_items_covers its st : covered (UN.merge_items st its).1 its.
Proof.
  revert st. induction its as [|[iso3 fields] its IH]; intros st E fs Hin.
  - by apply elem_of_nil in Hin.
  - apply elem_of_cons in Hin as [Heq|Hin]; [|by apply (IH _ E fs)].
    injection Heq as -> ->. simpl. split.
    + apply merge_items_dom, merge_fields_dom. simpl.
      apply ensure_entity_present.
    + intros f x Hfx.
      destruct (merge_fields_settles iso3 fields
                  (UN.ensure_entity iso3 st.1, st.2) f x Hfx) as (w & Hw & Hnn).
      exists w. split; [|done]. by apply merge_items_keeps.
Qed.

Lemma merge_items_noop its st : covered st.1 its -> UN.merge_items st its = st.
Proof.
  induction its as [|[iso3 fields] its IH]; intros Hcov; [done|].
  destruct (Hcov iso3 fields) as [Hdom Hset]; [left|].
  assert (UN.merge_entity st (iso3, fields) = st) as Hstep.
  { unfold UN.merge_entity. rewrite ensure_entity_id by done.
    rewrite <- surjective_pairing. by apply merge_fields_noop. }
  change (UN.merge_items st ((iso3, fields) :: its))
    with (UN.merge_items (UN.merge_entity st (iso3, fields)) its).
  rewrite Hstep. apply IH. intros E fs Hin. apply Hcov. by right.
Qed.

(** The same for the fill-only branch of the UNESCO merge, whose test is the
    presence of the key. *)
Lemma fill_field_keeps iso3 d kv E F v :
  field d E F = Some v -> field (Unesco.fill_field iso3 d kv) E F = Some v.
Proof.
  intros Hv. unfold Unesco.fill_field. rewrite field_default.
  destruct (field d iso3 kv.1) eqn:Hk; [done|].
  rewrite field_insert_record. destruct (decide (iso3 = E)) as [->|]; [|done].
  destruct (decide (kv.1 = F)) as [<-|]; [congruence|].
  rewrite lookup_insert_ne by done. by rewrite field_default.
Qed.

Lemma opri_merge_keeps d results E F v :
  field d E F = Some v -> field (Unesco.merge true d results) E F = Some v.
Proof.
  unfold Unesco.merge. generalize (UN.items results) as its. intros its.
  revert d. induction its as [|[iso3 fields] its IH]; intros d Hv; [done|].
  simpl. apply IH. clear IH. revert d Hv.
  induction fields as [|kv fields IHf]; intros d Hv; [done|].
  simpl. apply IHf. by apply fill_field_keeps.
Qed.

End Merge.

(** ** Claims on the merge *)

(** C1.  Under the fill-only policy a value that is in the store and is not
    absent is never changed by later merges, whatever the sources and their
    order; an explicit zero is such a value; and a merge changes a field only
    where the store had it absent.  This holds for the merge of
    [fet_UN_data.py] (absent: key missing or [null]) and for the fill-only
    branch of [fetch_unesco.py] (absent: key missing). *)
Theorem fill_only_merge_keeps_values :
  (forall un_data sources E F v,
     field un_data E F = Some v -> is_null v = false ->
     field (un_merge_all un_data sources) E F = Some v)
  /\ (forall un_data sources E F,
        (field un_data E F = Some (JInt 0) ->
         field (un_merge_all un_data sources) E F = Some (JInt 0))
        /\ (field un_data E F = Some (JFloat (FNum 0)) ->
            field (un_merge_all un_data sources) E F = Some (JFloat (FNum 0))))
  /\ (forall un_data new_data E F,
        field (UN.merge un_data new_data).1 E F <> field un_data E F ->
        absent un_data E F)
  /\ (forall unesco_data sources E F v,
        field unesco_data E F = Some v ->
        field (opri_merge_all unesco_data sources) E F = Some v)
  /\ (forall unesco_data results E F,
        field (Unesco.merge true unesco_data results) E F
          <> field unesco_data E F ->
        field unesco_data E F = None).
Proof.
  assert (forall un_data sources E F v,
     field un_data E F = Some v -> is_null v = false ->
     field (un_merge_all un_data sources) E F = Some v) as Hkeep.
  { intros d sources. revert d.
    induction sources as [|m sources IH]; intros d E F v Hv Hnn; [done|].
    simpl. apply IH; [|done]. unfold UN.merge.
    by apply merge_items_keeps. }
  split; [exact Hkeep|].
  split; [intros d sources E F; split; intros H0; by apply Hkeep|].
  split.
  { intros d m E F Hchg. unfold absent.
    destruct (field d E F) as [v|] eqn:Hv; [|by left].
    destruct (is_null v) eqn:Hnn; [destruct v; try done; by right|].
    exfalso. apply Hchg. unfold UN.merge. by apply merge_items_keeps. }
  split.
  { intros d sources. revert d.
    induction sources as [|m sources IH]; intros d E F v Hv; [done|].
    simpl. apply IH. by apply opri_merge_keeps. }
  intros d m E F Hchg. destruct (field d E F) as [v|] eqn:Hv; [|done].
  exfalso. apply Hchg. by apply opri_merge_keeps.
Qed.

(** C2.  The fill-only merge is idempotent: merging the same source map a
    second time leaves the store as the first merge made it and counts no
    added field. *)
Theorem fill_only_merge_idempotent :
  forall (un_data : gmap string (gmap string json))
         (new_data : gmap string (gmap string obsval)),
    UN.merge (UN.merge un_data new_data).1 new_data
    = ((UN.merge un_data new_data).1, 0).
Proof.
  intros d m. unfold UN.merge at 1.
  apply merge_items_noop. simpl. unfold UN.merge. apply merge_items_covers.
Qed.

(** A store holding an explicit zero keeps it when a later source brings
    another value for the same field. *)
Lemma fill_only_merge_keeps_values_witness :
  let store : gmap string (gmap string json) :=
    {[ "FRA" := {[ "gdpGrowth" := JFloat (FNum 0) ]} ]} in
  let later : list (gmap string (gmap string obsval)) :=
    [ {[ "FRA" := {[ "gdpGrowth" := OFloat (FNum (5 # 2)) ]} ]} ] in
  field store "FRA" "gdpGrowth" = Some (JFloat (FNum 0))
  /\ field (un_merge_all store later) "FRA" "gdpGrowth"
     = Some (JFloat (FNum 0)).
Proof.
  split; [vm_compute; reflexivity|].
  apply (proj1 fill_only_merge_keeps_values); vm_compute; reflexivity.
Defined.

(** Two sources give ["gdpGrowth"] for ["FRA"]: the first value stays and the
    second merge adds nothing; a [null] in the store is filled. *)
Example merge_two_sources :
  let first : gmap string (gmap string obsval) :=
    {[ "FRA" := {[ "gdpGrowth" := OFloat (FNum (11 # 10)) ]} ]} in
  let second : gmap string (gmap string obsval) :=
    {[ "FRA" := {[ "gdpGrowth" := OFloat (FNum (9 # 10)) ]} ]} in
  let st1 := UN.merge {[ "FRA" := {[ "gdpGrowth" := JNull ]} ]} first in
  let st2 := UN.merge st1.1 second in
  st1.2 = 1
  /\ field st1.1 "FRA" "gdpGrowth" = Some (JFloat (FNum (11 # 10)))
  /\ st2.2 = 0
  /\ field st2.1 "FRA" "gdpGrowth" = Some (JFloat (FNum (11 # 10))).
Proof. vm_compute. repeat split; reflexivity. Qed.

(* ===================================================================== *)
(** * The schema locator of [fet_UN_data.py]: [map_columns] *)
(* ===================================================================== *)

Section MapColumns.

Variable column_map : list (string * string).

Lemma has_key_assoc {V} (d : list (string * V)) k :
  UN.has_key d k = false <-> UN.assoc d k = None.
Proof.
  induction d as [|[k' v] d IH]; simpl; [done|].
  destruct (bool_decide (k' = k)); simpl; [split; discriminate|exact IH].
Qed.

Lemma assoc_snoc {V} (d : list (string * V)) k v f :
  UN.assoc (d ++ [(k, v)]) f
  = match UN.assoc d f with
    | Some j => Some j
    | None => if bool_decide (k = f) then Some v else None
    end.
Proof.
  induction d as [|[k' v'] d IH]; simpl; [done|].
  by destruct (bool_decide (k' = f)).
Qed.

(** One pair tried on a cell: a destination that has a column keeps it; a
    free one takes the column when the pair is for it and the keyword is
    found. *)
Lemma claim_slot i s cm spec f :
  slot f (UN.claim i s cm spec)
  = match slot f cm with
    | Some j => Some j
    | None =>
        if bool_decide (spec.2 = f) && UN.keyword_in spec.1 s
        then Some i else None
    end.
Proof.
  destruct spec as [k f']. unfold UN.claim, slot. simpl.
  destruct (UN.keyword_in k s); simpl.
  2:{ rewrite andb_false_r.
      repeat case_bool_decide; by repeat case_match. }
  rewrite andb_true_r.
  destruct (decide (f' = "_ISO3_")) as [->|Hni].
  { rewrite (bool_decide_eq_true_2 ("_ISO3_" = "_ISO3_")) by done.
    destruct (UN.iso3_col cm) eqn:Hi; simpl; rewrite ?Hi;
      repeat case_bool_decide; subst; try done; by repeat case_match. }
  rewrite (bool_decide_eq_false_2 (f' = "_ISO3_")) by done.
  destruct (decide (f' = "_YEAR_")) as [->|Hny].
  { rewrite (bool_decide_eq_true_2 ("_YEAR_" = "_YEAR_")) by done.
    destruct (UN.year_col cm) eqn:Hy; simpl; rewrite ?Hy;
      repeat case_bool_decide; subst; try done; by repeat case_match. }
  rewrite (bool_decide_eq_false_2 (f' = "_YEAR_")) by done.
  destruct (UN.has_key (UN.field_cols cm) f') eqn:Hk; simpl.
  - repeat case_bool_decide; subst; try done; try by repeat case_match.
    destruct (UN.assoc (UN.field_cols cm) f) eqn:Ha; [done|].
    apply has_key_assoc in Ha. congruence.
  - rewrite assoc_snoc.
    repeat case_bool_decide; subst; try done; by repeat case_match.
Qed.

Lemma claims_slot i s specs cm f :
  slot f (fold_left (UN.claim i s) specs cm)
  = match slot f cm with
    | Some j => Some j
    | None => if keyword_for specs f s then Some i else None
    end.
Proof.
  revert cm. induction specs as [|spec specs IH]; intros cm; simpl.
  - by destruct (slot f cm).
  - rewrite IH, claim_slot. destruct (slot f cm); [done|].
    destruct (bool_decide (spec.2 = f) && UN.keyword_in spec.1 s); simpl;
      [done|]. reflexivity.
Qed.

Lemma map_cell_slot cm i c f :
  slot f (UN.map_cell column_map cm i c)
  = match slot f cm with
    | Some j => Some j
    | None => if decide (cell_matches column_map f c) then Some i else None
    end.
Proof.
  unfold UN.map_cell.
  destruct (decide (cell_matches column_map f c)) as [[Hn Hk]|Hno].
  - rewrite Hn, claims_slot, Hk. done.
  - destruct (is_none c) eqn:Hn; [by destruct (slot f cm)|].
    rewrite claims_slot. destruct (slot f cm); [done|].
    destruct (keyword_for column_map f (strip (py_str c))) eqn:Hk; [|done].
    by destruct Hno.
Qed.

Lemma map_cells_slot header cm i f :
  slot f (UN.map_cells column_map cm i header)
  = match slot f cm with
    | Some j => Some j
    | None => (fun j => i + j) <$> first_matching_column column_map f header
    end.
Proof.
  revert cm i. induction header as [|c header IH]; intros cm i; simpl.
  - by destruct (slot f cm).
  - rewrite IH, map_cell_slot. destruct (slot f cm); [done|].
    unfold first_matching_column. simpl.
    destruct (decide (cell_matches column_map f c)); simpl.
    + f_equal. lia.
    + destruct (list_find (cell_matches column_map f) header) as [[j x]|];
        simpl; [f_equal; lia|done].
Qed.

Lemma claim_NoDup i s cm spec :
  NoDup (UN.field_cols cm).*1 -> NoDup (UN.field_cols (UN.claim i s cm spec)).*1.
Proof.
  intros Hnd. destruct spec as [k f']. unfold UN.claim.
  repeat case_match; simpl; try done.
  rewrite fmap_app. simpl. apply NoDup_app. split; [done|].
  split; [|apply NoDup_singleton].
  intros x Hx ->%list_elem_of_singleton.
  assert (UN.assoc (UN.field_cols cm) f' = None) as Ha
    by (apply has_key_assoc; by destruct (UN.has_key _ _)).
  clear -Hx Ha. induction (UN.field_cols cm) as [|[k' v'] d IH]; simpl in *.
  - by apply elem_of_nil in Hx.
  - case_bool_decide; [done|]. apply elem_of_cons in Hx as [->|Hx]; [done|].
    by apply IH.
Qed.

Lemma map_cells_NoDup header cm i :
  NoDup (UN.field_cols cm).*1 ->
  NoDup (UN.field_cols (UN.map_cells column_map cm i header)).*1.
Proof.
  revert cm i. induction header as [|c header IH]; intros cm i Hnd; [done|].
  simpl. apply IH. unfold UN.map_cell. destruct (is_none c); [done|].
  clear IH. revert cm Hnd.
  induction column_map as [|spec specs IHs]; intros cm Hnd; [done|].
  simpl. apply IHs. by apply claim_NoDup.
Qed.

End MapColumns.

(** C6.  [map_columns] visits the header cells from left to right and gives
    every destination (the entity-code role, the year role, each field name)
    at most one column: the first column whose cell contains, in any case, a
    keyword configured for that destination.  Later columns matching the same
    destination are ignored, and destinations are decided independently of
    each other, so one column can serve several of them. *)
Theorem map_columns_first_column_wins :
  forall (header_row : list cell) (column_map : list (string * string)),
    let cm := UN.map_columns header_row column_map in
    (forall f, slot f cm = first_matching_column column_map f header_row)
    /\ (forall f i,
          slot f cm = Some i <->
          (exists c, header_row !! i = Some c /\ cell_matches column_map f c)
          /\ (forall j c, header_row !! j = Some c -> j < i ->
                          ~ cell_matches column_map f c))
    /\ NoDup (UN.field_cols cm).*1.
Proof.
  intros header_row column_map cm.
  assert (forall f, slot f cm = first_matching_column column_map f header_row)
    as Hslot.
  { intros f. unfold cm, UN.map_columns. rewrite map_cells_slot.
    assert (slot f (UN.ColMap None None []) = None) as ->
      by (unfold slot; simpl; by repeat case_bool_decide).
    destruct (first_matching_column column_map f header_row); done. }
  split; [exact Hslot|]. split.
  - intros f i. rewrite Hslot. unfold first_matching_column. split.
    + destruct (list_find _ header_row) as [[i' c]|] eqn:Hfind; [|done].
      simpl. intros [= ->]. apply list_find_Some in Hfind as (Hc & Hm & Hmin).
      split; [by exists c|exact Hmin].
    + intros [(c & Hc & Hm) Hmin].
      assert (list_find (cell_matches column_map f) header_row = Some (i, c))
        as -> by (apply list_find_Some; done).
      done.
  - unfold cm, UN.map_columns. apply map_cells_NoDup. simpl. apply NoDup_nil_2.
Qed.

(** The header of the population workbook: the ["ISO3"] column takes the
    entity-code role and ["Dependency Ratio"] the field of keyword
    ["Dependency"]; the row itself is found by [find_header_row]. *)
Example map_columns_population_header :
  let header_row := [CStr "Country"; CStr "ISO3"; CStr "2020"; CStr "2021";
                     CStr "Dependency Ratio"] in
  UN.find_header_row [[CStr "World Population Prospects"]; []; header_row]
    = Some 2
  /\ UN.map_columns header_row UN.columns_population
     = UN.ColMap (Some 1) None [("dependencyRatio", 4)].
Proof. vm_compute. split; reflexivity. Qed.

(** A second column for a field already claimed is ignored; one column can
    be claimed for two fields. *)
Example map_columns_duplicates_and_sharing :
  UN.map_columns [CStr "ISO3 Alpha-code"; CStr "Neonatal"; CStr "Under age 1"]
                 UN.columns_deaths
    = UN.ColMap (Some 0) None [("neonateMortality", 1)]
  /\ UN.map_columns [CStr "ISO3"; CStr "Year"; CStr "Total births 15-19"]
                    UN.columns_births
     = UN.ColMap (Some 0) (Some 1)
         [("totalBirths", 2); ("birthsAge15to19", 2)].
Proof. vm_compute. split; reflexivity. Qed.

Lemma map_columns_first_column_wins_witness :
  slot "dependencyRatio"
    (UN.map_columns [CStr "Country"; CStr "ISO3"; CStr "2020"; CStr "2021";
                     CStr "Dependency Ratio"] UN.columns_population) = Some 4.
Proof.
  apply (proj1 (proj2 (map_columns_first_column_wins _ _))). split.
  - exists (CStr "Dependency Ratio"). split; [reflexivity|].
    split; vm_compute; reflexivity.
  - intros j c Hj Hlt [_ Hk].
    do 4 (destruct j as [|j]; [injection Hj as <-; vm_compute in Hk; discriminate|]).
    lia.
Defined.

(* ===================================================================== *)
(** * Strings *)
(* ===================================================================== *)

Section Strings.

Lemma prefix_spec (n h : string) :
  String.prefix n h = true <-> exists b, h = n +:+ b.
Proof.
  revert h. induction n as [|c n IH]; intros [|c' h]; simpl.
  - split; [intros _; by exists ""|done].
  - split; [intros _; by exists (String c' h)|done].
  - split; [done|intros [b Hb]; discriminate].
  - destruct (Ascii.ascii_dec c c') as [->|Hne].
    + rewrite IH. split; intros [b Hb]; exists b; [by rewrite Hb|].
      by injection Hb.
    + split; [done|]. intros [b Hb]. injection Hb as -> _. done.
Qed.

Lemma contains_unfold (n h : string) :
  contains n h
  = String.prefix n h
    || match h with "" => false | String _ h' => contains n h' end.
Proof. by destruct h. Qed.

(** [contains] is the substring test. *)
Lemma contains_spec (n h : string) :
  contains n h = true <-> exists a b, h = a +:+ n +:+ b.
Proof.
  induction h as [|c h IH]; rewrite contains_unfold.
  - rewrite orb_false_r, prefix_spec. split.
    + intros [b Hb]. by exists "", b.
    + intros (a & b & Hab). destruct a; [by exists b|discriminate].
  - rewrite orb_true_iff, prefix_spec, IH. split.
    + intros [[b Hb]|(a & b & Hab)]; [by exists "", b|].
      exists (String c a), b. simpl. by rewrite Hab.
    + intros (a & b & Hab). destruct a as [|c' a]; [left; by exists b|].
      right. exists a, b. simpl in Hab. by injection Hab.
Qed.

Lemma smap_app f (a b : string) : smap f (a +:+ b) = smap f a +:+ smap f b.
Proof. induction a as [|c a IH]; simpl; [done|by rewrite IH]. Qed.

(** A text found in a string is found, lower-cased, in the lower-cased
    string. *)
Lemma contains_lower (n h : string) :
  contains n h = true -> contains (lower n) (lower h) = true.
Proof.
  rewrite !contains_spec. intros (a & b & ->).
  exists (lower a), (lower b). unfold lower. by rewrite !smap_app.
Qed.

End Strings.

(* ===================================================================== *)
(** * The header search *)
(* ===================================================================== *)

Section HeaderSearch.

Lemma first_row_from_find test i rows :
  UN.first_row_from test i rows
  = (fun p => i + p.1) <$> list_find (fun r => test r = true) rows.
Proof.
  revert i. induction rows as [|r rows IH]; intros i; simpl; [done|].
  destruct (test r) eqn:Ht.
  - rewrite decide_True by done. simpl. f_equal. lia.
  - rewrite decide_False by done. rewrite IH.
    destruct (list_find _ rows) as [[j x]|]; simpl; [f_equal; lia|done].
Qed.

Lemma first_row_from_Some test rows i :
  UN.first_row_from test 0 rows = Some i <->
  (exists row, rows !! i = Some row /\ test row = true)
  /\ (forall j row, rows !! j = Some row -> j < i -> test row = false).
Proof.
  rewrite first_row_from_find. split.
  - destruct (list_find _ rows) as [[i' r]|] eqn:Hf; [|done]. simpl.
    intros [= <-]. apply list_find_Some in Hf as (Hr & Ht & Hmin).
    split; [by exists r|]. intros j row Hj Hlt.
    specialize (Hmin j row Hj Hlt). by destruct (test row).
  - intros [(r & Hr & Ht) Hmin].
    assert (list_find (fun r => test r = true) rows = Some (i, r)) as ->; [|done].
    apply list_find_Some. split; [done|]. split; [done|].
    intros j row Hj Hlt. rewrite (Hmin j row Hj Hlt). done.
Qed.

Lemma first_row_from_None test rows :
  UN.first_row_from test 0 rows = None <->
  (forall j row, rows !! j = Some row -> test row = false).
Proof.
  rewrite first_row_from_find. split.
  - destruct (list_find _ rows) as [[i' r]|] eqn:Hf; [done|]. intros _.
    apply list_find_None in Hf. intros j row Hj.
    rewrite Forall_forall in Hf. specialize (Hf row).
    destruct (test row); [|done]. exfalso. apply Hf; [|done].
    apply list_elem_of_lookup. by exists j.
  - intros Hall.
    assert (list_find (fun r => test r = true) rows = None) as ->; [|done].
    apply list_find_None, Forall_forall. intros row Hin.
    apply list_elem_of_lookup in Hin as [j Hj].
    rewrite (Hall j row Hj). done.
Qed.

(** The test of [find_header_row] is one case-insensitive search. *)
Lemma has_iso3_lower row :
  UN.has_iso3 row = contains "iso3" (lower (UN.row_str row)).
Proof.
  unfold UN.has_iso3.
  destruct (contains "ISO3" (UN.row_str row)) eqn:Hc; [|done].
  apply contains_lower in Hc. simpl. symmetry. exact Hc.
Qed.

Lemma existsb_elem_of {A} (p : A -> bool) (l : list A) :
  existsb p l = true <-> exists x, x ∈ l /\ p x = true.
Proof.
  rewrite existsb_exists. split; intros (x & Hin & Hp); exists x;
    (split; [by apply list_elem_of_In|done]).
Qed.

End HeaderSearch.

Section HeaderClaims.

Lemma find_header_row_Some all_rows i :
  UN.find_header_row all_rows = Some i <->
  i < 25
  /\ (exists row, all_rows !! i = Some row
                  /\ contains "iso3" (lower (UN.row_str row)) = true)
  /\ (forall j row, all_rows !! j = Some row -> j < i ->
                    contains "iso3" (lower (UN.row_str row)) = false).
Proof.
  unfold UN.find_header_row. rewrite first_row_from_Some. split.
  - intros [(row & Hrow & Ht) Hmin].
    apply lookup_take_Some in Hrow as [Hrow Hlt].
    split; [done|]. split.
    + exists row. by rewrite <- has_iso3_lower.
    + intros j r Hj Hji. rewrite <- has_iso3_lower. apply (Hmin j); [|done].
      apply lookup_take_Some. split; [done|lia].
  - intros (Hlt & (row & Hrow & Ht) & Hmin). split.
    + exists row. rewrite has_iso3_lower. split; [|done].
      by apply lookup_take_Some.
    + intros j r Hj Hji. apply lookup_take_Some in Hj as [Hj _].
      rewrite has_iso3_lower. by apply (Hmin j).
Qed.

Lemma find_header_row_None all_rows :
  UN.find_header_row all_rows = None <->
  (forall j row, j < 25 -> all_rows !! j = Some row ->
                 contains "iso3" (lower (UN.row_str row)) = false).
Proof.
  unfold UN.find_header_row. rewrite first_row_from_None. split.
  - intros Hall j row Hlt Hj. rewrite <- has_iso3_lower. apply (Hall j).
    by apply lookup_take_Some.
  - intros Hall j row Hj. apply lookup_take_Some in Hj as [Hj Hlt].
    rewrite has_iso3_lower. by apply (Hall j).
Qed.

Lemma sipri_is_header_spec row :
  Sipri.is_header row = true <->
  exists v, v ∈ Sipri.vals row
            /\ (v = "Country" \/ Sipri.is_year_token v = true).
Proof.
  unfold Sipri.is_header. rewrite orb_true_iff, !existsb_elem_of. split.
  - intros [(v & Hin & Hv)|(v & Hin & Hv)]; exists v; (split; [done|]).
    + left. by apply bool_decide_eq_true in Hv.
    + by right.
  - intros (v & Hin & [->|Hv]); [left|right].
    + exists "Country". split; [done|]. by apply bool_decide_eq_true.
    + by exists v.
Qed.

(** C5, as the code has it.  [find_header_row] looks at the first 25 rows
    only and takes the first one whose non-empty cells, joined by spaces,
    contain ["iso3"] in any case; without such a row the file is skipped.
    The SIPRI sheets are wide: there every row of the sheet is examined, and a
    row is the header as soon as one of its non-empty cells is ["Country"] or
    is a 4-digit numeric token; without such a row the sheet is skipped. *)
Theorem header_search_rules :
  (forall all_rows i,
     UN.find_header_row all_rows = Some i <->
     i < 25
     /\ (exists row, all_rows !! i = Some row
                     /\ contains "iso3" (lower (UN.row_str row)) = true)
     /\ (forall j row, all_rows !! j = Some row -> j < i ->
                       contains "iso3" (lower (UN.row_str row)) = false))
  /\ (forall all_rows,
        UN.find_header_row all_rows = None <->
        (forall j row, j < 25 -> all_rows !! j = Some row ->
                       contains "iso3" (lower (UN.row_str row)) = false))
  /\ (forall all_rows column_map,
        UN.find_header_row all_rows = None ->
        UN.read_file all_rows column_map = Ok ∅)
  /\ (forall df i,
        Sipri.find_header df = Some i <->
        (exists row, df !! i = Some row /\ Sipri.is_header row = true)
        /\ (forall j row, df !! j = Some row -> j < i ->
                          Sipri.is_header row = false))
  /\ (forall row,
        Sipri.is_header row = true <->
        exists v, v ∈ Sipri.vals row
                  /\ (v = "Country" \/ Sipri.is_year_token v = true))
  /\ (forall db pd df field_name multiply_by,
        Sipri.find_header df = None ->
        Sipri.parse_sheet db pd df field_name multiply_by
        = Ok (Sipri.Parsed ∅ [])).
Proof.
  split; [exact find_header_row_Some|].
  split; [exact find_header_row_None|].
  split; [intros rows cm Hn; unfold UN.read_file; by rewrite Hn|].
  split; [intros df i; apply first_row_from_Some|].
  split; [exact sipri_is_header_spec|].
  intros db pd df f m Hn. unfold Sipri.parse_sheet. by rewrite Hn.
Qed.

(** A sheet whose header comes after 25 rows of notes: the SIPRI search
    finds it. *)
Lemma header_search_rules_witness :
  Sipri.find_header
    (replicate 25 [CStr "note"] ++ [[CStr "Country"; CInt 2023; CInt 2024]])
  = Some 25.
Proof.
  apply (proj1 (proj2 (proj2 (proj2 header_search_rules)))). split.
  - exists [CStr "Country"; CInt 2023; CInt 2024].
    split; vm_compute; reflexivity.
  - intros j row Hj Hlt.
    rewrite lookup_app_l in Hj by (rewrite length_replicate; lia).
    apply lookup_replicate in Hj as [-> _]. vm_compute. reflexivity.
Defined.

(** C5 as stated fails on the SIPRI sheets: a row with a single 4-digit
    token among three cells is taken as the header although no majority of
    its cells are year tokens, and a header below the 25th row is found
    although it lies beyond the bound. *)
Lemma header_search_differs_from_spec :
  Sipri.find_header [[CStr "Data"; CStr "for"; CStr "2024"]]
    <> spec_locate "Country" [[CStr "Data"; CStr "for"; CStr "2024"]]
  /\ Sipri.find_header
       (replicate 25 [CStr "note"] ++ [[CStr "Country"; CInt 2023; CInt 2024]])
     <> spec_locate "Country"
          (replicate 25 [CStr "note"]
           ++ [[CStr "Country"; CInt 2023; CInt 2024]]).
Proof. split; vm_compute; discriminate. Qed.

End HeaderClaims.

(* ===================================================================== *)
(** * Digits, year tokens and the parse of numbers *)
(* ===================================================================== *)

Section YearTokens.

#[local] Arguments is_digit : simpl never.
#[local] Arguments is_space : simpl never.

Lemma is_digit_facts c :
  is_digit c = true ->
  is_space c = false /\ is_cspace c = false
  /\ Ascii.eqb c "-" = false /\ Ascii.eqb c "+" = false.
Proof.
  destruct c as [[] [] [] [] [] [] [] []]; vm_compute; intros H;
    try discriminate H; repeat split; reflexivity.
Qed.

(** A digit starts no white space of several bytes, and continues no
    character. *)
Lemma is_digit_alone c c2 c3 :
  is_digit c = true ->
  is_space2 c c2 = false /\ is_space3 c c2 c3 = false
  /\ is_continuation c = false.
Proof.
  destruct c as [[] [] [] [] [] [] [] []]; intros H;
    try (vm_compute in H; discriminate H); repeat split; reflexivity.
Qed.

Lemma lstrip_by_digit sp c s :
  is_digit c = true -> sp c = false ->
  lstrip_by sp (String c s) = String c s.
Proof.
  intros Hc Hsp. cbn [lstrip_by]. rewrite Hsp.
  destruct s as [|c2 [|c3 s]].
  - done.
  - by rewrite (proj1 (is_digit_alone c c2 c2 Hc)).
  - rewrite (proj1 (is_digit_alone c c2 c3 Hc)).
    by rewrite (proj1 (proj2 (is_digit_alone c c2 c3 Hc))).
Qed.

(** A string of digits has no white space to strip, whichever the
    one-byte white space. *)
Lemma strip_by_digits sp s :
  (forall c, is_digit c = true -> sp c = false) ->
  forallb is_digit (list_ascii_of_string s) = true ->
  rstrip_by sp (lstrip_by sp s) = s.
Proof.
  intros Hsp Hd.
  assert (lstrip_by sp s = s) as ->.
  { destruct s as [|c s]; [done|]. simpl in Hd.
    apply andb_true_iff in Hd as [Hc _].
    apply lstrip_by_digit; [done|by apply Hsp]. }
  induction s as [|c s IH]; [done|]. simpl in Hd.
  apply andb_true_iff in Hd as [Hc Hs].
  cbn [rstrip_by]. rewrite lstrip_by_digit by (done || by apply Hsp).
  rewrite bool_decide_eq_false_2 by done. by rewrite (IH Hs).
Qed.

Lemma strip_digits s :
  forallb is_digit (list_ascii_of_string s) = true -> strip s = s.
Proof.
  apply strip_by_digits. intros c Hc. by destruct (is_digit_facts c Hc).
Qed.

Lemma strip_number_digits s :
  forallb is_digit (list_ascii_of_string s) = true -> strip_number s = s.
Proof.
  apply strip_by_digits. intros c Hc.
  by destruct (is_digit_facts c Hc) as (_ & ? & _).
Qed.

(** In a string of digits every byte is a character. *)
Lemma py_len_digits s :
  forallb is_digit (list_ascii_of_string s) = true ->
  py_len s = String.length s.
Proof.
  induction s as [|c s IH]; [done|]. simpl. intros [Hc Hs]%andb_true_iff.
  rewrite (proj2 (proj2 (is_digit_alone c c c Hc))), (IH Hs). done.
Qed.

Lemma digits_tail_all l :
  forallb is_digit l = true -> digits_tail l = (l, []).
Proof.
  induction l as [|c l IH]; simpl; [done|].
  intros [Hc Hl]%andb_true_iff. rewrite Hc, (IH Hl). done.
Qed.

(** [int] of a string of digits is the number they write. *)
Lemma int_of_str_digits s :
  isdigit s = true ->
  int_of_str s = Ok (digits_value (list_ascii_of_string s)).
Proof.
  intros Hd. unfold int_of_str.
  assert (forallb is_digit (list_ascii_of_string s) = true) as Hall
    by (by destruct s).
  rewrite (strip_number_digits s Hall).
  destruct s as [|c s]; [done|]. simpl in *.
  apply andb_true_iff in Hall as [Hc Hs].
  destruct (is_digit_facts c Hc) as (_ & _ & Hm & Hp).
  rewrite Hm, Hp. simpl. rewrite Hc, (digits_tail_all _ Hs). done.
Qed.

(** The sort key of a year column never fails. *)
Lemma year_key_ok yc :
  Sipri.is_year_col yc = true -> Sipri.year_key yc = Ok (year_of yc).
Proof.
  unfold Sipri.is_year_col, Sipri.is_year_token, year_of, Sipri.year_key.
  intros [Hd _]%andb_true_iff. by rewrite (int_of_str_digits _ Hd).
Qed.

(** [float] of a string fails with [ValueError] only. *)
Lemma float_of_str_raises s e : float_of_str s = Raise e -> e = ValueError.
Proof.
  unfold float_of_str. repeat case_match; congruence.
Qed.

(** [float] of an integer fails with [OverflowError] only. *)
Lemma float_of_Z_raises z e : float_of_Z z = Raise e -> e = OverflowError.
Proof. unfold float_of_Z. case_match; congruence. Qed.

Lemma float_of_cell_raises c e :
  float_of_cell c = Raise e ->
  e = ValueError \/ e = TypeError \/ e = OverflowError.
Proof.
  destruct c; simpl; try (intros [= <-]; right; by left); try done.
  - intros H%float_of_Z_raises. right. by right.
  - intros H%float_of_Z_raises. right. by right.
  - intros H%float_of_str_raises. by left.
Qed.

End YearTokens.

(* ===================================================================== *)
(** * The SIPRI value normalizer and latest-year selection *)
(* ===================================================================== *)

Section Selection.

Variable pd : Sipri.pandas.
Variable i : nat.
Variable multiply_by : Z.
Variables columns row : list cell.

Hypothesis multiply_by_in_range : in_range multiply_by.

Lemma fmul_Z_in_range x : fmul_Z x multiply_by = Ok (fmul x multiply_by).
Proof.
  unfold fmul_Z, float_of_Z. by rewrite multiply_by_in_range.
Qed.

(** No exception leaves the normalizer. *)
Lemma normalize_total c : exists r, Sipri.normalize multiply_by c = Ok r.
Proof.
  unfold Sipri.normalize. case_bool_decide; [by eexists|].
  destruct (float_of_str _) as [x|e] eqn:Hf;
    unfold mbind, outcome_bind, try_except.
  - rewrite fmul_Z_in_range. by eexists.
  - apply float_of_str_raises in Hf as ->. by eexists.
Qed.

Lemma normalize_unfold c :
  Sipri.normalize multiply_by c
  = if bool_decide (strip (py_str c) ∈ Sipri.placeholders) then Ok None
    else match float_of_str (remove_commas (strip (py_str c))) with
         | Ok x => Ok (Some (fmul x multiply_by))
         | Raise _ => Ok None
         end.
Proof.
  unfold Sipri.normalize. case_bool_decide; [done|].
  destruct (float_of_str _) as [x|e] eqn:Hf;
    unfold mbind, outcome_bind, try_except.
  - by rewrite fmul_Z_in_range.
  - by apply float_of_str_raises in Hf as ->.
Qed.

(** One turn of the loop: a cell with a value ends it with that value and
    the year of the column; any other cell is passed over. *)
Lemma latest_cons yc rest value year :
  Sipri.is_year_col yc = true ->
  Sipri.latest pd i multiply_by columns row (yc :: rest) value year
  = match Sipri.normalize multiply_by (year_cell pd i columns row yc) with
    | Ok (Some v) => Ok (Some v, Some (pretty (year_of yc)))
    | _ => Sipri.latest pd i multiply_by columns row rest value year
    end.
Proof.
  intros Hy. rewrite normalize_unfold. unfold year_cell.
  cbn [Sipri.latest]. case_bool_decide; [done|].
  destruct (float_of_str _) as [x|e] eqn:Hf; unfold mbind, outcome_bind.
  - by rewrite fmul_Z_in_range, (year_key_ok yc Hy).
  - by apply float_of_str_raises in Hf as ->.
Qed.

Lemma latest_first_valid ycs value year :
  Forall (fun yc => Sipri.is_year_col yc = true) ycs ->
  Sipri.latest pd i multiply_by columns row ycs value year
  = Ok match first_valid pd i multiply_by columns row ycs with
       | Some (v, yc) => (Some v, Some (pretty (year_of yc)))
       | None => (value, year)
       end.
Proof.
  induction 1 as [|yc ycs Hy Hall IH]; [done|].
  rewrite latest_cons by done. cbn [first_valid].
  destruct (Sipri.normalize multiply_by (year_cell pd i columns row yc))
    as [[v|]|e]; [done|exact IH|exact IH].
Qed.

(** [first_valid] returns the first column with a value: everything before
    it has none. *)
Lemma first_valid_Some ycs v yc :
  first_valid pd i multiply_by columns row ycs = Some (v, yc) <->
  exists before after,
    ycs = (before ++ yc :: after)%list
    /\ Sipri.normalize multiply_by (year_cell pd i columns row yc) = Ok (Some v)
    /\ Forall (fun y => Sipri.normalize multiply_by (year_cell pd i columns row y)
                        = Ok None) before.
Proof.
  revert v yc. induction ycs as [|y ycs IH]; intros v yc; simpl.
  - split; [done|]. intros (b & a & Hb & _). by destruct b.
  - destruct (normalize_total (year_cell pd i columns row y)) as [[w|] Hn];
      rewrite Hn.
    + split.
      * intros [= <- <-]. exists [], ycs. by repeat split.
      * intros (b & a & Hb & Hv & Hnone). destruct b as [|y' b].
        -- injection Hb as <- _. congruence.
        -- injection Hb as <- _. apply Forall_cons in Hnone as [Hy _].
           congruence.
    + rewrite IH. split.
      * intros (b & a & -> & Hv & Hnone). exists (y :: b), a.
        split; [done|]. split; [done|]. by constructor.
      * intros (b & a & Hb & Hv & Hnone). destruct b as [|y' b].
        -- injection Hb as <- _. congruence.
        -- injection Hb as <- ->. apply Forall_cons in Hnone as [_ Hnone].
           by exists b, a.
Qed.


End Selection.

(** ** [sorted(..., reverse=True)] *)

Section Sorting.

Lemma insert_desc_perm kx l : Sipri.insert_desc kx l ≡ₚ kx :: l.
Proof.
  induction l as [|ky l IH]; simpl; [done|].
  destruct (ky.1 <=? kx.1)%Z; [done|].
  rewrite IH. apply Permutation_swap.
Qed.

Lemma sort_desc_perm l : Sipri.sort_desc l ≡ₚ l.
Proof.
  induction l as [|kx l IH]; simpl; [done|].
  rewrite insert_desc_perm. by constructor.
Qed.

Lemma insert_desc_sorted kx l :
  StronglySorted desc l -> StronglySorted desc (Sipri.insert_desc kx l).
Proof.
  induction 1 as [|ky l Hs IH Hall]; simpl; [repeat constructor|].
  destruct (ky.1 <=? kx.1)%Z eqn:Hle.
  - apply Z.leb_le in Hle. constructor; [by constructor|].
    constructor; [done|].
    eapply Forall_impl; [exact Hall|]. unfold desc. simpl. intros q Hq. lia.
  - apply Z.leb_gt in Hle. constructor; [done|].
    rewrite insert_desc_perm. constructor; [unfold desc; lia|done].
Qed.

Lemma sort_desc_sorted l : StronglySorted desc (Sipri.sort_desc l).
Proof.
  induction l as [|kx l IH]; simpl; [constructor|].
  by apply insert_desc_sorted.
Qed.

Lemma zip_keys {A B} (f : A -> B) (l : list A) :
  zip (map f l) l = map (fun x => (f x, x)) l.
Proof. induction l as [|x l IH]; simpl; [done|by rewrite IH]. Qed.

Lemma mapM_year_key ycs :
  Forall (fun yc => Sipri.is_year_col yc = true) ycs ->
  mapM Sipri.year_key ycs = Ok (map year_of ycs).
Proof.
  induction 1 as [|yc ycs Hy Hall IH]; [done|].
  simpl. rewrite (year_key_ok yc Hy). simpl. rewrite IH. done.
Qed.

Lemma year_cols_Forall columns :
  Forall (fun yc => Sipri.is_year_col yc = true) (Sipri.year_cols columns).
Proof.
  unfold Sipri.year_cols. apply Forall_forall. intros yc Hin.
  apply list_elem_of_In, filter_In in Hin as [_ Hy]. exact Hy.
Qed.

(** The sorted year columns: never an exception, the same columns, in
    descending order of year. *)
Lemma year_cols_sorted_spec columns :
  exists sorted,
    Sipri.year_cols_sorted (Sipri.year_cols columns) = Ok sorted
    /\ sorted = map snd (Sipri.sort_desc
                  (map (fun yc => (year_of yc, yc)) (Sipri.year_cols columns)))
    /\ sorted ≡ₚ Sipri.year_cols columns
    /\ StronglySorted (fun a b => (year_of b <= year_of a)%Z) sorted.
Proof.
  eexists. split; [|split; [reflexivity|]].
  { unfold Sipri.year_cols_sorted.
    rewrite (mapM_year_key _ (year_cols_Forall columns)). simpl.
    by rewrite zip_keys. }
  set (kl := map (fun yc => (year_of yc, yc)) (Sipri.year_cols columns)).
  split.
  - rewrite (sort_desc_perm kl). unfold kl. rewrite map_map. simpl.
    by rewrite map_id.
  - assert (Forall (fun p => p.1 = year_of p.2) (Sipri.sort_desc kl)) as Hkeys.
    { rewrite (sort_desc_perm kl). unfold kl. apply Forall_forall.
      intros p Hin. apply list_elem_of_In, in_map_iff in Hin as (yc & <- & _).
      done. }
    pose proof (sort_desc_sorted kl) as Hs.
    induction Hs as [|p l Hs IH Hall]; simpl; [constructor|].
    apply Forall_cons in Hkeys as [Hp Hkeys].
    constructor; [by apply IH|].
    apply Forall_forall. intros b Hb.
    apply list_elem_of_In, in_map_iff in Hb as (q & <- & Hq).
    rewrite Forall_forall in Hall, Hkeys.
    apply list_elem_of_In in Hq.
    specialize (Hall q Hq). specialize (Hkeys q Hq). unfold desc in Hall.
    lia.
Qed.

End Sorting.

(* ===================================================================== *)
(** * The rows of [parse_sheet] *)
(* ===================================================================== *)

Section ParseRows.

Lemma country_to_iso3_chain db name :
  Sipri.country_to_iso3 db name = Ok (resolution_chain db (strip name)).
Proof.
  unfold Sipri.country_to_iso3, resolution_chain.
  destruct (Sipri.NAME_TO_ISO3 !! strip name); [done|].
  destruct db as [pc|]; [|done]. simpl.
  destruct (Sipri.countries_get pc (strip name)) as [[a|]|e]; simpl; try done.
  destruct (Sipri.search_fuzzy pc (strip name)) as [[|a l]|e]; done.
Qed.

(** An unresolved name is recorded and the row contributes nothing. *)
Lemma parse_row_unresolved db pd field_name multiply_by columns ccol ycs st
    i row :
  is_country_row (row_name pd i columns row ccol) = true ->
  resolution_chain db (strip (row_name pd i columns row ccol)) = None ->
  Sipri.parse_row db pd field_name multiply_by columns ccol ycs st i row
  = Ok (Sipri.Parsed (Sipri.result st)
          (Sipri.skipped st ++ [row_name pd i columns row ccol])).
Proof.
  unfold is_country_row, Sipri.parse_row, row_name.
  intros [Hn Hu]%andb_true_iff Hres.
  apply negb_true_iff in Hn, Hu. rewrite Hn, Hu, country_to_iso3_chain.
  unfold mbind, outcome_bind. by rewrite Hres.
Qed.



End ParseRows.

(* ===================================================================== *)
(** * The order of strings and the latest year of the IMF *)
(* ===================================================================== *)

Section StringOrder.

Lemma ltb_irrefl (s : string) : String.ltb s s = false.
Proof.
  unfold String.ltb.
  destruct (String.compare s s) eqn:Hc; try done.
  pose proof (String.compare_antisym s s) as Ha. rewrite Hc in Ha. done.
Qed.

Lemma ascii_compare_trans a b c :
  Ascii.compare a b = Lt -> Ascii.compare b c = Lt -> Ascii.compare a c = Lt.
Proof.
  unfold Ascii.compare. rewrite !N.compare_lt_iff. lia.
Qed.

Lemma compare_lt_trans a b c :
  String.compare a b = Lt -> String.compare b c = Lt -> String.compare a c = Lt.
Proof.
  revert b c. induction a as [|ca a IH]; intros [|cb b] [|cc c]; simpl;
    try done.
  destruct (Ascii.compare ca cb) eqn:Hab; [|intros _|done].
  - apply Ascii.compare_eq_iff in Hab as ->.
    destruct (Ascii.compare cb cc) eqn:Hbc; [|done|done].
    apply IH.
  - destruct (Ascii.compare cb cc) eqn:Hbc; [|intros _|done].
    + apply Ascii.compare_eq_iff in Hbc as <-. by rewrite Hab.
    + by rewrite (ascii_compare_trans ca cb cc).
Qed.

(** The order of Python on strings is transitive. *)
Lemma ltb_trans a b c :
  String.ltb a b = true -> String.ltb b c = true -> String.ltb a c = true.
Proof.
  unfold String.ltb. intros Hab Hbc.
  rewrite (compare_lt_trans a b c); [done| |].
  - by destruct (String.compare a b).
  - by destruct (String.compare b c).
Qed.


End StringOrder.

Section ImfLatest.






End ImfLatest.

(* ===================================================================== *)
(** * The latest year: what the selectors of the code do *)
(* ===================================================================== *)

Section SelectionCutoff.

Variable pd : Sipri.pandas.
Variable i : nat.
Variable multiply_by : Z.
Variables columns row : list cell.

Hypothesis multiply_by_in_range : in_range multiply_by.




End SelectionCutoff.

Section SelectionClaims.




(** A year that labels two columns: under it the row holds a Series, whose
    text is no number, and the selection goes on to the next year. *)
Example repeated_year_label :
  let pd := Sipri.Pandas (fun _ _ _ _ => "2021 9 2021 8 dtype: object") in
  sipri_select pd 0 1 [CStr "2020"; CStr "2021"; CStr "2021"]
                      [CInt 7; CInt 9; CInt 8]
  = Ok (Some (FNum 7), Some "2020").
Proof. vm_compute. reflexivity. Qed.

End SelectionClaims.

(* ===================================================================== *)
(** * The value normalizer *)
(* ===================================================================== *)

Section Normalizer.

(** What a row of [extract_latest] with a code does: the value cell is
    tested for emptiness and against [blanks], then handed to [float] as it
    is. *)
Lemma extract_row_value iso_col year_col value_col result row s :
  row !! iso_col = Some (CStr s) ->
  py_len (upper (strip s)) = 3 ->
  Owid.extract_row iso_col year_col value_col result row
  = if negb (truthy (Owid.row_get row (Some value_col)))
       || bool_decide (strip (py_str (Owid.row_get row (Some value_col)))
                       ∈ Owid.blanks)
    then Ok result
    else match float_of_cell (Owid.row_get row (Some value_col)) with
         | Ok v =>
             Ok (offered result (upper (strip s)) v
                   (strip (py_str (Owid.row_get row year_col))))
         | Raise e =>
             if bool_decide (e ∈ [ValueError; TypeError]) then Ok result
             else Raise e
         end.
Proof.
  intros Hs Hlen. unfold Owid.extract_row.
  change (Owid.row_get row (Some iso_col)) with (default (CStr "") (row !! iso_col)).
  rewrite Hs. simpl Owid.cell_strip. unfold mbind, outcome_bind at 1.
  rewrite Hlen. simpl negb. rewrite orb_false_r.
  rewrite bool_decide_eq_false_2.
  2:{ intros Hempty. by rewrite Hempty in Hlen. }
  destruct (negb _ || _); [done|].
  unfold Owid.value_and_year, mbind, outcome_bind.
  destruct (float_of_cell _) as [v|e]; [|done].
  unfold offered. simpl.
  destruct (result !! upper (strip s)) as [[w best]|]; [|done].
  by destruct (String.ltb _ _).
Qed.

(** With text in both cells no exception leaves a row of
    [extract_latest]. *)
Lemma extract_row_total iso_col year_col value_col result row s t :
  row !! iso_col = Some (CStr s) ->
  row !! value_col = Some (CStr t) ->
  exists r, Owid.extract_row iso_col year_col value_col result row = Ok r.
Proof.
  intros Hs Ht. unfold Owid.extract_row.
  change (Owid.row_get row (Some iso_col)) with (default (CStr "") (row !! iso_col)).
  change (Owid.row_get row (Some value_col))
    with (default (CStr "") (row !! value_col)).
  rewrite Hs, Ht. simpl Owid.cell_strip. unfold mbind, outcome_bind at 1.
  destruct (_ || _); [by eexists|].
  simpl default.
  destruct (_ || _); [by eexists|].
  unfold Owid.value_and_year, mbind, outcome_bind.
  destruct (float_of_cell (CStr t)) as [v|e] eqn:Hf.
  - simpl. destruct (result !! upper (strip s)) as [[w best]|]; [|by eexists].
    destruct (String.ltb _ _); by eexists.
  - simpl in Hf. apply float_of_str_raises in Hf as ->.
    rewrite bool_decide_eq_true_2 by left. by eexists.
Qed.

(** C8, as the code has it.  In [parse_sheet] the normalizer is one turn of
    the year loop.  With a multiplier that [float] converts, as the two of
    [SHEETS] are, no exception leaves it; [None], a missing cell and NaN
    give no value; the placeholders are five strings compared with the
    stripped text as it is, case included; any other text is parsed once
    its commas are removed and multiplied, and a text that does not parse
    gives no value.  In [extract_latest] the blank values are the empty
    cell and three strings; any other value cell goes to [float] as it is,
    commas included, and a value that does not parse leaves the result as
    it was. *)
Theorem normalize_rules :
  (forall multiply_by : Z,
     in_range multiply_by ->
     (forall c, exists r, Sipri.normalize multiply_by c = Ok r)
     /\ Sipri.normalize multiply_by CNone = Ok None
     /\ Sipri.normalize multiply_by (CStr "") = Ok None
     /\ Sipri.normalize multiply_by CNaN = Ok None
     /\ (forall c, strip (py_str c) ∈ ["xxx"; "..."; ""; "nan"; "NaN"] ->
                   Sipri.normalize multiply_by c = Ok None)
     /\ (forall c, strip (py_str c) ∉ ["xxx"; "..."; ""; "nan"; "NaN"] ->
           Sipri.normalize multiply_by c
           = match float_of_str (remove_commas (strip (py_str c))) with
             | Ok x => Ok (Some (fmul x multiply_by))
             | Raise _ => Ok None
             end)
     /\ (forall pd i columns row yc rest value year,
           Sipri.is_year_col yc = true ->
           Sipri.latest pd i multiply_by columns row (yc :: rest) value year
           = match Sipri.normalize multiply_by
                     (year_cell pd i columns row yc) with
             | Ok (Some v) => Ok (Some v, Some (pretty (year_of yc)))
             | _ => Sipri.latest pd i multiply_by columns row rest value year
             end))
  /\ (forall name field_name multiply_by,
        (name, (field_name, multiply_by)) ∈ Sipri.SHEETS ->
        in_range multiply_by)
  /\ (forall iso_col year_col value_col result row s,
        row !! iso_col = Some (CStr s) ->
        py_len (upper (strip s)) = 3 ->
        Owid.extract_row iso_col year_col value_col result row
        = if negb (truthy (Owid.row_get row (Some value_col)))
             || bool_decide
                  (strip (py_str (Owid.row_get row (Some value_col)))
                   ∈ [""; "nan"; "None"])
          then Ok result
          else match float_of_cell (Owid.row_get row (Some value_col)) with
               | Ok v =>
                   Ok (offered result (upper (strip s)) v
                         (strip (py_str (Owid.row_get row year_col))))
               | Raise e =>
                   if bool_decide (e ∈ [ValueError; TypeError]) then Ok result
                   else Raise e
               end)
  /\ (forall iso_col year_col value_col result row s t,
        row !! iso_col = Some (CStr s) ->
        row !! value_col = Some (CStr t) ->
        exists r,
          Owid.extract_row iso_col year_col value_col result row = Ok r)
  /\ Sipri.normalize 1 (CStr "1,234.5") = Ok (Some (FNum (2469 # 2)))
  /\ Sipri.normalize 1 (CStr "xxx") = Ok None
  /\ Sipri.normalize 1 CNone = Ok None
  /\ Owid.extract_latest
       [ {[ "Code" := CStr "FRA"; "Year" := CStr "2020";
            "Value" := CStr "1234.5" ]};
         {[ "Code" := CStr "DEU"; "Year" := CStr "2020";
            "Value" := CStr "xxx" ]};
         {[ "Code" := CStr "ESP"; "Year" := CStr "2020";
            "Value" := CStr "1,234.5" ]};
         {[ "Code" := CStr "ITA"; "Year" := CStr "2020" ]} ]
       "Code" (Some "Year") "Value"
     = Ok {[ "FRA" := (FNum (2469 # 2), "2020") ]}.
Proof.
  split.
  { intros m Hm. split; [by apply normalize_total|].
    split; [rewrite normalize_unfold by done; vm_compute; reflexivity|].
    split; [rewrite normalize_unfold by done; vm_compute; reflexivity|].
    split; [rewrite normalize_unfold by done; vm_compute; reflexivity|].
    split.
    { intros c Hin. rewrite normalize_unfold by done.
      by rewrite bool_decide_eq_true_2. }
    split.
    { intros c Hin. rewrite normalize_unfold by done.
      by rewrite bool_decide_eq_false_2. }
    intros. by apply latest_cons. }
  split.
  { intros name field_name m Hin. unfold Sipri.SHEETS in Hin.
    repeat (apply elem_of_cons in Hin as [[= _ _ ->]|Hin];
            [vm_compute; reflexivity|]).
    by apply elem_of_nil in Hin. }
  split; [exact extract_row_value|].
  split; [exact extract_row_total|].
  vm_compute. repeat split; reflexivity.
Qed.

Lemma normalize_rules_witness :
  Sipri.normalize 100 (CStr " ... ") = Ok None.
Proof.
  assert (in_range 100) as Hm by (vm_compute; reflexivity).
  apply (proj1 (proj2 (proj2 (proj2 (proj2
           (proj1 normalize_rules 100%Z Hm)))))).
  vm_compute. right. left.
Defined.

(** C8 as stated fails.  The placeholders of [parse_sheet] are compared
    case and all: ["NAN"], which the specified test takes for a placeholder,
    is parsed and gives NaN, and ["inf"] gives an infinity, so what is
    returned is not always a finite number.  [extract_latest] removes no
    thousands separator: a value of ["1,234.5"] does not parse and the row
    gives nothing. *)
Lemma normalize_not_as_specified :
  spec_placeholder "NAN" = true
  /\ Sipri.normalize 1 (CStr "NAN") = Ok (Some FNan)
  /\ Sipri.normalize 1 (CStr "inf") = Ok (Some (FInf false))
  /\ Owid.extract_latest [csv_row_with_comma] "Code" (Some "Year") "Value"
     = Ok ∅.
Proof. vm_compute. repeat split; reflexivity. Qed.

End Normalizer.

(* ===================================================================== *)
(** * The entity resolver *)
(* ===================================================================== *)

Section ReadRowCodes.

(** What a row does is decided by the row alone, but for the comparison
    with the best year the state has for its code. *)
Lemma read_row_shape iso3_c year_c fcols row :
  (exists e, forall st, UN.read_row iso3_c year_c fcols st row = Raise e)
  \/ ((forall st, UN.read_row iso3_c year_c fcols st row = Ok st)
      /\ forall k, ~ dated_code iso3_c year_c row k)
  \/ exists k0 y year,
       (forall k, dated_code iso3_c year_c row k <-> k = k0)
       /\ forall st,
            UN.read_row iso3_c year_c fcols st row
            = if match UN.best_year st !! k0 with
                 | Some best => (y <? best)%Z
                 | None => false
                 end
              then Ok st
              else
                fields ← foldM (UN.write_field row year)
                            (default ∅ (UN.result st !! k0)) fcols;
                mret (UN.Extraction (<[k0 := fields]> (UN.result st))
                                    (<[k0 := y]> (UN.best_year st))).
Proof.
  unfold UN.read_row, dated_code.
  destruct (row !! iso3_c) as [c|] eqn:Hc.
  2:{ right. left. split; [done|]. intros k (c & y & s & Hc' & _). done. }
  destruct (truthy c) eqn:Ht; simpl.
  2:{ right. left. split; [done|].
      intros k (c' & y & s & [= <-] & Ht' & _). congruence. }
  destruct (py_len (strip (py_str c)) =? 3)%nat eqn:Hlen; simpl.
  2:{ right. left. split; [done|].
      intros k (c' & y & s & [= <-] & _ & Hl & _).
      apply Nat.eqb_neq in Hlen. done. }
  apply Nat.eqb_eq in Hlen.
  destruct (UN.row_year year_c row) as [[y year]|e] eqn:Hy; simpl.
  - destruct (2025 <? y)%Z eqn:Hcut.
    + right. left. split; [done|].
      intros k (c' & y' & s & _ & _ & _ & _ & [= <- <-] & Hle).
      apply Z.ltb_lt in Hcut. lia.
    + right. right. exists (upper (strip (py_str c))), y, year.
      split; [|done]. intros k. split.
      * by intros (c' & y' & s & [= <-] & _ & _ & -> & _).
      * intros ->. exists c, y, year. apply Z.ltb_ge in Hcut. done.
  - left. by exists e.
Qed.

Variables (iso3_c : nat) (year_c : option nat) (fcols : list (string * nat)).

Lemma read_row_codes seen st row st' :
  codes_kept iso3_c year_c seen st ->
  UN.read_row iso3_c year_c fcols st row = Ok st' ->
  codes_kept iso3_c year_c (seen ++ [row])%list st'.
Proof.
  intros [Hkeys Hbest] Hstep.
  assert (forall k,
            (exists r, r ∈ (seen ++ [row])%list /\ dated_code iso3_c year_c r k)
            <-> (exists r, r ∈ seen /\ dated_code iso3_c year_c r k)
                \/ dated_code iso3_c year_c row k) as Hsplit.
  { intros k. split.
    - intros (r & [Hr|Hr]%elem_of_app & Hd); [left; by exists r|].
      apply list_elem_of_singleton in Hr as ->. by right.
    - intros [(r & Hr & Hd)|Hd].
      + exists r. split; [apply elem_of_app; by left|done].
      + exists row. split; [apply elem_of_app; right; left|done]. }
  destruct (read_row_shape iso3_c year_c fcols row)
    as [[e Hr]|[[Hr Hno]|(k0 & y & year & Hk0 & Hr)]].
  - by rewrite Hr in Hstep.
  - rewrite Hr in Hstep. injection Hstep as <-. split; [|done].
    intros k. rewrite Hsplit, Hkeys. split; [by left|].
    intros [H|H]; [done|]. by apply Hno in H.
  - rewrite Hr in Hstep.
    destruct (UN.best_year st !! k0) as [best|] eqn:Hb.
    + destruct (y <? best)%Z.
      * injection Hstep as <-. split; [|done].
        intros k. rewrite Hsplit, Hkeys. split; [by left|].
        intros [H|H]; [done|]. apply Hk0 in H as ->.
        apply Hkeys, Hbest. by rewrite Hb.
      * destruct (foldM _ _ fcols) as [fs|e]; simpl in Hstep; [|done].
        injection Hstep as <-. split; simpl.
        -- intros k. rewrite Hsplit, Hk0.
           destruct (decide (k = k0)) as [->|Hne].
           ++ rewrite lookup_insert_eq. split; [by right|done].
           ++ rewrite lookup_insert_ne by done. rewrite Hkeys.
              split; [by left|]. by intros [H|H].
        -- intros k. destruct (decide (k = k0)) as [->|Hne].
           ++ by rewrite !lookup_insert_eq.
           ++ rewrite !lookup_insert_ne by done. apply Hbest.
    + destruct (foldM _ _ fcols) as [fs|e]; simpl in Hstep; [|done].
      injection Hstep as <-. split; simpl.
      * intros k. rewrite Hsplit, Hk0.
        destruct (decide (k = k0)) as [->|Hne].
        -- rewrite lookup_insert_eq. split; [by right|done].
        -- rewrite lookup_insert_ne by done. rewrite Hkeys.
           split; [by left|]. by intros [H|H].
      * intros k. destruct (decide (k = k0)) as [->|Hne].
        -- by rewrite !lookup_insert_eq.
        -- rewrite !lookup_insert_ne by done. apply Hbest.
Qed.

Lemma read_rows_codes rows : forall seen st st',
  codes_kept iso3_c year_c seen st ->
  foldM (UN.read_row iso3_c year_c fcols) st rows = Ok st' ->
  codes_kept iso3_c year_c (seen ++ rows)%list st'.
Proof.
  induction rows as [|row rows IH]; intros seen st st' Hst Hf; simpl in Hf.
  - injection Hf as <-. by rewrite app_nil_r.
  - destruct (UN.read_row iso3_c year_c fcols st row) as [st1|e] eqn:Hs;
      [|done].
    replace (seen ++ row :: rows)%list with ((seen ++ [row]) ++ rows)%list
      by by rewrite <- app_assoc.
    apply (IH _ st1); [|done]. by apply (read_row_codes seen st).
Qed.

End ReadRowCodes.

Section Resolver.

(** The keys of the result of [read_file] are the codes of the rows below
    the header that carry one with a year not after 2025: the text of the
    code cell is taken as it is, and nothing is looked up. *)
Lemma read_file_codes all_rows column_map r k :
  UN.read_file all_rows column_map = Ok r ->
  is_Some (r !! k) <->
  exists h iso3_c row,
    UN.find_header_row all_rows = Some h
    /\ UN.iso3_col (UN.map_columns (default [] (all_rows !! h)) column_map)
       = Some iso3_c
    /\ row ∈ drop (S h) all_rows
    /\ dated_code iso3_c
         (UN.year_col (UN.map_columns (default [] (all_rows !! h)) column_map))
         row k.
Proof.
  unfold UN.read_file.
  destruct (UN.find_header_row all_rows) as [h|] eqn:Hh.
  2:{ intros [= <-]. rewrite lookup_empty. split; [by intros [? ?]|].
      intros (h & c & row & Hh' & _). done. }
  set (cm := UN.map_columns _ column_map).
  destruct (UN.iso3_col cm) as [iso3_c|] eqn:Hic.
  2:{ intros [= <-]. rewrite lookup_empty. split; [by intros [? ?]|].
      intros (h' & c & row & [= <-] & Hc & _). fold cm in Hc. congruence. }
  destruct (UN.read_rows iso3_c (UN.year_col cm) (UN.field_cols cm) _)
    as [st|e] eqn:Hrows; simpl; [|done].
  intros [= <-].
  destruct (read_rows_codes iso3_c (UN.year_col cm) (UN.field_cols cm)
              (drop (S h) all_rows) [] (UN.Extraction ∅ ∅) st)
    as [Hkeys _]; [|exact Hrows|].
  { split; simpl.
    - intros k'. rewrite lookup_empty. split; [by intros [? ?]|].
      intros (row & Hrow & _). by apply elem_of_nil in Hrow.
    - intros k'. rewrite lookup_empty. by intros [? ?]. }
  simpl in Hkeys. rewrite Hkeys. split.
  - intros (row & Hrow & Hd). by exists h, iso3_c, row.
  - intros (h' & c & row & [= <-] & Hc & Hrow & Hd). fold cm in Hc, Hd.
    assert (c = iso3_c) as -> by congruence. by exists row.
Qed.

(** C7, as the code has it.  [country_to_iso3] strips the name and goes
    through one chain: the override table by exact match, then the reference
    database by exact name, then its fuzzy search, else unresolved; it never
    raises, whatever the database does, and a row whose name stays
    unresolved is recorded in [skipped] and left out of the result.  It has
    no direct acceptance of 3-letter tokens.  The source keyed by code,
    [read_file], looks nothing up: the keys of its result are exactly the
    stripped, upper-cased texts of the 3-character code cells of the rows
    whose year is not after 2025. *)
Theorem country_to_iso3_rules :
  (forall db name,
     Sipri.country_to_iso3 db name = Ok (resolution_chain db (strip name)))
  /\ (forall db name code,
        Sipri.NAME_TO_ISO3 !! strip name = Some code ->
        Sipri.country_to_iso3 db name = Ok (Some code))
  /\ (forall db, Sipri.country_to_iso3 db "Czechia" = Ok (Some "CZE"))
  /\ Sipri.country_to_iso3 None "Nonexistent Country" = Ok None
  /\ Sipri.country_to_iso3 (Some empty_db) "Nonexistent Country" = Ok None
  /\ (forall db pd field_name multiply_by columns ccol ycs st i row,
        is_country_row (row_name pd i columns row ccol) = true ->
        resolution_chain db (strip (row_name pd i columns row ccol)) = None ->
        Sipri.parse_row db pd field_name multiply_by columns ccol ycs st i row
        = Ok (Sipri.Parsed (Sipri.result st)
                (Sipri.skipped st ++ [row_name pd i columns row ccol])))
  /\ (forall all_rows column_map r k,
        UN.read_file all_rows column_map = Ok r ->
        is_Some (r !! k) <->
        exists h iso3_c row,
          UN.find_header_row all_rows = Some h
          /\ UN.iso3_col
               (UN.map_columns (default [] (all_rows !! h)) column_map)
             = Some iso3_c
          /\ row ∈ drop (S h) all_rows
          /\ dated_code iso3_c
               (UN.year_col
                  (UN.map_columns (default [] (all_rows !! h)) column_map))
               row k).
Proof.
  split; [exact country_to_iso3_chain|].
  split.
  { intros db name code Hc. rewrite country_to_iso3_chain.
    unfold resolution_chain. by rewrite Hc. }
  split; [intros db; rewrite country_to_iso3_chain; vm_compute; reflexivity|].
  split; [vm_compute; reflexivity|].
  split; [vm_compute; reflexivity|].
  split; [exact parse_row_unresolved|exact read_file_codes].
Qed.

Lemma country_to_iso3_rules_witness :
  Sipri.country_to_iso3 (Some empty_db) "  Viet Nam " = Ok (Some "VNM").
Proof.
  apply (proj1 (proj2 country_to_iso3_rules)). vm_compute. reflexivity.
Defined.

(** C7 as stated fails on [country_to_iso3]: ["USA"] is not accepted
    directly; it is looked up, and without the reference library, or with a
    database that has no match, it stays unresolved. *)
Lemma country_to_iso3_no_direct_code :
  Sipri.country_to_iso3 None "USA" = Ok None
  /\ Sipri.country_to_iso3 (Some empty_db) "USA" = Ok None.
Proof. vm_compute. split; reflexivity. Qed.

(** In a sheet the unresolved names are listed in [skipped]; in a workbook
    of [read_file] the code cell is taken as it is, upper-cased, unless the
    row is dated after 2025. *)
Example resolver_in_context :
  (match Sipri.parse_sheet None plain_frames
           [ [CStr "Country"; CInt 2023];
             [CStr "Czechia"; CInt 5];
             [CStr "Nonexistent Country"; CInt 6] ] "milexCurrentUSD" 1 with
   | Ok p => Some (map_to_list <$> Sipri.result p !! "CZE", Sipri.skipped p)
   | Raise _ => None
   end)
  = Some (Some [ ("milexCurrentUSD_year", JStr "2023");
                 ("milexCurrentUSD", JFloat (FNum 5)) ],
          ["Nonexistent Country"])
  /\ (match UN.read_file
             [ [CStr "Location"; CStr "ISO3 Alpha-code"; CStr "Year";
                CStr "Dependency ratio"];
               [CStr "United States"; CStr " usa "; CInt 2020; CInt 1];
               [CStr "Utopia"; CStr "UTO"; CInt 2026; CInt 1] ]
             UN.columns_population with
      | Ok r => Some (dom r)
      | Raise _ => None
      end)
     = Some {[ "USA" ]}.
Proof. vm_compute. split; reflexivity. Qed.

End Resolver.

(* ===================================================================== *)
(** * A value and its year are written together *)
(* ===================================================================== *)

Section Companions.

Lemma length_append (a s : string) :
  String.length (a +:+ s) = String.length a + String.length s.
Proof. induction a as [|c a IH]; simpl; [done|by rewrite IH]. Qed.

Lemma append_cancel_r (a b s : string) : a +:+ s = b +:+ s -> a = b.
Proof.
  revert b. induction a as [|c a IH]; intros [|c' b] H.
  - done.
  - exfalso. apply (f_equal String.length) in H.
    rewrite !length_append in H. simpl in H. lia.
  - exfalso. apply (f_equal String.length) in H.
    rewrite !length_append in H. simpl in H. lia.
  - change (String c (a +:+ s) = String c' (b +:+ s)) in H.
    injection H as -> H. by rewrite (IH b H).
Qed.

Lemma year_key_of_inj f g : year_key_of f = year_key_of g -> f = g.
Proof. apply append_cancel_r. Qed.

Lemma written_as_empty {V} : written_as (V := V) [] ∅.
Proof.
  intros k. rewrite lookup_empty. split.
  - by intros [? ?].
  - intros [Hk|(f & Hf & _)]; by apply elem_of_nil in Hk || apply elem_of_nil in Hf.
Qed.

(** Writing a field together with its companion. *)
Lemma written_as_insert {V} S (fields : gmap string V) f v y :
  written_as S fields ->
  written_as (f :: S) (<[year_key_of f := y]> (<[f := v]> fields)).
Proof.
  intros Hw k. specialize (Hw k). split.
  - intros Hk. destruct (decide (k = year_key_of f)) as [->|Hny].
    { right. exists f. split; [left|done]. }
    rewrite lookup_insert_ne in Hk by done.
    destruct (decide (k = f)) as [->|Hnf]; [left; left|].
    rewrite lookup_insert_ne in Hk by done.
    apply Hw in Hk as [Hk|(g & Hg & ->)]; [left; by right|].
    right. exists g. split; [by right|done].
  - intros [Hk|(g & Hg & ->)].
    + apply elem_of_cons in Hk as [->|Hk].
      * destruct (decide (f = year_key_of f)) as [He|Hne].
        -- rewrite <- He at 1. by rewrite lookup_insert_eq.
        -- rewrite lookup_insert_ne by done. by rewrite lookup_insert_eq.
      * destruct (decide (year_key_of f = k)) as [<-|Hny];
          [by rewrite lookup_insert_eq|].
        rewrite lookup_insert_ne by done.
        destruct (decide (f = k)) as [<-|Hnf]; [by rewrite lookup_insert_eq|].
        rewrite lookup_insert_ne by done. apply Hw. by left.
    + apply elem_of_cons in Hg as [->|Hg]; [by rewrite lookup_insert_eq|].
      destruct (decide (year_key_of f = year_key_of g)) as [<-|Hny];
        [by rewrite lookup_insert_eq|].
      rewrite lookup_insert_ne by done.
      destruct (decide (f = year_key_of g)) as [<-|Hnf];
        [by rewrite lookup_insert_eq|].
      rewrite lookup_insert_ne by done. apply Hw. right. by exists g.
Qed.

(** With a configuration free of companion names, writing in pairs makes
    every field go with its companion. *)
Lemma written_as_paired {V} names S (fields : gmap string V) :
  companion_free names -> S ⊆ names -> written_as S fields ->
  paired names fields.
Proof.
  intros Hfree Hsub Hw f Hf. unfold written_as in Hw.
  rewrite (Hw f), (Hw (year_key_of f)). split.
  - intros [Hin|(g & Hg & ->)].
    + right. by exists f.
    + exfalso. by apply (Hfree g (year_key_of g)); [apply Hsub| |].
  - intros [Hin|(g & Hg & Heq)].
    + exfalso. by apply (Hfree f (year_key_of f)); [|apply Hsub|].
    + apply year_key_of_inj in Heq as ->. by left.
Qed.

(** *** [read_file] *)

Lemma write_field_written S W row year fields fc fields' :
  fc.1 ∈ W -> S ⊆ W -> written_as S fields ->
  UN.write_field row year fields fc = Ok fields' ->
  exists S', S' ⊆ W /\ written_as S' fields'.
Proof.
  destruct fc as [f i]. simpl. intros Hf Hsub Hw. unfold UN.write_field.
  destruct (row !! i) as [c|]; [|intros [= <-]; by exists S].
  destruct (is_none c); [intros [= <-]; by exists S|].
  destruct (float_of_cell c) as [v|e] eqn:Hfl; simpl.
  - intros [= <-]. exists (f :: S). split.
    + intros x [->|Hx]%elem_of_cons; [done|by apply Hsub].
    + by apply (written_as_insert S fields f).
  - destruct (float_of_cell_raises c e Hfl) as [->|[->| ->]]; simpl;
      [intros [= <-]; by exists S..|done].
Qed.

Lemma write_fields_written S row year fcols fields fields' :
  S ⊆ fcols.*1 -> written_as S fields ->
  foldM (UN.write_field row year) fields fcols = Ok fields' ->
  exists S', S' ⊆ fcols.*1 /\ written_as S' fields'.
Proof.
  assert (forall l W S fields,
            l.*1 ⊆ W -> S ⊆ W -> written_as S fields ->
            foldM (UN.write_field row year) fields l = Ok fields' ->
            exists S', S' ⊆ W /\ written_as S' fields') as Hgen.
  { induction l as [|fc l IH]; intros W S0 fs Hl Hsub Hw; simpl.
    - intros [= <-]. by exists S0.
    - destruct (UN.write_field row year fs fc) as [fs1|e] eqn:Hstep; [|done].
      intros Hrest.
      destruct (write_field_written S0 W row year fs fc fs1) as (S1 & Hs1 & Hw1);
        [apply Hl; left|done|done|done|].
      apply (IH W S1 fs1); [|done|done|done].
      intros x Hx. apply Hl. by right. }
  intros Hsub Hw. by apply (Hgen fcols (fcols.*1) S fields).
Qed.

Lemma read_row_records iso3_c year_c fcols st row st' :
  records_from fcols.*1 (UN.result st) ->
  UN.read_row iso3_c year_c fcols st row = Ok st' ->
  records_from fcols.*1 (UN.result st').
Proof.
  intros Hrec. unfold UN.read_row.
  destruct (row !! iso3_c) as [c|]; [|by intros [= <-]].
  destruct (negb (truthy c) || _); [by intros [= <-]|].
  destruct (UN.row_year year_c row) as [[yr_int year]|e]; simpl; [|done].
  destruct (2025 <? yr_int)%Z; [by intros [= <-]|].
  destruct (match UN.best_year st !! _ with Some _ => _ | None => _ end);
    [by intros [= <-]|].
  destruct (foldM _ _ fcols) as [fields|e] eqn:Hfold; simpl; [|done].
  intros [= <-]. simpl. intros k fs Hk.
  destruct (decide (upper (strip (py_str c)) = k)) as [<-|Hne].
  - rewrite lookup_insert_eq in Hk. injection Hk as <-.
    destruct (UN.result st !! upper (strip (py_str c))) as [fs0|] eqn:H0;
      simpl in Hfold.
    + destruct (Hrec _ _ H0) as (S0 & Hs0 & Hw0).
      by apply (write_fields_written S0 row year fcols fs0).
    + apply (write_fields_written [] row year fcols ∅); [|apply written_as_empty|done].
      intros x Hx. by apply elem_of_nil in Hx.
  - rewrite lookup_insert_ne in Hk by done. by apply (Hrec k).
Qed.

Lemma read_rows_records iso3_c year_c fcols rows st :
  UN.read_rows iso3_c year_c fcols rows = Ok st ->
  records_from fcols.*1 (UN.result st).
Proof.
  unfold UN.read_rows.
  assert (records_from fcols.*1 (UN.result (UN.Extraction ∅ ∅))) as H0
    by (intros k fs Hk; simpl in Hk; by rewrite lookup_empty in Hk).
  revert H0. generalize (UN.Extraction ∅ ∅) as st0.
  induction rows as [|row rows IH]; intros st0 H0; simpl.
  - by intros [= <-].
  - destruct (UN.read_row iso3_c year_c fcols st0 row) as [st1|e] eqn:Hstep;
      [|done].
    apply IH. by apply (read_row_records iso3_c year_c fcols st0 row).
Qed.

(** The fields [map_columns] assigns are fields of the configuration. *)
Lemma claim_names names i s cm spec :
  spec.2 ∈ names -> (UN.field_cols cm).*1 ⊆ names ->
  (UN.field_cols (UN.claim i s cm spec)).*1 ⊆ names.
Proof.
  destruct spec as [k f]. simpl. intros Hf Hsub. unfold UN.claim.
  repeat case_match; simpl; try done.
  rewrite fmap_app. simpl. intros x [Hx|Hx]%elem_of_app; [by apply Hsub|].
  by apply list_elem_of_singleton in Hx as ->.
Qed.

Lemma map_columns_names header column_map :
  (UN.field_cols (UN.map_columns header column_map)).*1 ⊆ column_map.*2.
Proof.
  unfold UN.map_columns.
  assert ((UN.field_cols (UN.ColMap None None [])).*1 ⊆ column_map.*2) as H0
    by (intros x Hx; by apply elem_of_nil in Hx).
  revert H0. generalize (UN.ColMap None None []) as cm. generalize 0 as i.
  induction header as [|c header IH]; intros i cm H0; [done|].
  simpl. apply IH. unfold UN.map_cell. destruct (is_none c); [done|].
  assert (forall specs, specs.*2 ⊆ column_map.*2 ->
            forall cm0, (UN.field_cols cm0).*1 ⊆ column_map.*2 ->
            (UN.field_cols (fold_left (UN.claim i (strip (py_str c))) specs cm0)).*1
              ⊆ column_map.*2) as Hspecs.
  { induction specs as [|spec specs IHs]; intros Hs cm0 Hcm0; [done|].
    simpl. apply IHs; [intros x Hx; apply Hs; by right|].
    apply claim_names; [apply Hs; left|done]. }
  by apply Hspecs.
Qed.

End Companions.

Section CompanionClaims.

Lemma companion_freeb_sound names :
  companion_freeb names = true -> companion_free names.
Proof.
  unfold companion_freeb. rewrite forallb_forall. intros Hall f g Hf Hg.
  apply list_elem_of_In in Hf, Hg. specialize (Hall f Hf).
  rewrite forallb_forall in Hall. specialize (Hall g Hg).
  apply negb_true_iff, bool_decide_eq_false in Hall. exact Hall.
Qed.

Lemma records_from_mono {V} W N (d : gmap string (gmap string V)) :
  W ⊆ N -> records_from W d -> records_from N d.
Proof.
  intros Hsub Hrec k fs Hk. destruct (Hrec k fs Hk) as (S & HS & Hw).
  exists S. split; [|done]. intros x Hx. by apply Hsub, HS.
Qed.

Lemma read_file_records all_rows column_map r :
  UN.read_file all_rows column_map = Ok r ->
  records_from column_map.*2 r.
Proof.
  unfold UN.read_file.
  assert (records_from column_map.*2 (∅ : gmap string (gmap string obsval)))
    as Hempty by (intros k fs Hk; by rewrite lookup_empty in Hk).
  destruct (UN.find_header_row all_rows) as [header_idx|];
    [|by intros [= <-]].
  set (cm := UN.map_columns _ column_map).
  destruct (UN.iso3_col cm) as [iso3_c|]; [|by intros [= <-]].
  destruct (UN.read_rows iso3_c (UN.year_col cm) (UN.field_cols cm) _)
    as [st|e] eqn:Hrows; simpl; [|done].
  intros [= <-]. apply read_rows_records in Hrows.
  eapply records_from_mono; [|exact Hrows]. apply map_columns_names.
Qed.

(** *** [parse_sheet] *)

Lemma parse_row_keys db pd field_name multiply_by columns ccol ycs st i row
    st' :
  (forall iso3 fields, Sipri.result st !! iso3 = Some fields ->
     forall k, is_Some (fields !! k)
               <-> k = field_name \/ k = year_key_of field_name) ->
  Sipri.parse_row db pd field_name multiply_by columns ccol ycs st i row
  = Ok st' ->
  forall iso3 fields, Sipri.result st' !! iso3 = Some fields ->
    forall k, is_Some (fields !! k)
              <-> k = field_name \/ k = year_key_of field_name.
Proof.
  intros Hinv. unfold Sipri.parse_row.
  destruct (_ || _); [by intros [= <-]|].
  destruct (_ && _); [by intros [= <-]|].
  rewrite country_to_iso3_chain. unfold mbind, outcome_bind.
  destruct (resolution_chain db _) as [code|]; simpl; [|by intros [= <-]].
  destruct code as [|c0 code]; [by intros [= <-]|].
  destruct (Sipri.latest pd i multiply_by columns row ycs None None)
    as [[value year]|e]; simpl; [|done].
  destruct value as [v|]; [|by intros [= <-]].
  intros [= <-]. simpl. intros iso3 fields Hk k.
  destruct (decide (String c0 code = iso3)) as [<-|Hne].
  2:{ rewrite lookup_insert_ne in Hk by done. by apply (Hinv iso3). }
  rewrite lookup_insert_eq in Hk. injection Hk as <-.
  unfold year_key_of.
  destruct (decide (field_name +:+ "_year" = k)) as [<-|Hny].
  { rewrite lookup_insert_eq. split; [by right|done]. }
  rewrite lookup_insert_ne by done.
  destruct (decide (field_name = k)) as [<-|Hnf].
  { rewrite lookup_insert_eq. split; [by left|done]. }
  rewrite lookup_insert_ne by done.
  destruct (Sipri.result st !! String c0 code) as [fs0|] eqn:H0; simpl.
  - rewrite (Hinv _ _ H0 k). unfold year_key_of. split; [|done].
    intros [->| ->]; done.
  - rewrite lookup_empty. split; [by intros [? ?]|].
    intros [->| ->]; done.
Qed.

Lemma parse_sheet_keys db pd df field_name multiply_by p :
  Sipri.parse_sheet db pd df field_name multiply_by = Ok p ->
  forall iso3 fields, Sipri.result p !! iso3 = Some fields ->
    forall k, is_Some (fields !! k)
              <-> k = field_name \/ k = year_key_of field_name.
Proof.
  unfold Sipri.parse_sheet.
  assert (forall iso3 fields,
            Sipri.result (Sipri.Parsed ∅ []) !! iso3 = Some fields ->
            forall k, is_Some (fields !! k)
                      <-> k = field_name \/ k = year_key_of field_name) as H0
    by (intros k fs Hk; simpl in Hk; by rewrite lookup_empty in Hk).
  destruct (Sipri.find_header df) as [header_row|]; [|by intros [= <-]].
  destruct (Sipri.country_col _) as [ccol|e]; simpl; [|done].
  destruct (Sipri.year_cols _) as [|yc ycs]; [by intros [= <-]|].
  destruct (Sipri.year_cols_sorted _) as [sorted|e]; simpl; [|done].
  destruct (Sipri.years_available sorted) as [[]|e]; simpl; [|done].
  revert H0. generalize (Sipri.Parsed ∅ []) as st. generalize 0 as i.
  generalize (drop (S header_row) df) as data.
  induction data as [|row data IH]; intros i st H0; simpl.
  - by intros [= <-].
  - destruct (Sipri.parse_row _ _ _ _ _ _ _ st i row) as [st1|e] eqn:Hstep;
      [|done].
    apply IH. by eapply parse_row_keys.
Qed.

(** *** The indicator loop of [fetch_worldbank.py] *)

Lemma store_entry_records names f d item :
  f ∈ names -> records_from names d ->
  records_from names (WorldBank.store_entry f d item).
Proof.
  destruct item as [code e]. intros Hf Hrec k fs. unfold WorldBank.store_entry.
  destruct (decide (code = k)) as [<-|Hne].
  2:{ rewrite lookup_insert_ne by done. apply Hrec. }
  rewrite lookup_insert_eq. intros [= <-].
  destruct (d !! code) as [fs0|] eqn:H0; simpl.
  - destruct (Hrec _ _ H0) as (S & HS & Hw). exists (f :: S). split.
    + intros x [->|Hx]%elem_of_cons; [done|by apply HS].
    + by apply (written_as_insert S fs0 f).
  - exists [f]. split.
    + by intros x ->%list_elem_of_singleton.
    + apply (written_as_insert [] ∅ f), written_as_empty.
Qed.

Lemma collect_records fetched :
  records_from fetched.*1 (WorldBank.collect fetched).
Proof.
  unfold WorldBank.collect.
  assert (forall l names d,
            l.*1 ⊆ names -> records_from names d ->
            records_from names (fold_left WorldBank.store_indicator l d))
    as Hgen.
  { induction l as [|[f results] l IH]; intros names d Hl Hrec; [done|].
    simpl. apply IH; [intros x Hx; apply Hl; by right|].
    unfold WorldBank.store_indicator. simpl.
    assert (f ∈ names) as Hf by (apply Hl; left).
    clear -Hf Hrec. revert d Hrec.
    induction results as [|item results IHr]; intros d Hrec; [done|].
    simpl. apply IHr. by apply store_entry_records. }
  apply Hgen; [done|]. intros k fs Hk. by rewrite lookup_empty in Hk.
Qed.

(** C10.  In every source map produced by extraction a field is present
    exactly when its companion key is: [read_file] and the indicator loop of
    [fetch_worldbank.py] write the two keys in the same step for each
    configured field (no configured field name being itself a companion
    key), and [parse_sheet] gives every entity exactly the field of the sheet
    and its companion. *)
Theorem value_and_year_written_together :
  (forall all_rows column_map r,
     companion_free column_map.*2 ->
     UN.read_file all_rows column_map = Ok r ->
     forall iso3 fields, r !! iso3 = Some fields ->
       paired column_map.*2 fields)
  /\ (forall db pd df field_name multiply_by p,
        Sipri.parse_sheet db pd df field_name multiply_by = Ok p ->
        forall iso3 fields, Sipri.result p !! iso3 = Some fields ->
          forall k, is_Some (fields !! k)
                    <-> k = field_name \/ k = year_key_of field_name)
  /\ (forall fetched,
        companion_free fetched.*1 ->
        forall code fields, WorldBank.collect fetched !! code = Some fields ->
          paired fetched.*1 fields)
  /\ Forall (fun column_map => companion_free column_map.*2) UN.FILES.
Proof.
  split.
  { intros rows cm r Hfree Hread iso3 fields Hk.
    destruct (read_file_records rows cm r Hread iso3 fields Hk)
      as (S & HS & Hw).
    by apply (written_as_paired _ S). }
  split; [exact parse_sheet_keys|]. split.
  { intros fetched Hfree code fields Hk.
    destruct (collect_records fetched code fields Hk) as (S & HS & Hw).
    by apply (written_as_paired _ S). }
  repeat constructor; apply companion_freeb_sound; vm_compute; reflexivity.
Qed.

Lemma value_and_year_written_together_witness :
  paired UN.columns_population.*2
    ({[ "dependencyRatio" := OFloat (FNum 50);
        "dependencyRatio_year" := OStr "2020" ]} : gmap string obsval).
Proof.
  assert (companion_free UN.columns_population.*2) as Hfree.
  { apply companion_freeb_sound. vm_compute. reflexivity. }
  apply (proj1 value_and_year_written_together
           [ [CStr "Location"; CStr "ISO3 Alpha-code"; CStr "Year";
              CStr "Dependency ratio"];
             [CStr "France"; CStr "FRA"; CInt 2020; CInt 50] ]
           UN.columns_population
           {[ "FRA" := {[ "dependencyRatio" := OFloat (FNum 50);
                          "dependencyRatio_year" := OStr "2020" ]} ]}
           Hfree) with (iso3 := "FRA").
  - vm_compute. reflexivity.
  - vm_compute. reflexivity.
Defined.

End CompanionClaims.

(* ===================================================================== *)
(** * Rows with a year column: ties *)
(* ===================================================================== *)

Section Ties.

(** [extract_latest] keeps the entry it has when a row brings the same
    year: only a strictly greater year replaces it. *)
Lemma extract_row_tie iso_col year_col value_col result row iso3 val year v0 :
  Owid.cell_strip (Owid.row_get row (Some iso_col)) = Ok iso3 ->
  result !! upper iso3 = Some (v0, year) ->
  Owid.value_and_year row year_col (Owid.row_get row (Some value_col))
    = Ok (val, year) ->
  Owid.extract_row iso_col year_col value_col result row = Ok result.
Proof.
  intros Hiso Hres Hval. unfold Owid.extract_row. rewrite Hiso.
  unfold mbind, outcome_bind.
  destruct (_ || _); [done|]. destruct (_ || _); [done|].
  rewrite Hval, Hres, ltb_irrefl. done.
Qed.

(** C4 at two rows of the same entity and year.  [read_file] does not skip
    the second row (its guard is [yr_int < best_year[iso3]]) and the value
    of the second row replaces the one of the first; [extract_latest], on
    the same observations, keeps the first. *)
Theorem read_file_tie_takes_last_row :
  (r ← UN.read_file tie_rows UN.columns_population;
   mret (field r "FRA" "dependencyRatio",
         field r "FRA" "dependencyRatio_year"))
    = Ok (Some (OFloat (FNum 2)), Some (OStr "2020"))
  /\ (r ← Owid.extract_latest tie_csv_rows "Code" (Some "Year") "Value";
      mret (r !! "FRA"))
     = Ok (Some (FNum 1, "2020")).
Proof. vm_compute. split; reflexivity. Qed.

End Ties.

(* ===================================================================== *)
(** * Saving the store *)
(* ===================================================================== *)

Section Saving.

Lemma prefix_of_length n text :
  n < String.length text -> String.length (Persist.prefix_of n text) = n.
Proof.
  revert text. induction n as [|n IH]; intros [|c text] Hn; simpl in *;
    try lia; try done.
  rewrite IH; lia.
Qed.

Lemma prefix_of_prefix n text :
  exists rest, text = Persist.prefix_of n text +:+ rest.
Proof.
  revert text. induction n as [|n IH]; intros text.
  - exists text. by destruct text.
  - destruct text as [|c text]; [by exists ""|].
    destruct (IH text) as [rest Hrest]. exists rest.
    change (String c text = String c (Persist.prefix_of n text +:+ rest)).
    by rewrite <- Hrest.
Qed.

Lemma prefix_of_strict n text :
  n < String.length text -> Persist.prefix_of n text <> text.
Proof.
  intros Hn Heq. pose proof (prefix_of_length n text Hn) as Hl.
  rewrite Heq in Hl. lia.
Qed.

(** The four outcomes of a save. *)
Lemma save_cases text old :
  Persist.save text Persist.OpenFails old = (old, Raise OSError)
  /\ Persist.save text Persist.NoFault old = (Some text, Ok ())
  /\ (forall n, n < String.length text ->
        Persist.save text (Persist.WriteFails n) old
        = (Some (Persist.prefix_of n text), Raise OSError))
  /\ (forall n, String.length text <= n ->
        Persist.save text (Persist.WriteFails n) old = (Some text, Ok ())).
Proof.
  unfold Persist.save. split; [done|]. split; [done|]. split.
  - intros n Hn. apply Nat.ltb_lt in Hn. by rewrite Hn.
  - intros n Hn. apply Nat.ltb_ge in Hn. by rewrite Hn.
Qed.

(** How a run of [fet_UN_data.py] ends, and with what file. *)
Lemma un_main_cases w old f r :
  UN.main w old = (f, r) ->
  (old = None /\ f = None /\ r = Persist.Exited 1)
  \/ (exists text e,
        old = Some text /\ UN.gather w text = Raise e
        /\ f = old /\ r = Persist.Raised e)
  \/ (exists text st,
        old = Some text /\ UN.gather w text = Ok st
        /\ UN.storage w = Persist.OpenFails
        /\ f = old /\ r = Persist.Raised OSError)
  \/ (exists text st n,
        old = Some text /\ UN.gather w text = Ok st
        /\ UN.storage w = Persist.WriteFails n
        /\ n < String.length (UN.json_dump w st.1)
        /\ f = Some (Persist.prefix_of n (UN.json_dump w st.1))
        /\ r = Persist.Raised OSError)
  \/ (exists text st,
        old = Some text /\ UN.gather w text = Ok st
        /\ f = Some (UN.json_dump w st.1) /\ r = Persist.Finished).
Proof.
  unfold UN.main. destruct old as [text|]; [|intros [= <- <-]; by left].
  destruct (UN.gather w text) as [st|e] eqn:Hg.
  2:{ intros [= <- <-]. right. left. by exists text, e. }
  unfold Persist.save.
  destruct (UN.storage w) as [| |n] eqn:Hs.
  - intros [= <- <-]. do 4 right. by exists text, st.
  - intros [= <- <-]. do 2 right. left. by exists text, st.
  - destruct (n <? String.length (UN.json_dump w st.1))%nat eqn:Hn.
    + intros [= <- <-]. do 3 right. left. apply Nat.ltb_lt in Hn.
      by exists text, st, n.
    + intros [= <- <-]. do 4 right. by exists text, st.
Qed.

(** How a run of [fetch_sipri.py] ends, and with what file. *)
Lemma sipri_main_cases w old f r :
  Sipri.main w old = (f, r) ->
  (exists e, Sipri.gather w old = Raise e /\ f = old /\ r = Persist.Raised e)
  \/ (Sipri.gather w old = Ok None /\ f = old /\ r = Persist.Finished)
  \/ (exists data,
        Sipri.gather w old = Ok (Some data)
        /\ Sipri.storage w = Persist.OpenFails
        /\ f = old /\ r = Persist.Raised OSError)
  \/ (exists data n,
        Sipri.gather w old = Ok (Some data)
        /\ Sipri.storage w = Persist.WriteFails n
        /\ n < String.length (Sipri.json_dump w data)
        /\ f = Some (Persist.prefix_of n (Sipri.json_dump w data))
        /\ r = Persist.Raised OSError)
  \/ (exists data,
        Sipri.gather w old = Ok (Some data)
        /\ f = Some (Sipri.json_dump w data)
        /\ r = Persist.run_of (Sipri.summary data)).
Proof.
  unfold Sipri.main.
  destruct (Sipri.gather w old) as [[data|]|e] eqn:Hg.
  3:{ intros [= <- <-]. left. by exists e. }
  2:{ intros [= <- <-]. right. by left. }
  unfold Persist.save.
  destruct (Sipri.storage w) as [| |n] eqn:Hs.
  - intros [= <- <-]. do 4 right. by exists data.
  - intros [= <- <-]. do 2 right. left. by exists data.
  - destruct (n <? String.length (Sipri.json_dump w data))%nat eqn:Hn.
    + intros [= <- <-]. do 3 right. left. apply Nat.ltb_lt in Hn.
      by exists data, n.
    + intros [= <- <-]. do 4 right. by exists data.
Qed.

(** C9, as the code has it, for [fet_UN_data.py] and [fetch_sipri.py].  The
    store is saved in place, by the last statement of [main] that touches
    the file: a run that ends before it, by [sys.exit] or by an exception of
    the loading or of the extraction, leaves the file as it was.  Nothing
    catches a failure of the save: when the file cannot be opened it is
    left as it was; when the writing fails the file holds the first bytes
    of the text, as many as had reached it; otherwise it holds the whole
    text.  In [fetch_sipri.py] the summary that follows the save can still
    end the run with an exception, as it does when a sample value is a
    text; before the save, a year cell reading [inf] ends [read_file] with
    an exception. *)
Theorem save_outcomes :
  (forall text old,
     Persist.save text Persist.OpenFails old = (old, Raise OSError)
     /\ Persist.save text Persist.NoFault old = (Some text, Ok ())
     /\ (forall n, n < String.length text ->
           Persist.save text (Persist.WriteFails n) old
           = (Some (Persist.prefix_of n text), Raise OSError))
     /\ (forall n, String.length text <= n ->
           Persist.save text (Persist.WriteFails n) old
           = (Some text, Ok ())))
  /\ (forall n text,
        n < String.length text ->
        String.length (Persist.prefix_of n text) = n
        /\ Persist.prefix_of n text <> text
        /\ exists rest, text = Persist.prefix_of n text +:+ rest)
  /\ (forall w old f r,
        UN.main w old = (f, r) ->
        (old = None /\ f = None /\ r = Persist.Exited 1)
        \/ (exists text e,
              old = Some text /\ UN.gather w text = Raise e
              /\ f = old /\ r = Persist.Raised e)
        \/ (exists text st,
              old = Some text /\ UN.gather w text = Ok st
              /\ UN.storage w = Persist.OpenFails
              /\ f = old /\ r = Persist.Raised OSError)
        \/ (exists text st n,
              old = Some text /\ UN.gather w text = Ok st
              /\ UN.storage w = Persist.WriteFails n
              /\ n < String.length (UN.json_dump w st.1)
              /\ f = Some (Persist.prefix_of n (UN.json_dump w st.1))
              /\ r = Persist.Raised OSError)
        \/ (exists text st,
              old = Some text /\ UN.gather w text = Ok st
              /\ f = Some (UN.json_dump w st.1) /\ r = Persist.Finished))
  /\ (forall w old f r,
        Sipri.main w old = (f, r) ->
        (exists e,
           Sipri.gather w old = Raise e /\ f = old /\ r = Persist.Raised e)
        \/ (Sipri.gather w old = Ok None /\ f = old /\ r = Persist.Finished)
        \/ (exists data,
              Sipri.gather w old = Ok (Some data)
              /\ Sipri.storage w = Persist.OpenFails
              /\ f = old /\ r = Persist.Raised OSError)
        \/ (exists data n,
              Sipri.gather w old = Ok (Some data)
              /\ Sipri.storage w = Persist.WriteFails n
              /\ n < String.length (Sipri.json_dump w data)
              /\ f = Some (Persist.prefix_of n (Sipri.json_dump w data))
              /\ r = Persist.Raised OSError)
        \/ (exists data,
              Sipri.gather w old = Ok (Some data)
              /\ f = Some (Sipri.json_dump w data)
              /\ r = Persist.run_of (Sipri.summary data)))
  /\ UN.read_file rows_year_inf UN.columns_population = Raise OverflowError
  /\ Sipri.summary store_usa = Raise ValueError.
Proof.
  split; [exact save_cases|].
  split.
  { intros n text Hn. split; [by apply prefix_of_length|].
    split; [by apply prefix_of_strict|apply prefix_of_prefix]. }
  split; [exact un_main_cases|]. split; [exact sipri_main_cases|].
  vm_compute. split; reflexivity.
Qed.

Lemma save_outcomes_witness :
  Persist.save text_usa (Persist.WriteFails 3) (Some text_usa)
  = (Some (Persist.prefix_of 3 text_usa), Raise OSError).
Proof.
  apply (proj1 (proj2 (proj2 (proj1 save_outcomes text_usa (Some text_usa))))).
  vm_compute. lia.
Defined.

(** C9 as stated fails.  A run of [fet_UN_data.py] that finds no workbook
    and whose save fails after three bytes ends with the exception and
    leaves those three bytes, which are neither the store that was there nor
    the one to be written; the same holds of [fetch_sipri.py].  A failure to
    persist is not the only fatal condition: a missing store ends the run of
    [fet_UN_data.py] by [sys.exit(1)], a year cell reading [inf] ends it with
    an exception that nothing catches, and [fetch_sipri.py], once the store
    is saved in full, ends with an exception when a sample value is a
    text. *)
Lemma save_is_not_atomic :
  UN.main (un_world_no_workbook (Persist.WriteFails 3)) (Some text_usa)
  = (Some (Persist.prefix_of 3 text_usa), Persist.Raised OSError)
  /\ Persist.prefix_of 3 text_usa <> text_usa
  /\ UN.main (un_world_no_workbook Persist.NoFault) (Some text_usa)
     = (Some text_usa, Persist.Finished)
  /\ Sipri.main (sipri_world_no_sheet (Persist.WriteFails 3)) (Some text_usa)
     = (Some (Persist.prefix_of 3 text_usa), Persist.Raised OSError)
  /\ UN.main (un_world_no_workbook Persist.NoFault) None
     = (None, Persist.Exited 1)
  /\ UN.main un_world_year_inf (Some text_usa)
     = (Some text_usa, Persist.Raised OverflowError)
  /\ Sipri.main (sipri_world_no_sheet Persist.NoFault) (Some text_usa)
     = (Some text_usa, Persist.Raised ValueError).
Proof. vm_compute. repeat split; try reflexivity; discriminate. Qed.

End Saving.

(* ===================================================================== *)
(** * The merges, field by field *)
(* ===================================================================== *)

Section FoldItems.

Context {D A B : Type}.
Variable step : D -> string * A -> D.
Variable get : D -> string -> B.

(** A loop over items with distinct keys, each step touching only what
    [get] reads under the key of its item: what is read under a key after the
    loop is what the step of that key makes of it. *)
Lemma fold_items_other (l : list (string * A)) d k :
  (forall d' k' a, (k', a) ∈ l -> k' <> k -> get (step d' (k', a)) k = get d' k) ->
  k ∉ l.*1 -> get (fold_left step l d) k = get d k.
Proof.
  revert d. induction l as [|[k1 a1] l IH]; intros d Hother Hk; [done|].
  simpl. rewrite IH.
  - apply Hother; [left|]. intros ->. apply Hk. left.
  - intros d' k' a Hin. apply Hother. by right.
  - intros Hin. apply Hk. by right.
Qed.

Lemma fold_items_same (l : list (string * A)) d k a :
  (forall d' k' a', (k', a') ∈ l -> k' <> k ->
                    get (step d' (k', a')) k = get d' k) ->
  NoDup l.*1 -> (k, a) ∈ l ->
  exists d', get d' k = get d k
             /\ get (fold_left step l d) k = get (step d' (k, a)) k.
Proof.
  revert d. induction l as [|[k1 a1] l IH]; intros d Hother Hnd Hin.
  - by apply elem_of_nil in Hin.
  - apply NoDup_cons in Hnd as [Hk1 Hnd]. simpl.
    apply elem_of_cons in Hin as [[= <- <-]|Hin].
    + exists d. split; [done|]. apply fold_items_other; [|done].
      intros d' k' a' Hin'. apply Hother. by right.
    + assert (k1 <> k) as Hne.
      { intros ->. apply Hk1. apply list_elem_of_fmap. by exists (k, a). }
      destruct (IH (step d (k1, a1))) as (d' & Hd' & Hfold); [|done|done|].
      { intros d0 k' a' Hin'. apply Hother. by right. }
      exists d'. split; [|done]. rewrite Hd'. apply Hother; [left|done].
Qed.

End FoldItems.

Section UNMergePointwise.

Lemma items_fst {V} (m : gmap string (gmap string V)) :
  (map (fun kv : string * gmap string V => (kv.1, map_to_list kv.2))
       (map_to_list m)).*1 = (map_to_list m).*1.
Proof.
  induction (map_to_list m) as [|[k v] l IH]; [done|].
  simpl. f_equal. exact IH.
Qed.

Lemma items_NoDup (m : gmap string (gmap string obsval)) :
  NoDup (UN.items m).*1.
Proof. unfold UN.items. rewrite items_fst. apply NoDup_fst_map_to_list. Qed.

Lemma elem_of_items (m : gmap string (gmap string obsval)) E fs :
  (E, fs) ∈ UN.items m <-> exists mE, m !! E = Some mE /\ fs = map_to_list mE.
Proof.
  unfold UN.items. rewrite list_elem_of_fmap. split.
  - intros ([k mE] & [= -> ->] & Hin). exists mE. split; [|done].
    by apply elem_of_map_to_list.
  - intros (mE & HmE & ->). exists (E, mE). split; [done|].
    by apply elem_of_map_to_list.
Qed.

Lemma not_elem_of_items (m : gmap string (gmap string obsval)) E :
  m !! E = None -> E ∉ (UN.items m).*1.
Proof.
  intros Hn Hin. unfold UN.items in Hin. rewrite items_fst in Hin.
  apply list_elem_of_fmap in Hin as ([k v] & -> & Hin).
  apply elem_of_map_to_list in Hin. simpl in Hn. congruence.
Qed.

Lemma merge_field_field iso3 st f x E F :
  field (UN.merge_field iso3 st (f, x)).1 E F
  = if decide (E = iso3 /\ F = f) then fill (field st.1 iso3 f) x
    else field st.1 E F.
Proof.
  destruct st as [d n]. simpl. rewrite dict_get_field. unfold fill.
  destruct (field d iso3 f) as [v|] eqn:Hf; simpl.
  - destruct (is_null v) eqn:Hv; simpl.
    + rewrite field_insert_record.
      destruct (decide (iso3 = E)) as [<-|Hne].
      * destruct (decide (F = f)) as [->|HF].
        -- rewrite decide_True by done. by rewrite lookup_insert_eq.
        -- rewrite decide_False by (intros [_ ?]; done).
           rewrite lookup_insert_ne by done. apply field_default.
      * rewrite decide_False by (intros [? _]; done). done.
    + case_decide as H; [|done]. destruct H as [-> ->]. done.
  - rewrite field_insert_record.
    destruct (decide (iso3 = E)) as [<-|Hne].
    + destruct (decide (F = f)) as [->|HF].
      * rewrite decide_True by done. by rewrite lookup_insert_eq.
      * rewrite decide_False by (intros [_ ?]; done).
        rewrite lookup_insert_ne by done. apply field_default.
    + rewrite decide_False by (intros [? _]; done). done.
Qed.

Lemma merge_fields_other_entity iso3 fields st E F :
  E <> iso3 ->
  field (fold_left (UN.merge_field iso3) fields st).1 E F = field st.1 E F.
Proof.
  intros Hne. revert st. induction fields as [|[f x] fields IH]; intros st;
    [done|].
  simpl. rewrite IH, merge_field_field.
  by rewrite decide_False by (intros [? _]; done).
Qed.

Lemma merge_fields_field_in iso3 fields st F x :
  NoDup fields.*1 -> (F, x) ∈ fields ->
  field (fold_left (UN.merge_field iso3) fields st).1 iso3 F
  = fill (field st.1 iso3 F) x.
Proof.
  intros Hnd Hin.
  destruct (fold_items_same (UN.merge_field iso3)
              (fun st f => field st.1 iso3 f) fields st F x)
    as (st' & Hst' & Hfold); [|done|done|].
  { intros d' k' a' _ Hne. rewrite merge_field_field.
    by rewrite decide_False by (intros [_ ?]; done). }
  simpl in *. rewrite Hfold, merge_field_field, decide_True by done.
  by rewrite Hst'.
Qed.

Lemma merge_fields_field_out iso3 fields st F :
  F ∉ fields.*1 ->
  field (fold_left (UN.merge_field iso3) fields st).1 iso3 F
  = field st.1 iso3 F.
Proof.
  intros Hout.
  apply (fold_items_other (UN.merge_field iso3)
           (fun st f => field st.1 iso3 f)); [|done].
  intros d' k' a' _ Hne. rewrite merge_field_field.
  by rewrite decide_False by (intros [_ ?]; done).
Qed.

Lemma merge_entity_other st iso3 fields E F :
  E <> iso3 -> field (UN.merge_entity st (iso3, fields)).1 E F = field st.1 E F.
Proof.
  intros Hne. unfold UN.merge_entity.
  rewrite merge_fields_other_entity by done. simpl.
  apply ensure_entity_field.
Qed.

(** X1.  The merge loop of [main] in [fet_UN_data.py], field by field: where
    the new data has a value, the store takes it if its own is missing or
    [null] and keeps its own otherwise; every other field of every entity is
    as it was. *)
Theorem un_merge_field :
  forall (un_data : gmap string (gmap string json))
         (new_data : gmap string (gmap string obsval)) (E F : string),
    field (UN.merge un_data new_data).1 E F
    = match field new_data E F with
      | Some x => fill (field un_data E F) x
      | None => field un_data E F
      end.
Proof.
  intros d m E F. unfold UN.merge, UN.merge_items.
  destruct (m !! E) as [mE|] eqn:HmE.
  - destruct (fold_items_same UN.merge_entity
                (fun st E => field st.1 E F) (UN.items m) (d, 0) E
                (map_to_list mE)) as (st' & Hst' & Hfold).
    + intros st0 k' fs _ Hne. simpl. apply merge_entity_other.
      by intros ->.
    + apply items_NoDup.
    + apply elem_of_items. by exists mE.
    + simpl in *. rewrite Hfold. unfold field at 2. rewrite HmE. simpl.
      unfold UN.merge_entity.
      destruct (mE !! F) as [x|] eqn:HF.
      * rewrite (merge_fields_field_in E (map_to_list mE) _ F x).
        -- simpl. by rewrite ensure_entity_field, Hst'.
        -- apply NoDup_fst_map_to_list.
        -- by apply elem_of_map_to_list.
      * rewrite merge_fields_field_out.
        -- simpl. by rewrite ensure_entity_field, Hst'.
        -- intros Hin. apply list_elem_of_fmap in Hin as ([k v] & -> & Hin).
           apply elem_of_map_to_list in Hin. simpl in HF. congruence.
  - unfold field at 2. rewrite HmE. simpl.
    apply (fold_items_other UN.merge_entity (fun st E => field st.1 E F)).
    + intros st0 k' fs _ Hne. simpl. apply merge_entity_other.
      by intros ->.
    + by apply not_elem_of_items.
Qed.

End UNMergePointwise.

Section UNMergeCount.

Lemma merge_field_count iso3 st f x :
  (UN.merge_field iso3 st (f, x)).2
  = st.2 + (if absentb st.1 iso3 f then 1 else 0).
Proof.
  destruct st as [d n]. simpl. rewrite dict_get_field. unfold absentb.
  destruct (is_null _); simpl; lia.
Qed.

Lemma merge_fields_count iso3 fields st :
  NoDup fields.*1 ->
  (fold_left (UN.merge_field iso3) fields st).2
  = st.2 + length (List.filter (fun fx => absentb st.1 iso3 fx.1) fields).
Proof.
  revert st. induction fields as [|[f x] fields IH]; intros st Hnd.
  - simpl. lia.
  - apply NoDup_cons in Hnd as [Hf Hnd].
    cbn [fold_left]. rewrite (IH _ Hnd), merge_field_count.
    assert (List.filter
              (fun fx => absentb (UN.merge_field iso3 st (f, x)).1 iso3 fx.1)
              fields
            = List.filter (fun fx => absentb st.1 iso3 fx.1) fields) as ->.
    { apply filter_ext_in. intros [f' x'] Hin. simpl. unfold absentb.
      rewrite merge_field_field. rewrite decide_False; [done|].
      intros [_ ->]. apply Hf. apply list_elem_of_fmap. exists (f, x').
      split; [done|]. by apply list_elem_of_In. }
    cbn [List.filter]. simpl. destruct (absentb st.1 iso3 f); simpl; lia.
Qed.

Lemma merge_items_count its st :
  NoDup its.*1 ->
  (forall it, it ∈ its -> NoDup it.2.*1) ->
  (UN.merge_items st its).2
  = st.2
    + sum_list ((fun it : string * list (string * obsval) =>
                   length (List.filter (fun fx => absentb st.1 it.1 fx.1) it.2))
                  <$> its).
Proof.
  revert st. induction its as [|[iso3 fields] its IH]; intros st Hnd Hfields.
  - simpl. lia.
  - apply NoDup_cons in Hnd as [Hk Hnd].
    change (UN.merge_items st ((iso3, fields) :: its))
      with (UN.merge_items (UN.merge_entity st (iso3, fields)) its).
    rewrite (IH _ Hnd) by (intros it Hit; apply Hfields; by right).
    assert ((fun it : string * list (string * obsval) =>
               length (List.filter
                         (fun fx => absentb (UN.merge_entity st (iso3, fields)).1
                                            it.1 fx.1) it.2)) <$> its
            = (fun it : string * list (string * obsval) =>
                 length (List.filter (fun fx => absentb st.1 it.1 fx.1) it.2))
                <$> its) as ->.
    { apply list_fmap_ext. intros i [E fs] Hi. cbn [fst snd].
      f_equal. apply filter_ext. intros [F x]. cbn [fst snd]. unfold absentb.
      rewrite merge_entity_other; [done|].
      intros ->. apply Hk. apply list_elem_of_fmap. exists (iso3, fs).
      split; [done|]. by apply list_elem_of_lookup_2 in Hi. }
    assert ((UN.merge_entity st (iso3, fields)).2
            = st.2 + length (List.filter (fun fx => absentb st.1 iso3 fx.1)
                                         fields)) as ->.
    { unfold UN.merge_entity.
      rewrite merge_fields_count by (apply (Hfields (iso3, fields)); left).
      cbn [fst snd]. f_equal. f_equal. apply filter_ext. intros [F x].
      cbn [fst snd]. unfold absentb. by rewrite ensure_entity_field. }
    rewrite fmap_cons. cbn [sum_list fst snd]. unfold id. lia.
Qed.

(** X2.  [total_merged] counts exactly the fields of the new data that the
    store had missing or [null] before the merge: one for each value
    written, none for a value that was kept. *)
Theorem un_merge_count :
  forall (un_data : gmap string (gmap string json))
         (new_data : gmap string (gmap string obsval)),
    (UN.merge un_data new_data).2 = newly_filled un_data new_data.
Proof.
  intros d m. unfold UN.merge, newly_filled. rewrite merge_items_count.
  - done.
  - apply items_NoDup.
  - intros [E fs] Hin. apply elem_of_items in Hin as (mE & _ & ->).
    apply NoDup_fst_map_to_list.
Qed.

End UNMergeCount.

Section Overwrite.

Context {V : Type}.
Variable h : V -> json.

Lemma elem_of_items_of (m : gmap string (gmap string V)) E fs :
  (E, fs) ∈ map (fun kv : string * gmap string V => (kv.1, map_to_list kv.2))
               (map_to_list m)
  <-> exists mE, m !! E = Some mE /\ fs = map_to_list mE.
Proof.
  change (map ?f ?l) with (f <$> l). rewrite list_elem_of_fmap. split.
  - intros ([k mE] & [= -> ->] & Hin). exists mE. split; [|done].
    by apply elem_of_map_to_list.
  - intros (mE & HmE & ->). exists (E, mE). split; [done|].
    by apply elem_of_map_to_list.
Qed.

Lemma dict_update_lookup (fields : list (string * V)) (r : gmap string json) k :
  NoDup fields.*1 ->
  fold_left (fun r kv => <[kv.1 := h kv.2]> r) fields r !! k
  = match list_find (fun kv => kv.1 = k) fields with
    | Some (_, kv) => Some (h kv.2)
    | None => r !! k
    end.
Proof.
  intros Hnd.
  destruct (list_find (fun kv => kv.1 = k) fields) as [[i [k' v]]|] eqn:Hfind.
  - apply list_find_Some in Hfind as (Hi & Hk & _). simpl in Hk. subst k'.
    destruct (fold_items_same (fun r kv => <[kv.1 := h kv.2]> r)
                (fun (r : gmap string json) k => r !! k) fields r k v)
      as (r' & _ & Hfold); [|done| |].
    + intros r0 k' a' _ Hne. simpl. by rewrite lookup_insert_ne.
    + by apply list_elem_of_lookup_2 in Hi.
    + simpl in *. rewrite Hfold. by rewrite lookup_insert_eq.
  - apply list_find_None in Hfind.
    apply (fold_items_other (fun r kv => <[kv.1 := h kv.2]> r)
             (fun (r : gmap string json) k => r !! k)).
    + intros r0 k' a' _ Hne. simpl. by rewrite lookup_insert_ne.
    + intros Hin. apply list_elem_of_fmap in Hin as ([k' v] & -> & Hin).
      rewrite Forall_forall in Hfind. by apply (Hfind (k', v)).
Qed.

Lemma map_to_list_find (mE : gmap string V) k :
  (fun p : nat * (string * V) => p.2.2)
    <$> list_find (fun kv : string * V => kv.1 = k) (map_to_list mE)
  = mE !! k.
Proof.
  destruct (list_find _ (map_to_list mE)) as [[i [k' v]]|] eqn:Hfind; simpl.
  - apply list_find_Some in Hfind as (Hi & Hk & _). simpl in Hk. subst k'.
    apply list_elem_of_lookup_2, elem_of_map_to_list in Hi. by rewrite Hi.
  - apply list_find_None in Hfind. rewrite Forall_forall in Hfind.
    destruct (mE !! k) as [v|] eqn:Hk; [|done].
    exfalso. apply (Hfind (k, v)); [|done]. by apply elem_of_map_to_list.
Qed.

(** The overwriting merge, field by field: the value of the source wherever
    it has one, the value of the store elsewhere. *)
Lemma overwrite_field d (m : gmap string (gmap string V)) E F :
  field (fold_left (update_with h)
           (map (fun kv : string * gmap string V => (kv.1, map_to_list kv.2))
                (map_to_list m)) d) E F
  = match field m E F with
    | Some x => Some (h x)
    | None => field d E F
    end.
Proof.
  set (its := map _ (map_to_list m)).
  assert (forall d0 k' a', k' <> E ->
            field (update_with h d0 (k', a')) E F = field d0 E F) as Hother.
  { intros d0 k' a' Hne. unfold update_with. simpl.
    rewrite field_insert_record. by rewrite decide_False. }
  destruct (m !! E) as [mE|] eqn:HmE.
  - destruct (fold_items_same (update_with h) (fun d E => field d E F) its d E
                (map_to_list mE)) as (d' & Hd' & Hfold).
    + intros d0 k' a' _ Hne. by apply Hother.
    + unfold its. change (map ?f ?l) with (f <$> l).
      rewrite <- list_fmap_compose.
      apply (NoDup_fst_map_to_list m).
    + apply elem_of_items_of. by exists mE.
    + simpl in *. rewrite Hfold. unfold update_with. simpl.
      rewrite field_insert_record, decide_True by done.
      rewrite dict_update_lookup by apply NoDup_fst_map_to_list.
      assert (field m E F = mE !! F) as ->
        by (unfold field; by rewrite HmE).
      rewrite <- (map_to_list_find mE F).
      destruct (list_find _ (map_to_list mE)) as [[i kv]|]; simpl; [done|].
      rewrite field_default. exact Hd'.
  - assert (field m E F = None) as -> by (unfold field; by rewrite HmE).
    apply (fold_items_other (update_with h) (fun d E => field d E F)).
    + intros d0 k' a' _ Hne. by apply Hother.
    + unfold its. change (map ?f ?l) with (f <$> l).
      rewrite <- list_fmap_compose. intros Hin.
      apply list_elem_of_fmap in Hin as ([k v] & -> & Hin).
      apply elem_of_map_to_list in Hin. simpl in HmE. congruence.
Qed.

End Overwrite.

Section OverwriteClaims.

Lemma fold_left_ext_fun {A B} (f g : A -> B -> A) l a :
  (forall a b, f a b = g a b) -> fold_left f l a = fold_left g l a.
Proof.
  intros Hfg. revert a. induction l as [|b l IH]; intros a; [done|].
  simpl. by rewrite Hfg, IH.
Qed.

(** X3.  The overwriting branch of the UNESCO merge and the merge of the SIPRI
    [main]: after the merge a field holds the value of the new results
    wherever they have one, and its previous value elsewhere. *)
Theorem overwrite_merge_takes_source :
  (forall (unesco_data : gmap string (gmap string json))
          (results : gmap string (gmap string obsval)) E F,
     field (Unesco.merge false unesco_data results) E F
     = match field results E F with
       | Some x => Some (to_json x)
       | None => field unesco_data E F
       end)
  /\ (forall (sipri_data results : gmap string (gmap string json)) E F,
        field (Sipri.merge_results sipri_data results) E F
        = match field results E F with
          | Some v => Some v
          | None => field sipri_data E F
          end).
Proof.
  split.
  - intros d m E F. rewrite <- (overwrite_field to_json d m E F).
    unfold Unesco.merge, UN.items. f_equal.
    apply fold_left_ext_fun. by intros a [iso3 fields].
  - intros d m E F. exact (overwrite_field (fun v => v) d m E F).
Qed.

Lemma store_entry_field f d iso3 v y E k :
  field (Owid.store_entry f d (iso3, (v, y))) E k
  = if decide (E = iso3) then
      if decide (k = f +:+ "_year") then Some (JStr y)
      else if decide (k = f) then Some (JFloat v)
      else field d E k
    else field d E k.
Proof.
  unfold Owid.store_entry. rewrite field_insert_record.
  destruct (decide (iso3 = E)) as [<-|Hne].
  - rewrite decide_True by done. rewrite lookup_insert_eq. simpl.
    destruct (decide (k = f +:+ "_year")) as [->|Hny];
      [by rewrite lookup_insert_eq|].
    rewrite lookup_insert_ne by done.
    destruct (decide (k = f)) as [->|Hnf]; [by rewrite lookup_insert_eq|].
    rewrite lookup_insert_ne by done. apply field_default.
  - rewrite decide_False by done. rewrite field_insert_record.
    by rewrite decide_False.
Qed.

(** X4.  [store] of [fetch_owid.py] writes, for every extracted entity, the
    value under the field name and the year under its companion key,
    replacing what was there; it leaves every other field and entity as it
    was, and returns the number of extracted entities. *)
Theorem store_overwrites :
  forall (owid_data : gmap string (gmap string json))
         (extracted : gmap string (pyfloat * string)) (field_name : string)
         E k,
    field (Owid.store owid_data extracted field_name).1 E k
    = match extracted !! E with
      | Some (v, y) =>
          if decide (k = field_name +:+ "_year") then Some (JStr y)
          else if decide (k = field_name) then Some (JFloat v)
          else field owid_data E k
      | None => field owid_data E k
      end
    /\ (Owid.store owid_data extracted field_name).2 = size extracted.
Proof.
  intros d ex f E k. split; [|done]. unfold Owid.store. simpl.
  assert (forall d0 k' a', k' <> E ->
            field (Owid.store_entry f d0 (k', a')) E k = field d0 E k)
    as Hother.
  { intros d0 k' [v y] Hne. rewrite store_entry_field.
    by rewrite decide_False. }
  destruct (ex !! E) as [[v y]|] eqn:HE.
  - destruct (fold_items_same (Owid.store_entry f)
                (fun d E => field d E k) (map_to_list ex) d E (v, y))
      as (d' & Hd' & Hfold).
    + intros d0 k' a' _ Hne. by apply Hother.
    + apply NoDup_fst_map_to_list.
    + by apply elem_of_map_to_list.
    + cbv beta in Hfold, Hd'.
      rewrite Hfold, store_entry_field, decide_True by done.
      by rewrite Hd'.
  - apply (fold_items_other (Owid.store_entry f) (fun d E => field d E k)).
    + intros d0 k' a' _ Hne. by apply Hother.
    + intros Hin. apply list_elem_of_fmap in Hin as ([k' a] & -> & Hin).
      apply elem_of_map_to_list in Hin. simpl in HE. congruence.
Qed.

End OverwriteClaims.

(* ===================================================================== *)
(** * Looking up files and columns *)
(* ===================================================================== *)

Section FirstMatch.

(** [for x in l: if p(x): return x], then [return None]: the first element
    that passes the test. *)
Lemma find_first {A} (p : A -> bool) (l : list A) x :
  List.find p l = Some x <->
  exists i, l !! i = Some x /\ p x = true
            /\ forall j y, l !! j = Some y -> j < i -> p y = false.
Proof.
  revert x. induction l as [|a l IH]; intros x; simpl.
  - split; [done|]. intros (i & Hi & _). done.
  - destruct (p a) eqn:Hpa.
    + split.
      * intros [= <-]. exists 0. split; [done|]. split; [done|].
        intros j y _ Hj. lia.
      * intros (i & Hi & Hpx & Hmin). destruct i as [|i].
        -- by injection Hi as ->.
        -- specialize (Hmin 0 a eq_refl ltac:(lia)). congruence.
    + rewrite IH. split.
      * intros (i & Hi & Hpx & Hmin). exists (S i). split; [done|].
        split; [done|]. intros [|j] y Hj Hlt.
        -- by injection Hj as <-.
        -- apply (Hmin j); [done|lia].
      * intros (i & Hi & Hpx & Hmin). destruct i as [|i].
        -- injection Hi as ->. congruence.
        -- exists i. split; [done|]. split; [done|].
           intros j y Hj Hlt. apply (Hmin (S j)); [done|lia].
Qed.

Lemma find_none {A} (p : A -> bool) (l : list A) :
  List.find p l = None <-> forall x, x ∈ l -> p x = false.
Proof.
  induction l as [|a l IH]; simpl.
  - split; [|done]. intros _ x Hx. by apply elem_of_nil in Hx.
  - destruct (p a) eqn:Hpa.
    + split; [done|]. intros Hall. specialize (Hall a ltac:(left)). congruence.
    + rewrite IH. split.
      * intros Hall x [->|Hx]%elem_of_cons; [done|by apply Hall].
      * intros Hall x Hx. apply Hall. by right.
Qed.

End FirstMatch.

Section Endswith.

Lemma endswith_unfold s suffix :
  UN.endswith s suffix
  = bool_decide (s = suffix)
    || match s with "" => false | String _ s' => UN.endswith s' suffix end.
Proof. by destruct s. Qed.

(** [endswith] is the suffix test. *)
Lemma endswith_spec s suffix :
  UN.endswith s suffix = true <-> exists a, s = a +:+ suffix.
Proof.
  induction s as [|c s IH]; rewrite endswith_unfold.
  - rewrite orb_false_r, bool_decide_eq_true. split.
    + intros <-. by exists "".
    + intros [a Ha]. destruct a; [done|discriminate].
  - rewrite orb_true_iff, bool_decide_eq_true, IH. split.
    + intros [<-|[a ->]]; [by exists ""|]. by exists (String c a).
    + intros [a Ha]. destruct a as [|c' a]; [by left|].
      right. exists a.
      change (String c s = String c' (a +:+ suffix)) in Ha. by injection Ha.
Qed.

End Endswith.

Section Lookups.

(** X5.  [find_file] returns the first entry of the directory listing that
    ends in [".xlsx"] and contains the keyword in any case, and nothing when
    there is no such entry. *)
Theorem find_file_first_workbook :
  forall (listing : list string) (keyword : string),
    (forall f,
       UN.find_file listing keyword = Some f <->
       exists i, listing !! i = Some f
                 /\ (exists a, f = a +:+ ".xlsx")
                 /\ contains (lower keyword) (lower f) = true
                 /\ forall j g, listing !! j = Some g -> j < i ->
                      ~ ((exists a, g = a +:+ ".xlsx")
                         /\ contains (lower keyword) (lower g) = true))
    /\ (UN.find_file listing keyword = None <->
        forall g, g ∈ listing ->
          ~ ((exists a, g = a +:+ ".xlsx")
             /\ contains (lower keyword) (lower g) = true)).
Proof.
  intros listing keyword.
  assert (forall g, UN.is_workbook_for keyword g = true <->
            (exists a, g = a +:+ ".xlsx")
            /\ contains (lower keyword) (lower g) = true) as Hwb.
  { intros g. unfold UN.is_workbook_for.
    by rewrite andb_true_iff, endswith_spec. }
  assert (forall g, UN.is_workbook_for keyword g = false <->
            ~ ((exists a, g = a +:+ ".xlsx")
               /\ contains (lower keyword) (lower g) = true)) as Hnwb.
  { intros g. rewrite <- Hwb. by destruct (UN.is_workbook_for keyword g). }
  split.
  - intros f. unfold UN.find_file. rewrite find_first. split.
    + intros (i & Hi & Hp & Hmin). exists i. apply Hwb in Hp as [He Hc].
      repeat split; try done. intros j g Hj Hlt. apply Hnwb. by apply (Hmin j).
    + intros (i & Hi & He & Hc & Hmin). exists i. split; [done|].
      split; [by apply Hwb|]. intros j g Hj Hlt. apply Hnwb. by apply (Hmin j).
  - unfold UN.find_file. rewrite find_none. split.
    + intros Hall g Hg. apply Hnwb. by apply Hall.
    + intros Hall g Hg. apply Hnwb. by apply Hall.
Qed.

(** X6.  [find_col] returns the first field name that contains the keyword
    in any case; a missing or empty keyword finds nothing, although the empty
    string is contained in every name. *)
Theorem find_col_first_match :
  forall (fieldnames : list string) (keyword : option string),
    (forall f,
       Owid.find_col fieldnames keyword = Some f <->
       exists kw i,
         keyword = Some kw /\ kw <> ""
         /\ fieldnames !! i = Some f
         /\ contains (lower kw) (lower f) = true
         /\ forall j g, fieldnames !! j = Some g -> j < i ->
                        contains (lower kw) (lower g) = false)
    /\ Owid.find_col fieldnames None = None
    /\ Owid.find_col fieldnames (Some "") = None.
Proof.
  intros fieldnames keyword. split; [|done].
  intros f. unfold Owid.find_col. destruct keyword as [kw|].
  - case_bool_decide as Hkw.
    + split; [done|]. intros (kw' & i & [= <-] & Hne & _). done.
    + rewrite find_first. split.
      * intros (i & Hi & Hc & Hmin). by exists kw, i.
      * intros (kw' & i & [= <-] & _ & Hi & Hc & Hmin). by exists i.
  - split; [done|]. intros (kw' & i & Hk & _). done.
Qed.

(** X7.  [auto_val_col] returns the first field whose lower-cased name
    contains none of the words of [skip]; it never returns a column whose
    name contains one of them. *)
Theorem auto_val_col_first_unskipped :
  forall (fields : list string),
    (forall f,
       Owid.auto_val_col fields = Some f <->
       exists i,
         fields !! i = Some f
         /\ (forall s, s ∈ Owid.skip -> contains s (lower f) = false)
         /\ forall j g, fields !! j = Some g -> j < i ->
              exists s, s ∈ Owid.skip /\ contains s (lower g) = true)
    /\ (Owid.auto_val_col fields = None <->
        forall g, g ∈ fields ->
          exists s, s ∈ Owid.skip /\ contains s (lower g) = true).
Proof.
  intros fields.
  assert (forall g, Owid.is_skipped g = true <->
            exists s, s ∈ Owid.skip /\ contains s (lower g) = true) as Hsk.
  { intros g. unfold Owid.is_skipped. apply existsb_elem_of. }
  assert (forall g, negb (Owid.is_skipped g) = true <->
            forall s, s ∈ Owid.skip -> contains s (lower g) = false) as Hns.
  { intros g. rewrite negb_true_iff. split.
    - intros Hf s Hs. destruct (contains s (lower g)) eqn:Hc; [|done].
      assert (Owid.is_skipped g = true) by (apply Hsk; by exists s).
      congruence.
    - intros Hall. destruct (Owid.is_skipped g) eqn:Hg; [|done].
      apply Hsk in Hg as (s & Hs & Hc). rewrite (Hall s Hs) in Hc. done. }
  split.
  - intros f. unfold Owid.auto_val_col. rewrite find_first. split.
    + intros (i & Hi & Hp & Hmin). exists i. split; [done|].
      split; [by apply Hns|]. intros j g Hj Hlt. apply Hsk.
      by apply negb_false_iff, (Hmin j).
    + intros (i & Hi & Hp & Hmin). exists i. split; [done|].
      split; [by apply Hns|]. intros j g Hj Hlt.
      apply negb_false_iff, Hsk. by apply (Hmin j).
  - unfold Owid.auto_val_col. rewrite find_none. split.
    + intros Hall g Hg. apply Hsk. by apply negb_false_iff, Hall.
    + intros Hall g Hg. apply negb_false_iff, Hsk. by apply Hall.
Qed.

End Lookups.

(* ===================================================================== *)
(** * [read_file]: exceptions, years and reserved names *)
(* ===================================================================== *)

Section ReadFileErrors.

Lemma parse_year_cases c :
  (exists neg, float_of_str (py_str c) = Ok (FInf neg)
               /\ UN.parse_year c = Raise OverflowError)
  \/ (exists y, UN.parse_year c = Ok (y, pretty y))
  \/ UN.parse_year c = Ok (0%Z, "2024").
Proof.
  unfold UN.parse_year.
  destruct (float_of_str (py_str c)) as [x|e] eqn:Hf; simpl.
  - destruct x as [q|neg|]; simpl.
    + right. left. by eexists.
    + left. by exists neg.
    + right. right. done.
  - apply float_of_str_raises in Hf as ->. right. right. done.
Qed.

Lemma row_year_cases year_c row :
  (exists c, c ∈ row /\ overflows c
             /\ UN.row_year year_c row = Raise OverflowError)
  \/ (exists y, UN.row_year year_c row = Ok (y, pretty y))
  \/ UN.row_year year_c row = Ok (0%Z, "2024").
Proof.
  unfold UN.row_year. destruct year_c as [yc|]; [|by right; right].
  destruct (row !! yc) as [c|] eqn:Hc; [|by right; right].
  destruct (is_none c); [by right; right|].
  destruct (parse_year_cases c) as [(neg & Hf & Hp)|[Hp|Hp]].
  - left. exists c. split; [by apply list_elem_of_lookup_2 in Hc|].
    split; [left; by exists neg|done].
  - right. by left.
  - right. by right.
Qed.

(** Writing a field fails only on an integer too large for [float]. *)
Lemma write_field_cases row year fields fc :
  (exists fields', UN.write_field row year fields fc = Ok fields')
  \/ (UN.write_field row year fields fc = Raise OverflowError
      /\ exists c, c ∈ row /\ overflows c).
Proof.
  destruct fc as [f i]. unfold UN.write_field.
  destruct (row !! i) as [c|] eqn:Hc; [|left; by eexists].
  destruct (is_none c); [left; by eexists|].
  destruct (float_of_cell c) as [v|e] eqn:Hfl; simpl; [left; by eexists|].
  destruct (float_of_cell_raises c e Hfl) as [->|[->| ->]]; simpl;
    [left; by eexists..|].
  right. split; [done|]. exists c.
  split; [by apply list_elem_of_lookup_2 in Hc|by right].
Qed.

Lemma write_fields_cases row year fcols fields :
  (exists fields', foldM (UN.write_field row year) fields fcols = Ok fields')
  \/ (foldM (UN.write_field row year) fields fcols = Raise OverflowError
      /\ exists c, c ∈ row /\ overflows c).
Proof.
  revert fields. induction fcols as [|fc fcols IH]; intros fields; simpl.
  - left. by eexists.
  - destruct (write_field_cases row year fields fc) as [[fs1 ->]|[-> Hc]].
    + apply IH.
    + by right.
Qed.

(** A row fails only on a cell that overflows. *)
Lemma read_row_cases iso3_c year_c fcols st row :
  (exists st', UN.read_row iso3_c year_c fcols st row = Ok st')
  \/ (UN.read_row iso3_c year_c fcols st row = Raise OverflowError
      /\ exists c, c ∈ row /\ overflows c).
Proof.
  unfold UN.read_row. destruct (row !! iso3_c) as [c|]; [|left; by eexists].
  destruct (negb (truthy c) || _); [left; by eexists|].
  destruct (row_year_cases year_c row)
    as [(c' & Hin & Hf & ->)|[[y ->]| ->]]; simpl.
  - right. split; [done|]. by exists c'.
  - destruct (2025 <? y)%Z; [left; by eexists|].
    destruct (match UN.best_year st !! _ with Some _ => _ | None => _ end);
      [left; by eexists|].
    destruct (write_fields_cases row (pretty y) fcols
                (default ∅ (UN.result st !! upper (strip (py_str c)))))
      as [[fs ->]|[-> Hc]]; simpl; [left; by eexists|by right].
  - destruct (match UN.best_year st !! _ with Some _ => _ | None => _ end);
      [left; by eexists|].
    destruct (write_fields_cases row "2024" fcols
                (default ∅ (UN.result st !! upper (strip (py_str c)))))
      as [[fs ->]|[-> Hc]]; simpl; [left; by eexists|by right].
Qed.

Lemma read_rows_cases iso3_c year_c fcols rows st :
  (exists st', foldM (UN.read_row iso3_c year_c fcols) st rows = Ok st')
  \/ (foldM (UN.read_row iso3_c year_c fcols) st rows = Raise OverflowError
      /\ exists row c, row ∈ rows /\ c ∈ row /\ overflows c).
Proof.
  revert st. induction rows as [|row rows IH]; intros st; simpl.
  - left. by eexists.
  - destruct (read_row_cases iso3_c year_c fcols st row)
      as [[st1 ->]|[-> (c & Hin & Hf)]].
    + destruct (IH st1) as [Hok|[Hr (row' & c & Hrow & Hin & Hf)]];
        [by left|].
      right. split; [done|]. exists row', c. split; [by right|done].
    + right. split; [done|]. exists row, c. split; [left|done].
Qed.

(** X8.  The only exception that leaves [read_file] is [OverflowError]: of
    a year that reads as an infinity, or of an integer too large for
    [float]; on a sheet without such a cell [read_file] returns. *)
Theorem read_file_only_overflow :
  (forall all_rows column_map e,
     UN.read_file all_rows column_map = Raise e -> e = OverflowError)
  /\ (forall all_rows column_map,
        no_overflow all_rows ->
        exists r, UN.read_file all_rows column_map = Ok r).
Proof.
  assert (forall all_rows column_map,
            (exists r, UN.read_file all_rows column_map = Ok r)
            \/ (UN.read_file all_rows column_map = Raise OverflowError
                /\ exists row c,
                     row ∈ all_rows /\ c ∈ row /\ overflows c)) as Hcases.
  { intros rows cm. unfold UN.read_file.
    destruct (UN.find_header_row rows) as [h|]; [|left; by eexists].
    destruct (UN.iso3_col _) as [ic|]; [|left; by eexists].
    unfold UN.read_rows.
    destruct (read_rows_cases ic
                (UN.year_col (UN.map_columns (default [] (rows !! h)) cm))
                (UN.field_cols (UN.map_columns (default [] (rows !! h)) cm))
                (drop (S h) rows) (UN.Extraction ∅ ∅))
      as [[st ->]|[-> (row & c & Hrow & Hin & Hf)]]; simpl.
    - left. by eexists.
    - right. split; [done|]. exists row, c. split; [|done].
      apply list_elem_of_lookup in Hrow as [i Hi].
      rewrite lookup_drop in Hi. by apply list_elem_of_lookup_2 in Hi. }
  split.
  - intros rows cm e He.
    destruct (Hcases rows cm) as [[r Hr]|[Hr _]]; congruence.
  - intros rows cm Hno.
    destruct (Hcases rows cm) as [Hok|[_ (row & c & Hrow & Hin & Hf)]];
      [done|].
    exfalso. by apply (Hno row c).
Qed.

(** The sheet of two rows for France has no cell that overflows, so
    [read_file] returns on it. *)
Lemma read_file_only_overflow_witness :
  exists r, UN.read_file tie_rows UN.columns_population = Ok r.
Proof.
  apply (proj2 read_file_only_overflow tie_rows UN.columns_population).
  intros row c Hrow Hc. unfold tie_rows in Hrow.
  repeat (apply elem_of_cons in Hrow as [->|Hrow];
          [repeat (apply elem_of_cons in Hc as [->|Hc];
                   [intros [[neg Hneg]|Hraise]; vm_compute in *; discriminate|]);
           by apply elem_of_nil in Hc|]).
  by apply elem_of_nil in Hrow.
Defined.

End ReadFileErrors.

Section ReadFileYears.

Lemma pretty_2024 : pretty 2024%Z = "2024".
Proof. vm_compute. reflexivity. Qed.

Lemma write_field_years row year fields fc fields' :
  (exists y, (y <= 2025)%Z /\ year = pretty y) ->
  years_within fields ->
  UN.write_field row year fields fc = Ok fields' ->
  years_within fields'.
Proof.
  intros Hyear Hin. destruct fc as [f i]. unfold UN.write_field.
  destruct (row !! i) as [c|]; [|by intros [= <-]].
  destruct (is_none c); [by intros [= <-]|].
  destruct (float_of_cell c) as [v|e] eqn:Hfl; simpl.
  - intros [= <-] k s.
    destruct (decide (f +:+ "_year" = k)) as [<-|Hny].
    { rewrite lookup_insert_eq. by intros [= <-]. }
    rewrite lookup_insert_ne by done.
    destruct (decide (f = k)) as [<-|Hnf].
    { rewrite lookup_insert_eq. done. }
    rewrite lookup_insert_ne by done. apply Hin.
  - destruct (float_of_cell_raises c e Hfl) as [->|[->| ->]]; simpl;
      [by intros [= <-]..|done].
Qed.

Lemma write_fields_years row year fcols fields fields' :
  (exists y, (y <= 2025)%Z /\ year = pretty y) ->
  years_within fields ->
  foldM (UN.write_field row year) fields fcols = Ok fields' ->
  years_within fields'.
Proof.
  intros Hyear. revert fields.
  induction fcols as [|fc fcols IH]; intros fields Hin; simpl.
  - by intros [= <-].
  - destruct (UN.write_field row year fields fc) as [fs1|e] eqn:Hstep; [|done].
    apply IH. by apply (write_field_years row year fields fc).
Qed.

Lemma read_row_years iso3_c year_c fcols st row st' :
  (forall iso3 fields, UN.result st !! iso3 = Some fields ->
                       years_within fields) ->
  UN.read_row iso3_c year_c fcols st row = Ok st' ->
  forall iso3 fields, UN.result st' !! iso3 = Some fields ->
                      years_within fields.
Proof.
  intros Hinv. unfold UN.read_row.
  destruct (row !! iso3_c) as [c|]; [|by intros [= <-]].
  destruct (negb (truthy c) || _); [by intros [= <-]|].
  destruct (UN.row_year year_c row) as [[y s]|e] eqn:Hy; simpl; [|done].
  destruct (2025 <? y)%Z eqn:Hcut; [by intros [= <-]|].
  destruct (match UN.best_year st !! _ with Some _ => _ | None => _ end);
    [by intros [= <-]|].
  destruct (foldM _ _ fcols) as [fs|e] eqn:Hfold; simpl; [|done].
  intros [= <-]. simpl. intros iso3 fields.
  destruct (decide (upper (strip (py_str c)) = iso3)) as [<-|Hne].
  2:{ rewrite lookup_insert_ne by done. apply Hinv. }
  rewrite lookup_insert_eq. intros [= <-].
  eapply write_fields_years; [| |exact Hfold].
  - apply Z.ltb_ge in Hcut.
    destruct (row_year_cases year_c row)
      as [(c' & _ & _ & Hr)|[[y' Hr]|Hr]]; rewrite Hr in Hy;
      [done| |].
    + injection Hy as <- <-. by exists y'.
    + injection Hy as <- <-. exists 2024%Z. split; [lia|].
      by rewrite pretty_2024.
  - destruct (UN.result st !! upper (strip (py_str c))) as [fs0|] eqn:H0;
      simpl; [by apply (Hinv _ _ H0)|].
    intros k s'. by rewrite lookup_empty.
Qed.

(** X9.  Every year string [read_file] writes is the decimal text of a year
    not after 2025: rows dated later never reach the result. *)
Theorem read_file_years_within_cutoff :
  forall all_rows column_map r,
    UN.read_file all_rows column_map = Ok r ->
    forall iso3 fields, r !! iso3 = Some fields -> years_within fields.
Proof.
  intros rows cm r. unfold UN.read_file.
  assert (forall iso3 fields,
            (∅ : gmap string (gmap string obsval)) !! iso3 = Some fields ->
            years_within fields) as Hempty
    by (intros k fs Hk; by rewrite lookup_empty in Hk).
  destruct (UN.find_header_row rows) as [h|]; [|by intros [= <-]].
  destruct (UN.iso3_col _) as [ic|]; [|by intros [= <-]].
  destruct (UN.read_rows ic _ _ _) as [st|e] eqn:Hrows; simpl; [|done].
  intros [= <-]. revert Hrows. unfold UN.read_rows.
  assert (forall iso3 fields,
            UN.result (UN.Extraction ∅ ∅) !! iso3 = Some fields ->
            years_within fields) as H0 by exact Hempty.
  revert H0. generalize (UN.Extraction ∅ ∅) as st0.
  generalize (drop (S h) rows) as data.
  induction data as [|row data IH]; intros st0 H0; simpl.
  - by intros [= <-].
  - destruct (UN.read_row ic _ _ st0 row) as [st1|e] eqn:Hstep; [|done].
    apply IH. by eapply read_row_years.
Qed.

(** On the same sheet the one year written is 2020. *)
Lemma read_file_years_within_cutoff_witness :
  years_within
    ({[ "dependencyRatio" := OFloat (FNum 2);
        "dependencyRatio_year" := OStr "2020" ]} : gmap string obsval).
Proof.
  assert (UN.read_file tie_rows UN.columns_population
          = Ok ({[ "FRA" := {[ "dependencyRatio" := OFloat (FNum 2);
                               "dependencyRatio_year" := OStr "2020" ]} ]}
                : gmap string (gmap string obsval))) as Hfile
    by (vm_compute; reflexivity).
  apply (read_file_years_within_cutoff _ _ _ Hfile "FRA").
  vm_compute. reflexivity.
Defined.

End ReadFileYears.

Section Reserved.

Lemma year_key_not_reserved f :
  year_key_of f <> "_ISO3_" /\ year_key_of f <> "_YEAR_".
Proof.
  unfold year_key_of.
  split; intros H; pose proof (f_equal String.length H) as Hl;
    rewrite length_append in Hl; simpl in Hl;
    (destruct f as [|c [|c' f]]; simpl in Hl; [lia| |lia]);
    change (String c "_year" = String "_" "ISO3_") in H
    || change (String c "_year" = String "_" "YEAR_") in H;
    by injection H.
Qed.

Lemma claim_not_reserved i s cm spec r :
  r = "_ISO3_" \/ r = "_YEAR_" ->
  r ∉ (UN.field_cols cm).*1 ->
  r ∉ (UN.field_cols (UN.claim i s cm spec)).*1.
Proof.
  intros Hr Hcm. destruct spec as [kw f]. unfold UN.claim.
  destruct (negb _); [done|].
  case_bool_decide as Hi.
  { by destruct (UN.iso3_col cm). }
  case_bool_decide as Hy.
  { by destruct (UN.year_col cm). }
  destruct (UN.has_key _ _); [done|]. simpl.
  rewrite fmap_app. simpl. intros [Hin|Hin]%elem_of_app; [done|].
  apply list_elem_of_singleton in Hin. destruct Hr; congruence.
Qed.

Lemma map_columns_not_reserved header column_map r :
  r = "_ISO3_" \/ r = "_YEAR_" ->
  r ∉ (UN.field_cols (UN.map_columns header column_map)).*1.
Proof.
  intros Hr. unfold UN.map_columns.
  assert (r ∉ (UN.field_cols (UN.ColMap None None [])).*1) as H0
    by (simpl; apply not_elem_of_nil).
  revert H0. generalize (UN.ColMap None None []) as cm. generalize 0 as i.
  induction header as [|c header IH]; intros i cm Hcm; simpl; [done|].
  apply IH. unfold UN.map_cell. destruct (is_none c); [done|].
  generalize (strip (py_str c)) as s. intros s. clear IH.
  revert cm Hcm. generalize column_map as specs.
  induction specs as [|spec specs IHs]; intros cm Hcm; simpl; [done|].
  apply IHs. by apply claim_not_reserved.
Qed.

End Reserved.

(** X10.  The two reserved destinations of a column map, ["_ISO3_"] and
    ["_YEAR_"], only locate the code and the year: they are never keys of
    [field_cols], and no record [read_file] returns has a field of either
    name. *)
Theorem read_file_no_reserved_field :
  forall (column_map : list (string * string)) (reserved : string),
    reserved = "_ISO3_" \/ reserved = "_YEAR_" ->
    (forall header_row,
       reserved ∉ (UN.field_cols (UN.map_columns header_row column_map)).*1)
    /\ (forall all_rows r iso3 fields,
          UN.read_file all_rows column_map = Ok r ->
          r !! iso3 = Some fields ->
          fields !! reserved = None).
Proof.
  intros column_map reserved Hr.
  split; [intros header_row; by apply map_columns_not_reserved|].
  intros all_rows r iso3 fields. unfold UN.read_file.
  destruct (UN.find_header_row all_rows) as [h|];
    [|intros [= <-]; by rewrite lookup_empty].
  set (cm := UN.map_columns _ column_map).
  destruct (UN.iso3_col cm) as [iso3_c|];
    [|intros [= <-]; by rewrite lookup_empty].
  destruct (UN.read_rows iso3_c (UN.year_col cm) (UN.field_cols cm) _)
    as [st|e] eqn:Hrows; simpl; [|done].
  intros [= <-] Hf. apply read_rows_records in Hrows.
  destruct (Hrows iso3 fields Hf) as (S & HS & Hw).
  destruct (fields !! reserved) as [x|] eqn:Hx; [|done]. exfalso.
  assert (is_Some (fields !! reserved)) as Hs by by rewrite Hx.
  apply Hw in Hs as [Hin|(f & Hin & Heq)].
  - apply (map_columns_not_reserved (default [] (all_rows !! h)) column_map
             reserved Hr).
    by apply HS.
  - destruct (year_key_not_reserved f) as [H1 H2].
    destruct Hr; congruence.
Qed.

Lemma read_file_no_reserved_field_witness :
  "_ISO3_" ∉ (UN.field_cols
                (UN.map_columns
                   [CStr "ISO3 Alpha-code"; CStr "Year";
                    CStr "Dependency ratio"] UN.columns_population)).*1.
Proof.
  exact (proj1 (read_file_no_reserved_field UN.columns_population "_ISO3_"
                  (or_introl eq_refl)) _).
Defined.

(* ===================================================================== *)
(** * The records of [parse_sheet] *)
(* ===================================================================== *)

Section SipriEntries.

Variables (db : option Sipri.pycountry) (pd : Sipri.pandas)
  (field_name : string) (multiply_by : Z) (columns : list cell) (ccol : cell)
  (ycs : list cell).

Hypothesis multiply_by_in_range : in_range multiply_by.
Hypothesis ycs_year_cols : forall yc, yc ∈ ycs -> yc ∈ Sipri.year_cols columns.

Lemma ycs_Forall : Forall (fun yc => Sipri.is_year_col yc = true) ycs.
Proof.
  apply Forall_forall. intros yc Hyc. apply ycs_year_cols in Hyc.
  pose proof (year_cols_Forall columns) as Hall.
  rewrite Forall_forall in Hall. by apply Hall.
Qed.

Lemma year_key_of_ne f : f <> year_key_of f.
Proof.
  unfold year_key_of. intros H. pose proof (f_equal String.length H) as Hl.
  rewrite length_append in Hl. simpl in Hl. lia.
Qed.

Lemma parse_row_from seen st row st' :
  sipri_parsed_from db pd field_name multiply_by columns ccol seen st ->
  Sipri.parse_row db pd field_name multiply_by columns ccol ycs st
    (length seen) row = Ok st' ->
  sipri_parsed_from db pd field_name multiply_by columns ccol
    (seen ++ [row])%list st'.
Proof.
  intros [Hres Hskip].
  assert (sipri_parsed_from db pd field_name multiply_by columns ccol
            (seen ++ [row])%list st) as Hsame.
  { split.
    - intros iso3 fields Hf.
      destruct (Hres iso3 fields Hf) as (j & r & Hr & He).
      exists j, r. split; [by apply lookup_app_l_Some|done].
    - intros name Hn. destruct (Hskip name Hn) as (j & r & Hr & He).
      exists j, r. split; [by apply lookup_app_l_Some|done]. }
  assert ((seen ++ [row])%list !! length seen = Some row) as Hrow
    by (rewrite lookup_app_r by lia; by rewrite Nat.sub_diag).
  unfold Sipri.parse_row. fold (row_name pd (length seen) columns row ccol).
  destruct (_ || _) eqn:Hn; [by intros [= <-]|].
  destruct (_ && _) eqn:Hu; [by intros [= <-]|].
  assert (is_country_row (row_name pd (length seen) columns row ccol) = true)
    as Hcr by (unfold is_country_row; by rewrite Hn, Hu).
  rewrite country_to_iso3_chain. unfold mbind, outcome_bind.
  assert (forall name',
            name' ∈ (Sipri.skipped st
                     ++ [row_name pd (length seen) columns row ccol])%list ->
            (resolution_chain db
               (strip (row_name pd (length seen) columns row ccol)) = None
             \/ resolution_chain db
                  (strip (row_name pd (length seen) columns row ccol))
                = Some "") ->
            exists j r, (seen ++ [row])%list !! j = Some r
                        /\ sipri_skipped db pd columns ccol j r name')
    as Hnew.
  { intros name' [Hin|Hin]%elem_of_app Hch.
    - by apply (proj2 Hsame).
    - apply list_elem_of_singleton in Hin as ->. by exists (length seen), row. }
  destruct (resolution_chain db _) as [code|] eqn:Hch.
  2:{ intros [= <-]. split; [exact (proj1 Hsame)|].
      intros name' Hin. apply Hnew; [done|by left]. }
  destruct code as [|c0 code].
  { intros [= <-]. split; [exact (proj1 Hsame)|].
    intros name' Hin. apply Hnew; [done|by right]. }
  rewrite (latest_first_valid pd (length seen) multiply_by columns row
             multiply_by_in_range ycs None None ycs_Forall).
  destruct (first_valid pd (length seen) multiply_by columns row ycs)
    as [[v yc]|] eqn:Hfv; [|by intros [= <-]].
  intros [= <-]. split; [|exact (proj2 Hsame)].
  cbn [Sipri.result]. intros iso3 fields.
  destruct (decide (String c0 code = iso3)) as [<-|Hne].
  2:{ rewrite lookup_insert_ne by done. apply (proj1 Hsame). }
  rewrite lookup_insert_eq. intros [= <-]. exists (length seen), row.
  split; [done|].
  apply first_valid_Some in Hfv as (before & after & -> & Hv & _); [|done].
  split; [done|]. split; [done|]. split; [done|].
  exists v, yc. split.
  { apply ycs_year_cols. apply elem_of_app. right. by left. }
  split; [done|]. unfold Sipri.year_json, year_key_of. split.
  - rewrite lookup_insert_ne by apply not_eq_sym, year_key_of_ne.
    by rewrite lookup_insert_eq.
  - by rewrite lookup_insert_eq.
Qed.

Lemma parse_rows_from rows : forall seen st st',
  sipri_parsed_from db pd field_name multiply_by columns ccol seen st ->
  Sipri.parse_rows db pd field_name multiply_by columns ccol ycs
    (length seen) st rows = Ok st' ->
  sipri_parsed_from db pd field_name multiply_by columns ccol
    (seen ++ rows)%list st'.
Proof.
  induction rows as [|row rows IH]; intros seen st st' Hst Hf; simpl in Hf.
  - injection Hf as <-. by rewrite app_nil_r.
  - unfold mbind, outcome_bind in Hf.
    destruct (Sipri.parse_row _ _ _ _ _ _ _ st _ row) as [st1|e] eqn:Hs;
      [|done].
    replace (seen ++ row :: rows)%list with ((seen ++ [row]) ++ rows)%list
      by by rewrite <- app_assoc.
    apply (IH _ st1); [by apply (parse_row_from seen st)|].
    by rewrite length_app, Nat.add_1_r.
Qed.

End SipriEntries.

(** X11.  With a multiplier that [float] converts, every record
    [parse_sheet] returns comes from a row below the header whose name
    passes the row filter and resolves to the record's code, which is not
    empty; it holds a number under the field name and, under the companion
    key, the year of a year column of the header in whose cell that number
    stands, never [null].  Every name reported as skipped is the name of
    such a row for which the resolver has no code or an empty one. *)
Theorem parse_sheet_entries :
  forall (db : option Sipri.pycountry) (pd : Sipri.pandas)
         (df : list (list cell)) (field_name : string) (multiply_by : Z)
         (p : Sipri.parsed),
    in_range multiply_by ->
    Sipri.parse_sheet db pd df field_name multiply_by = Ok p ->
    (forall iso3 fields,
       Sipri.result p !! iso3 = Some fields ->
       exists h ccol i row,
         Sipri.find_header df = Some h
         /\ Sipri.country_col (default [] (df !! h)) = Ok ccol
         /\ drop (S h) df !! i = Some row
         /\ sipri_entry db pd field_name multiply_by (default [] (df !! h))
              ccol i row iso3 fields)
    /\ (forall name,
          name ∈ Sipri.skipped p ->
          exists h ccol i row,
            Sipri.find_header df = Some h
            /\ Sipri.country_col (default [] (df !! h)) = Ok ccol
            /\ drop (S h) df !! i = Some row
            /\ sipri_skipped db pd (default [] (df !! h)) ccol i row name).
Proof.
  intros db pd df field_name multiply_by p Hrange. unfold Sipri.parse_sheet.
  destruct (Sipri.find_header df) as [h|].
  2:{ intros [= <-]. split.
      - intros iso3 fields Hf. simpl in Hf. by rewrite lookup_empty in Hf.
      - intros name Hn. simpl in Hn. by apply elem_of_nil in Hn. }
  destruct (Sipri.country_col _) as [ccol|e] eqn:Hcc; [|done].
  unfold mbind at 1, outcome_bind at 1.
  destruct (year_cols_sorted_spec (default [] (df !! h)))
    as (sorted & Hs & _ & Hperm & _).
  destruct (Sipri.year_cols (default [] (df !! h))) as [|yc0 ycs0] eqn:Hycs.
  { intros [= <-]. split.
    - intros iso3 fields Hf. simpl in Hf. by rewrite lookup_empty in Hf.
    - intros name Hn. simpl in Hn. by apply elem_of_nil in Hn. }
  rewrite Hs. unfold mbind at 1, outcome_bind at 1.
  destruct (Sipri.years_available sorted) as [[]|e]; [|done].
  unfold mbind at 1, outcome_bind at 1. intros Hfold.
  assert (sipri_parsed_from db pd field_name multiply_by
            (default [] (df !! h)) ccol ([] ++ drop (S h) df)%list p)
    as [Hres Hskip].
  { apply (parse_rows_from db pd field_name multiply_by
             (default [] (df !! h)) ccol sorted Hrange)
      with (st := Sipri.Parsed ∅ []); [| |exact Hfold].
    - intros yc Hyc. rewrite Hycs. by rewrite <- Hperm.
    - split.
      + intros iso3 fields Hf. simpl in Hf. by rewrite lookup_empty in Hf.
      + intros name Hn. simpl in Hn. by apply elem_of_nil in Hn. }
  simpl in Hres, Hskip. split.
  - intros iso3 fields Hf.
    destruct (Hres iso3 fields Hf) as (i & row & Hr & He).
    exists h, ccol, i, row. split; [done|]. split; [done|]. split; done.
  - intros name Hn. destruct (Hskip name Hn) as (i & row & Hr & He).
    exists h, ccol, i, row. split; [done|]. split; [done|]. split; done.
Qed.

Lemma parse_sheet_entries_witness :
  exists h ccol i row,
    Sipri.find_header sheet_czechia = Some h
    /\ Sipri.country_col (default [] (sheet_czechia !! h)) = Ok ccol
    /\ drop (S h) sheet_czechia !! i = Some row
    /\ sipri_entry None plain_frames "milexCurrentUSD" 1
         (default [] (sheet_czechia !! h)) ccol i row "CZE"
         {[ "milexCurrentUSD" := JFloat (FNum 5);
            "milexCurrentUSD_year" := JStr "2023" ]}.
Proof.
  assert (in_range 1) as Hm by (vm_compute; reflexivity).
  assert (Sipri.parse_sheet None plain_frames sheet_czechia
            "milexCurrentUSD" 1
          = Ok (Sipri.Parsed
                  {[ "CZE" := {[ "milexCurrentUSD" := JFloat (FNum 5);
                                 "milexCurrentUSD_year" := JStr "2023" ]} ]}
                  ["Nonexistent Country"])) as Hsheet
    by (vm_compute; reflexivity).
  apply (proj1 (parse_sheet_entries _ _ _ _ _ _ Hm Hsheet) "CZE").
  vm_compute. reflexivity.
Defined.

(* ===================================================================== *)
(** * The latest entry of [extract_latest] *)
(* ===================================================================== *)

Section ExtractLatest.

Variables (iso_col : string) (year_col : option string) (value_col : string).

(** What a row does to the result does not depend on the result, but for
    the comparison with the year the result has for the row's code. *)
Lemma extract_row_cases (row : Owid.csv_row) :
  (exists e,
     (e = AttributeError \/ e = OverflowError)
     /\ forall res,
          Owid.extract_row iso_col year_col value_col res row = Raise e)
  \/ (forall res, Owid.extract_row iso_col year_col value_col res row = Ok res)
  \/ exists k v y,
       py_len k = 3
       /\ forall res,
            Owid.extract_row iso_col year_col value_col res row
            = Ok (offered res k v y).
Proof.
  unfold Owid.extract_row.
  destruct (Owid.cell_strip (Owid.row_get row (Some iso_col))) as [s|e] eqn:Hs.
  2:{ left. exists AttributeError. split; [by left|].
      intros res. unfold mbind, outcome_bind.
      destruct (Owid.row_get row (Some iso_col)); simpl in Hs; congruence. }
  unfold mbind, outcome_bind.
  destruct (bool_decide (upper s = "") || negb (py_len (upper s) =? 3)%nat)
    eqn:Hk; [by right; left|].
  apply orb_false_iff in Hk as [_ Hlen].
  apply negb_false_iff, Nat.eqb_eq in Hlen.
  destruct (negb (truthy (Owid.row_get row (Some value_col)))
            || bool_decide (strip (py_str (Owid.row_get row (Some value_col)))
                            ∈ Owid.blanks)); [by right; left|].
  destruct (Owid.value_and_year row year_col (Owid.row_get row (Some value_col)))
    as [[v y]|e] eqn:Hv.
  - right. right. exists (upper s), v, y. split; [done|].
    intros res. unfold offered.
    destruct (res !! upper s) as [[w best]|]; [|done].
    by destruct (String.ltb best y).
  - unfold Owid.value_and_year, mbind, outcome_bind in Hv.
    destruct (float_of_cell (Owid.row_get row (Some value_col))) as [f|e'] eqn:Hf;
      [done|].
    injection Hv as <-.
    destruct (float_of_cell_raises _ _ Hf) as [->|[->| ->]];
      [by right; left..|].
    left. exists OverflowError. split; [by right|done].
Qed.

Lemma offers_offered (row : Owid.csv_row) k v y :
  (forall res,
     Owid.extract_row iso_col year_col value_col res row
     = Ok (offered res k v y)) ->
  forall k' v' y',
    offers iso_col year_col value_col row k' v' y' <->
    k' = k /\ v' = v /\ y' = y.
Proof.
  intros Hrow k' v' y'. unfold offers. rewrite Hrow.
  unfold offered. rewrite lookup_empty, insert_empty. split.
  - intros Heq.
    pose proof (f_equal (fun o => match o with
                                  | Ok m => m !! k'
                                  | Raise _ => None
                                  end) Heq) as Hl.
    cbv beta iota in Hl. rewrite lookup_singleton_eq in Hl.
    apply lookup_singleton_Some in Hl as [-> [= -> ->]]. done.
  - by intros (-> & -> & ->).
Qed.

Lemma offers_none (row : Owid.csv_row) k v y :
  (forall res, Owid.extract_row iso_col year_col value_col res row = Ok res) ->
  ~ offers iso_col year_col value_col row k v y.
Proof.
  intros Hrow. unfold offers. rewrite Hrow. intros Heq.
  pose proof (f_equal (fun o => match o with
                                | Ok m => m !! k
                                | Raise _ => None
                                end) Heq) as Hl.
  cbv beta iota in Hl. by rewrite lookup_empty, lookup_singleton_eq in Hl.
Qed.

Lemma offers_raise (row : Owid.csv_row) k v y e :
  (forall res, Owid.extract_row iso_col year_col value_col res row = Raise e) ->
  ~ offers iso_col year_col value_col row k v y.
Proof.
  intros Hrow. unfold offers. by rewrite Hrow.
Qed.

Lemma offered_is_Some res k v y k' :
  is_Some (res !! k') -> is_Some (offered res k v y !! k').
Proof.
  intros Hs. unfold offered.
  destruct (res !! k) as [[w best]|] eqn:Hres.
  - destruct (String.ltb best y); [|done].
    destruct (decide (k' = k)) as [->|Hne];
      [rewrite lookup_insert_eq|rewrite lookup_insert_ne]; done.
  - destruct (decide (k' = k)) as [->|Hne];
      [rewrite lookup_insert_eq|rewrite lookup_insert_ne]; done.
Qed.

Lemma offered_is_Some_eq res k v y : is_Some (offered res k v y !! k).
Proof.
  unfold offered.
  destruct (res !! k) as [[w best]|] eqn:Hres.
  - destruct (String.ltb best y); [by rewrite lookup_insert_eq|by rewrite Hres].
  - by rewrite lookup_insert_eq.
Qed.

Lemma kept_step seen res row res' :
  latest_kept iso_col year_col value_col seen res ->
  Owid.extract_row iso_col year_col value_col res row = Ok res' ->
  latest_kept iso_col year_col value_col (seen ++ [row])%list res'.
Proof.
  intros [Hk Hcov] Hstep.
  assert (forall k v y, res !! k = Some (v, y) ->
            (forall v' y', offers iso_col year_col value_col row k v' y' ->
                           String.ltb y y' = false) ->
            py_len k = 3
            /\ (exists r, r ∈ (seen ++ [row])%list
                          /\ offers iso_col year_col value_col r k v y)
            /\ forall r v' y',
                 r ∈ (seen ++ [row])%list ->
                 offers iso_col year_col value_col r k v' y' ->
                 String.ltb y y' = false) as Hold.
  { intros k v y Hl Hnew. destruct (Hk k v y Hl) as (Hlen & (r & Hr & Ho) & Hmax).
    split; [done|]. split.
    - exists r. split; [|done]. apply elem_of_app. by left.
    - intros r' v' y' [Hr'|Hr']%elem_of_app Ho'.
      + by apply (Hmax r' v').
      + apply list_elem_of_singleton in Hr' as ->. by apply (Hnew v'). }
  destruct (extract_row_cases row)
    as [(e & _ & Hr)|[Hr|(k0 & v0 & y0 & Hlen & Hr)]].
  - by rewrite Hr in Hstep.
  - rewrite Hr in Hstep. injection Hstep as <-. split.
    + intros k v y Hl. apply Hold; [done|].
      intros v' y' Ho. by apply offers_none in Ho.
    + intros r k v y [Hr'|Hr']%elem_of_app Ho.
      * by apply (Hcov r k v y).
      * apply list_elem_of_singleton in Hr' as ->. by apply offers_none in Ho.
  - pose proof (offers_offered row k0 v0 y0 Hr) as Hoff.
    rewrite Hr in Hstep. injection Hstep as <-. split.
    2:{ intros r k v y [Hr'|Hr']%elem_of_app Ho.
        - apply offered_is_Some. by apply (Hcov r k v y).
        - apply list_elem_of_singleton in Hr' as ->.
          apply Hoff in Ho as (-> & _). apply offered_is_Some_eq. }
    assert (forall k v y, <[k0 := (v0, y0)]> res !! k = Some (v, y) ->
              (forall w best, res !! k0 = Some (w, best) ->
                              String.ltb best y0 = true) ->
              py_len k = 3
              /\ (exists r, r ∈ (seen ++ [row])%list
                            /\ offers iso_col year_col value_col r k v y)
              /\ forall r v' y',
                   r ∈ (seen ++ [row])%list ->
                   offers iso_col year_col value_col r k v' y' ->
                   String.ltb y y' = false) as Hnew.
    { intros k v y Hl Hbest. destruct (decide (k = k0)) as [->|Hne].
      - rewrite lookup_insert_eq in Hl. injection Hl as <- <-.
        split; [done|]. split.
        + exists row. split; [apply elem_of_app; right; by left|].
          by apply Hoff.
        + intros r v' y' [Hr'|Hr']%elem_of_app Ho'.
          * destruct (Hcov r k0 v' y' Hr' Ho') as [[w best] Hres].
            destruct (Hk k0 w best Hres) as (_ & _ & Hmax).
            specialize (Hmax r v' y' Hr' Ho').
            specialize (Hbest w best Hres).
            destruct (String.ltb y0 y') eqn:Hy; [|done].
            by rewrite (ltb_trans best y0 y') in Hmax.
          * apply list_elem_of_singleton in Hr' as ->.
            apply Hoff in Ho' as (_ & _ & ->). apply ltb_irrefl.
      - rewrite lookup_insert_ne in Hl by done. apply Hold; [done|].
        intros v' y' Ho. apply Hoff in Ho as (-> & _). done. }
    intros k v y Hl. unfold offered in Hl.
    destruct (res !! k0) as [[w best]|] eqn:Hres.
    + destruct (String.ltb best y0) eqn:Hlt.
      * apply Hnew; [done|]. by intros w' best' [= <- <-].
      * apply Hold; [done|]. intros v' y' Ho.
        apply Hoff in Ho as (-> & _ & ->).
        rewrite Hres in Hl. by injection Hl as <- <-.
    + apply Hnew; [done|]. intros w' best' H. done.
Qed.

Lemma kept_fold rows : forall seen res r,
  latest_kept iso_col year_col value_col seen res ->
  foldM (Owid.extract_row iso_col year_col value_col) res rows = Ok r ->
  latest_kept iso_col year_col value_col (seen ++ rows)%list r.
Proof.
  induction rows as [|row rows IH]; intros seen res r Hk Hf; simpl in Hf.
  - injection Hf as <-. by rewrite app_nil_r.
  - unfold mbind, outcome_bind in Hf.
    destruct (Owid.extract_row iso_col year_col value_col res row)
      as [res'|e] eqn:Hs; [|done].
    replace (seen ++ row :: rows)%list with ((seen ++ [row]) ++ rows)%list
      by by rewrite <- app_assoc.
    apply (IH _ res'); [|done]. by apply (kept_step seen res).
Qed.

Lemma fold_raises rows : forall res e,
  foldM (Owid.extract_row iso_col year_col value_col) res rows = Raise e ->
  e = AttributeError \/ e = OverflowError.
Proof.
  induction rows as [|row rows IH]; intros res e Hf; simpl in Hf; [done|].
  unfold mbind, outcome_bind in Hf.
  destruct (Owid.extract_row iso_col year_col value_col res row)
    as [res'|e'] eqn:Hs.
  - by apply (IH res').
  - injection Hf as <-.
    destruct (extract_row_cases row)
      as [(e0 & He0 & Hr)|[Hr|(k0 & v0 & y0 & Hlen & Hr)]];
      rewrite Hr in Hs; congruence.
Qed.

End ExtractLatest.

(** X12.  [extract_latest] keeps, for a code, an entry that some row offers
    and whose year no row of that code exceeds in string order; the codes
    have three characters, every code a row offers has an entry, and the
    only exceptions that leave the loop are the [AttributeError] of a code
    cell that is no text and the [OverflowError] of a value that is an
    integer too large for [float]. *)
Theorem extract_latest_keeps_greatest_year :
  forall (rows : list Owid.csv_row) (iso_col : string)
         (year_col : option string) (value_col : string),
    (forall r,
       Owid.extract_latest rows iso_col year_col value_col = Ok r ->
       (forall k v y,
          r !! k = Some (v, y) ->
          py_len k = 3
          /\ (exists row, row ∈ rows
                          /\ offers iso_col year_col value_col row k v y)
          /\ forall row v' y',
               row ∈ rows -> offers iso_col year_col value_col row k v' y' ->
               String.ltb y y' = false)
       /\ (forall row k v y,
             row ∈ rows -> offers iso_col year_col value_col row k v y ->
             is_Some (r !! k)))
    /\ (forall e,
          Owid.extract_latest rows iso_col year_col value_col = Raise e ->
          e = AttributeError \/ e = OverflowError).
Proof.
  intros rows iso_col year_col value_col. split.
  - intros r Hr.
    apply (kept_fold iso_col year_col value_col rows [] ∅ r); [|exact Hr].
    split.
    + intros k v y Hl. by rewrite lookup_empty in Hl.
    + intros row k v y Hin. by apply elem_of_nil in Hin.
  - intros e. apply fold_raises.
Qed.

Lemma extract_latest_keeps_greatest_year_witness :
  py_len "FRA" = 3
  /\ exists row, row ∈ tie_csv_rows
                 /\ offers "Code" (Some "Year") "Value" row "FRA" (FNum 1) "2020".
Proof.
  assert (Owid.extract_latest tie_csv_rows "Code" (Some "Year") "Value"
          = Ok ({[ "FRA" := (FNum 1, "2020") ]}
                : gmap string (pyfloat * string))) as Hrows
    by (vm_compute; reflexivity).
  destruct (proj1 (proj1 (extract_latest_keeps_greatest_year tie_csv_rows
                            "Code" (Some "Year") "Value") _ Hrows)
              "FRA" (FNum 1) "2020" ltac:(vm_compute; reflexivity))
    as (Hlen & Hrow & _).
  split; [exact Hlen|exact Hrow].
Defined.

(* ===================================================================== *)
(** * The sheets of a workbook and the summary of a run *)
(* ===================================================================== *)

Section Sheets.

(** X13.  The sheet search of [read_file] takes the first sheet whose name
    contains the configured name or the word "estimate", in any case; when
    no sheet does it falls back on the active sheet, and when there is none
    the attribute access on [None] raises. *)
Theorem select_rows_first_wanted :
  forall (wb : UN.workbook) (sheet_name : string),
    (forall name,
       UN.is_wanted_sheet sheet_name name = true <->
       contains (lower sheet_name) (lower name) = true
       \/ contains "estimate" (lower name) = true)
    /\ (forall rows,
          UN.select_rows wb sheet_name = Ok rows <->
          (exists i name,
             UN.sheetnames wb !! i = Some name
             /\ UN.is_wanted_sheet sheet_name name = true
             /\ rows = UN.sheet_rows wb name
             /\ forall j g, UN.sheetnames wb !! j = Some g -> j < i ->
                  UN.is_wanted_sheet sheet_name g = false)
          \/ ((forall g, g ∈ UN.sheetnames wb ->
                 UN.is_wanted_sheet sheet_name g = false)
              /\ UN.active wb = Some rows))
    /\ (forall e,
          UN.select_rows wb sheet_name = Raise e <->
          e = AttributeError
          /\ (forall g, g ∈ UN.sheetnames wb ->
                UN.is_wanted_sheet sheet_name g = false)
          /\ UN.active wb = None).
Proof.
  intros wb sheet_name. split.
  { intros name. unfold UN.is_wanted_sheet. by rewrite orb_true_iff. }
  unfold UN.select_rows.
  destruct (List.find (UN.is_wanted_sheet sheet_name) (UN.sheetnames wb))
    as [name|] eqn:Hfind.
  - pose proof (proj1 (find_first _ _ _) Hfind) as (i & Hi & Hp & Hmin).
    split.
    + intros rows. split.
      * intros [= <-]. left. by exists i, name.
      * intros [(i' & name' & Hi' & Hp' & -> & Hmin')|[Hall _]].
        -- assert (List.find (UN.is_wanted_sheet sheet_name) (UN.sheetnames wb)
                   = Some name') as Hfind'
             by (apply find_first; by exists i').
           congruence.
        -- apply list_elem_of_lookup_2 in Hi. apply Hall in Hi. congruence.
    + intros e. split; [done|]. intros (_ & Hall & _).
      apply list_elem_of_lookup_2 in Hi. apply Hall in Hi. congruence.
  - pose proof (proj1 (find_none _ _) Hfind) as Hall.
    destruct (UN.active wb) as [rows0|] eqn:Hact.
    + split.
      * intros rows. split.
        -- intros [= <-]. by right.
        -- intros [(i' & name' & Hi' & Hp' & _)|[_ [= <-]]]; [|done].
           apply list_elem_of_lookup_2 in Hi'. apply Hall in Hi'. congruence.
      * intros e. split; [done|]. by intros (_ & _ & ?).
    + split.
      * intros rows. split; [done|].
        intros [(i' & name' & Hi' & Hp' & _)|[_ ?]]; [|done].
        apply list_elem_of_lookup_2 in Hi'. apply Hall in Hi'. congruence.
      * intros e. split; [by intros [= <-]|]. by intros (-> & _).
Qed.



End Sheets.

Section Summary.









Example summary_of_sample : Sipri.summary store_sample = Ok ().
Proof. vm_compute. reflexivity. Qed.

End Summary.

(* ===================================================================== *)
(** * [read_file]: a value and its year come from one row *)
(* ===================================================================== *)

Section OneRow.

Variables (iso3_c : nat) (year_c : option nat) (fcols : list (string * nat)).

Hypothesis fcols_companion_free : companion_free fcols.*1.

Lemma from_one_row_mono rows rows' iso3 fields :
  (forall r, r ∈ rows -> r ∈ rows') ->
  from_one_row iso3_c year_c fcols rows iso3 fields ->
  from_one_row iso3_c year_c fcols rows' iso3 fields.
Proof.
  intros Hsub Hinv f Hf. specialize (Hinv f Hf).
  destruct (fields !! f) as [x|]; [|done].
  destruct Hinv as (row & col & v & s & Hrow & Hrest).
  exists row, col, v, s. split; [by apply Hsub|done].
Qed.

Lemma write_field_one_row rows row iso3 y year fields fc fields' :
  row ∈ rows ->
  (exists c0, row !! iso3_c = Some c0 /\ upper (strip (py_str c0)) = iso3) ->
  UN.row_year year_c row = Ok (y, year) ->
  fc ∈ fcols ->
  from_one_row iso3_c year_c fcols rows iso3 fields ->
  UN.write_field row year fields fc = Ok fields' ->
  from_one_row iso3_c year_c fcols rows iso3 fields'.
Proof.
  intros Hrow Hcode Hyear Hfc Hinv. destruct fc as [f0 col0].
  unfold UN.write_field.
  destruct (row !! col0) as [c|] eqn:Hc; [|by intros [= <-]].
  destruct (is_none c); [by intros [= <-]|].
  destruct (float_of_cell c) as [v|e] eqn:Hfl; simpl.
  2:{ destruct (float_of_cell_raises c e Hfl) as [->|[->| ->]]; simpl;
        [by intros [= <-]..|done]. }
  intros [= <-] f Hf.
  assert (f0 ∈ fcols.*1) as Hf0.
  { apply list_elem_of_fmap. by exists (f0, col0). }
  destruct (decide (f = f0)) as [->|Hne].
  - rewrite lookup_insert_ne by apply not_eq_sym, year_key_of_ne.
    rewrite lookup_insert_eq. exists row, col0, v, year.
    split; [done|]. split; [done|]. split; [done|].
    split; [unfold year_key_of; by rewrite lookup_insert_eq|].
    split; [done|]. split; [by exists c|by exists y].
  - assert (f <> year_key_of f0) as H1 by by apply fcols_companion_free.
    assert (f0 <> year_key_of f) as H2 by by apply fcols_companion_free.
    assert (year_key_of f <> year_key_of f0) as H3
      by (intros H%year_key_of_inj; done).
    fold (year_key_of f0).
    rewrite (lookup_insert_ne _ (year_key_of f0) f) by done.
    rewrite (lookup_insert_ne _ f0 f) by done.
    specialize (Hinv f Hf). destruct (fields !! f) as [x|].
    + destruct Hinv as (r & col & v' & s & Hr & Hin & Hx & Hys & Hg).
      exists r, col, v', s. split; [done|]. split; [done|]. split; [done|].
      split; [|done].
      rewrite (lookup_insert_ne _ (year_key_of f0) (year_key_of f)) by done.
      by rewrite (lookup_insert_ne _ f0 (year_key_of f)) by done.
    + rewrite (lookup_insert_ne _ (year_key_of f0) (year_key_of f)) by done.
      by rewrite (lookup_insert_ne _ f0 (year_key_of f)) by done.
Qed.

Lemma write_fields_one_row rows row iso3 y year l : forall fields fields',
  row ∈ rows ->
  (exists c0, row !! iso3_c = Some c0 /\ upper (strip (py_str c0)) = iso3) ->
  UN.row_year year_c row = Ok (y, year) ->
  (forall fc, fc ∈ l -> fc ∈ fcols) ->
  from_one_row iso3_c year_c fcols rows iso3 fields ->
  foldM (UN.write_field row year) fields l = Ok fields' ->
  from_one_row iso3_c year_c fcols rows iso3 fields'.
Proof.
  induction l as [|fc l IH]; intros fields fields' Hrow Hcode Hyear Hl Hinv;
    simpl.
  - by intros [= <-].
  - destruct (UN.write_field row year fields fc) as [fs1|e] eqn:Hstep; [|done].
    apply IH; try done.
    + intros fc' Hfc'. apply Hl. by right.
    + apply (write_field_one_row rows row iso3 y year fields fc); try done.
      apply Hl. left.
Qed.

Lemma read_row_one_row seen st row st' :
  (forall k fields, UN.result st !! k = Some fields ->
     from_one_row iso3_c year_c fcols seen k fields) ->
  UN.read_row iso3_c year_c fcols st row = Ok st' ->
  forall k fields, UN.result st' !! k = Some fields ->
    from_one_row iso3_c year_c fcols (seen ++ [row])%list k fields.
Proof.
  intros Hinv.
  assert (forall k fields, UN.result st !! k = Some fields ->
            from_one_row iso3_c year_c fcols (seen ++ [row])%list k fields)
    as Hsame.
  { intros k fields Hk. apply (from_one_row_mono seen); [|by apply Hinv].
    intros r Hr. apply elem_of_app. by left. }
  unfold UN.read_row.
  destruct (row !! iso3_c) as [c|] eqn:Hc; [|by intros [= <-]].
  destruct (negb (truthy c) || _); [by intros [= <-]|].
  destruct (UN.row_year year_c row) as [[y year]|e] eqn:Hy; simpl; [|done].
  destruct (2025 <? y)%Z; [by intros [= <-]|].
  destruct (match UN.best_year st !! _ with Some _ => _ | None => _ end);
    [by intros [= <-]|].
  destruct (foldM _ _ fcols) as [fs|e] eqn:Hfold; simpl; [|done].
  intros [= <-]. simpl. intros k fields.
  destruct (decide (upper (strip (py_str c)) = k)) as [<-|Hne].
  2:{ rewrite lookup_insert_ne by done. apply Hsame. }
  rewrite lookup_insert_eq. intros [= <-].
  apply (write_fields_one_row (seen ++ [row])%list row
           (upper (strip (py_str c))) y year fcols
           (default ∅ (UN.result st !! upper (strip (py_str c)))));
    try done.
  - apply elem_of_app. right. left.
  - by exists c.
  - destruct (UN.result st !! upper (strip (py_str c))) as [fs0|] eqn:H0;
      simpl; [by apply Hsame|].
    intros f Hf. by rewrite !lookup_empty.
Qed.

Lemma read_rows_one_row rows : forall seen st st',
  (forall k fields, UN.result st !! k = Some fields ->
     from_one_row iso3_c year_c fcols seen k fields) ->
  foldM (UN.read_row iso3_c year_c fcols) st rows = Ok st' ->
  forall k fields, UN.result st' !! k = Some fields ->
    from_one_row iso3_c year_c fcols (seen ++ rows)%list k fields.
Proof.
  induction rows as [|row rows IH]; intros seen st st' Hst Hf; simpl in Hf.
  - injection Hf as <-. by rewrite app_nil_r.
  - destruct (UN.read_row iso3_c year_c fcols st row) as [st1|e] eqn:Hs;
      [|done].
    replace (seen ++ row :: rows)%list with ((seen ++ [row]) ++ rows)%list
      by by rewrite <- app_assoc.
    apply (IH _ st1); [|done]. by apply (read_row_one_row seen st).
Qed.

End OneRow.

(** X16.  In a record [read_file] returns, every configured field has its
    value and its year from one and the same row below the header, a row of
    the record's code, or has neither: the value is what [float] makes of
    the cell of the field's column in that row, the year what is read of the
    year of that row.  No configured field name may be a companion key. *)
Theorem read_file_value_and_year_same_row :
  forall (all_rows : list (list cell)) (column_map : list (string * string))
         (r : gmap string (gmap string obsval)),
    companion_free column_map.*2 ->
    UN.read_file all_rows column_map = Ok r ->
    forall iso3 fields,
      r !! iso3 = Some fields ->
      exists h iso3_c,
        UN.find_header_row all_rows = Some h
        /\ UN.iso3_col (UN.map_columns (default [] (all_rows !! h)) column_map)
           = Some iso3_c
        /\ from_one_row iso3_c
             (UN.year_col
                (UN.map_columns (default [] (all_rows !! h)) column_map))
             (UN.field_cols
                (UN.map_columns (default [] (all_rows !! h)) column_map))
             (drop (S h) all_rows) iso3 fields.
Proof.
  intros rows cm r Hfree. unfold UN.read_file.
  destruct (UN.find_header_row rows) as [h|] eqn:Hh.
  2:{ intros [= <-] iso3 fields Hk. by rewrite lookup_empty in Hk. }
  set (cols := UN.map_columns _ cm).
  destruct (UN.iso3_col cols) as [ic|] eqn:Hic.
  2:{ intros [= <-] iso3 fields Hk. by rewrite lookup_empty in Hk. }
  destruct (UN.read_rows ic (UN.year_col cols) (UN.field_cols cols) _)
    as [st|e] eqn:Hrows; simpl; [|done].
  intros [= <-] iso3 fields Hk. exists h, ic. split; [done|]. split; [done|].
  assert (companion_free (UN.field_cols cols).*1) as Hfree'.
  { intros f g Hf Hg.
    apply Hfree; by apply (map_columns_names (default [] (rows !! h)) cm). }
  apply (read_rows_one_row ic (UN.year_col cols) (UN.field_cols cols) Hfree'
           (drop (S h) rows) [] (UN.Extraction ∅ ∅) st); [|exact Hrows|exact Hk].
  intros k fs Hl. simpl in Hl. by rewrite lookup_empty in Hl.
Qed.

(** On the sheet of two rows for France the value and the year of the
    dependency ratio are those of the second row. *)
Lemma read_file_value_and_year_same_row_witness :
  exists h iso3_c,
    UN.find_header_row tie_rows = Some h
    /\ UN.iso3_col
         (UN.map_columns (default [] (tie_rows !! h)) UN.columns_population)
       = Some iso3_c
    /\ from_one_row iso3_c
         (UN.year_col
            (UN.map_columns (default [] (tie_rows !! h)) UN.columns_population))
         (UN.field_cols
            (UN.map_columns (default [] (tie_rows !! h)) UN.columns_population))
         (drop (S h) tie_rows) "FRA"
         {[ "dependencyRatio" := OFloat (FNum 2);
            "dependencyRatio_year" := OStr "2020" ]}.
Proof.
  assert (companion_free UN.columns_population.*2) as Hfree.
  { apply companion_freeb_sound. vm_compute. reflexivity. }
  assert (UN.read_file tie_rows UN.columns_population
          = Ok ({[ "FRA" := {[ "dependencyRatio" := OFloat (FNum 2);
                               "dependencyRatio_year" := OStr "2020" ]} ]}
                : gmap string (gmap string obsval))) as Hfile
    by (vm_compute; reflexivity).
  apply (read_file_value_and_year_same_row _ _ _ Hfree Hfile "FRA").
  vm_compute. reflexivity.
Defined.
